(** * Thunderbolt/USB4 router configuration engine (router.c)

    A shallow embedding of the configuration-space command engine of the
    Thunderbolt driver: the route resolver ([router_lookup_device],
    [router_insert]), the per-router command scheduler
    ([router_schedule_locked]), the blocking, polled and asynchronous call
    wrappers, the response / notify / hotplug dispatchers and the capability
    walker, together with the properties the design document states about
    them.

    Conventions of the embedding.
    - C integers are [Z]; 32-bit words are kept in [0, 2^32) by the
      operations that build them.
    - A pointer that may be NULL is an [option ptr]; the pointee lives in a
      finite map of the [world] (one map for routers, one for commands).
    - A function that dereferences a pointer returns [option]: [None] is a
      dereference of a pointer that owns no object (a fault).
    - A TAILQ of commands is the list of its elements from head to tail.
      The list stands for the queue as long as the macros of queue(3) are
      used as their manual asks, on elements that are on no queue when they
      are inserted.  TAILQ_INSERT_TAIL of a command that is still linked
      leaves a structure that is no list (a sole element becomes its own
      successor, an inner element cuts off what followed it); the embedding
      has no value for it and [router_schedule_locked] gives [None] there.
      The module [Tailq] at the end of the file has the links themselves.
    - The frame transport (nhi.c) and the register layout headers are not
      part of this file of the driver; they are the interfaces
      [nhi_transport] and [tb_regs].  The sleep primitives and the callers'
      callbacks are variables of the section.
    - The [trace] of a world is instrumentation: it records the writes to
      the inflight slot, the submissions to the transport, the wakeups and
      the calls of free(9) on a router.  The events [Sleep] and [Delay] are
      for the sleep primitives, which are variables: an environment that
      records how long it was asked to wait writes them. *)

From Stdlib Require Import ZArith List Lia Bool.
From stdpp Require Import base option list gmap relations.
Import ListNotations.
Open Scope Z_scope.

(** ** errno values (sys/errno.h) *)

Definition ENOENT : Z := 2.
Definition ENOMEM : Z := 12.
Definition EBUSY : Z := 16.
Definition EEXIST : Z := 17.
Definition EINVAL : Z := 22.
Definition EWOULDBLOCK : Z := 35.
Definition ETIMEDOUT : Z := 60.

(** Modelled from the spec: the sizes of the request structures of tb_reg.h,
    which is not part of this file.  A read request and a notify are the
    route (two words), one attribute or event word and the trailing CRC
    word; a write request has the same header and CRC around its data
    words. *)
Definition sizeof_tb_cfg_read : Z := 16.
Definition sizeof_tb_cfg_write : Z := 16.
Definition sizeof_tb_cfg_notify : Z := 16.

(** Retry budget of the call wrappers. *)
Definition CFG_DEFAULT_RETRIES : Z := 3.
Definition CFG_DEFAULT_TIMEOUT : Z := 2.

(** ** Data model *)

(** An address of a heap object. *)
Definition ptr := nat.
Bind Scope nat_scope with ptr.

Record tb_route_t := { hi : Z; lo : Z }.

(** The transport's classification of a frame. *)
Inductive pdf_t := PDF_NONE | PDF_READ | PDF_WRITE | PDF_NOTIFY | PDF_HOTPLUG.

Definition pdf_eqb (a b : pdf_t) : bool :=
  match a, b with
  | PDF_NONE, PDF_NONE | PDF_READ, PDF_READ | PDF_WRITE, PDF_WRITE
  | PDF_NOTIFY, PDF_NOTIFY | PDF_HOTPLUG, PDF_HOTPLUG => true
  | _, _ => false
  end.

(** struct nhi_cmd_frame, as far as router.c touches it.  [data] is the frame
    payload as 32-bit words in memory order.  The C fields [resp_buffer] and
    [context] alias the owning command's [resp_buffer] and the command
    itself, so they are not separate fields here. *)
Record nhi_cmd_frame := {
  nhicmd_idx : Z;
  nhicmd_data : list Z;
  nhicmd_pdf : pdf_t;
  nhicmd_req_len : Z;
  nhicmd_flags : Z;
  nhicmd_timeout : Z;
  nhicmd_retries : Z;
  nhicmd_resp_len : Z
}.

(** The completion callback stored in a command: the engine's own
    [router_get_config_cb] or a function supplied by the caller of the
    asynchronous interface. *)
Inductive router_callback_t :=
| CB_router_get_config_cb
| CB_caller (k : nat).

(** struct router_command.  [cmd_callback_arg] is the caller's destination
    buffer (the words [callback_arg] points to). *)
Record router_command := {
  cmd_sc : ptr;
  cmd_nhicmd : nhi_cmd_frame;
  cmd_flags : Z;
  cmd_callback : option router_callback_t;
  cmd_callback_arg : list Z;
  cmd_dwlen : Z;
  cmd_timeout : Z;
  cmd_retries : Z;
  cmd_ev : Z;
  cmd_resp_buffer : list Z
}.

(** struct router_softc.  [adapters] is NULL until [_tb_router_attach]
    allocates the array of [1 + max_adap] child pointers. *)
Record router_softc := {
  route : tb_route_t;
  depth : Z;
  max_adap : Z;
  adapters : option (list (option ptr));
  suspended : bool;
  inflight_cmd : option ptr;
  cmd_queue : list ptr
}.

(** Instrumentation: what an observer of the engine sees. *)
Inductive event :=
| SlotAssign (sc cmd : ptr)            (* sc->inflight_cmd = cmd *)
| SlotClear (sc : ptr)                 (* sc->inflight_cmd = NULL *)
| TxSchedule (frame : nhi_cmd_frame) (err : Z)   (* nhi_tx_schedule() and its result *)
| Wakeup (cmd : ptr)                   (* wakeup(cmd) *)
| FreeRouter (sc : ptr)                (* free(sc, M_THUNDERBOLT) *)
| Sleep (chan : ptr) (timo : Z)        (* msleep(chan, ..., timo) *)
| Delay (usec : Z).                    (* DELAY(usec) *)

(** ** Interfaces of the missing parts *)

(** The frame transport (nhi.c). *)
Class nhi_transport := {
  ring : Type;
  nhi_alloc_tx_frame : ring -> option (nhi_cmd_frame * ring);
  nhi_free_tx_frame : ring -> nhi_cmd_frame -> ring;
  nhi_tx_schedule : ring -> nhi_cmd_frame -> Z * ring
}.

(** Constants and macros of tb_reg.h, tbcfg_reg.h, nhi_var.h and
    router_var.h. *)
Class tb_regs := {
  CMD_REQ_COMPLETE : Z;
  CMD_RESP_COMPLETE : Z;
  RCMD_POLLED : Z;
  RCMD_POLL_COMPLETE : Z;
  NHI_CMD_TIMEOUT : Z;
  TB_CFG_SIZE_MASK : Z;
  TB_CFG_SIZE_SHIFT : Z;
  TB_CONFIG_ADDR : Z -> Z -> Z -> Z -> Z -> Z;
  tb_calc_crc : list Z -> Z;
  resp_buffer_words : nat;
  GET_NOTIFY_EVENT : Z -> Z;
  GET_NOTIFY_ADAPTER : Z -> Z;
  TB_CFG_ERR_CONN : Z;
  TB_CFG_ERR_LINK : Z;
  TB_CFG_ERR_ADDR : Z;
  TB_CFG_ERR_ADP : Z;
  TB_CFG_ERR_ENUM : Z;
  TB_CFG_ERR_NUA : Z;
  TB_CFG_ERR_LEN : Z;
  TB_CFG_ERR_HEC : Z;
  TB_CFG_ERR_FC : Z;
  TB_CFG_ERR_PLUG : Z;
  TB_CFG_ERR_LOCK : Z;
  TB_CFG_DP_BW : Z;
  TB_CFG_HP_ACK : Z;
  TB_CFG_PG_PLUG : Z;
  TB_CFG_UPG_UNPLUG : Z;
  TB_CFG_ADPT_MASK : Z;
  TB_CFG_CAP_OFFSET_MAX : Z;
  TB_CFG_CS_ROUTER : Z;
  TB_CFG_CAP_VSC : Z;
  (* union tb_cfg_cap: its size in words and its fields, read from the
     words of the capability buffer *)
  tb_cfg_cap_words : nat;
  tbcap_hdr_cap_id : list Z -> Z;
  tbcap_hdr_next_cap : list Z -> Z;
  tbcap_vsc_vsc_id : list Z -> Z;
  tbcap_vsc_len : list Z -> Z;
  tbcap_vsec_vsec_next_cap : list Z -> Z;
  tbcap_vsec_vsec_len : list Z -> Z
}.

Section Router.
Context {T : nhi_transport} {K : tb_regs}.

(** The state of one topology instance. *)
Record world := {
  routers : gmap ptr router_softc;
  commands : gmap ptr router_command;
  root : option ptr;
  ring0 : ring;
  trace : list event
}.

Definition set_routers (w : world) (m : gmap ptr router_softc) : world :=
  {| routers := m; commands := commands w; root := root w;
     ring0 := ring0 w; trace := trace w |}.

Definition set_commands (w : world) (m : gmap ptr router_command) : world :=
  {| routers := routers w; commands := m; root := root w;
     ring0 := ring0 w; trace := trace w |}.

Definition set_ring0 (w : world) (r : ring) : world :=
  {| routers := routers w; commands := commands w; root := root w;
     ring0 := r; trace := trace w |}.

Definition log (w : world) (e : event) : world :=
  {| routers := routers w; commands := commands w; root := root w;
     ring0 := ring0 w; trace := trace w ++ [e] |}.

Definition with_suspended (r : router_softc) (b : bool) : router_softc :=
  {| route := route r; depth := depth r; max_adap := max_adap r;
     adapters := adapters r; suspended := b;
     inflight_cmd := inflight_cmd r; cmd_queue := cmd_queue r |}.

Definition with_inflight_cmd (r : router_softc) (c : option ptr) : router_softc :=
  {| route := route r; depth := depth r; max_adap := max_adap r;
     adapters := adapters r; suspended := suspended r;
     inflight_cmd := c; cmd_queue := cmd_queue r |}.

Definition with_cmd_queue (r : router_softc) (q : list ptr) : router_softc :=
  {| route := route r; depth := depth r; max_adap := max_adap r;
     adapters := adapters r; suspended := suspended r;
     inflight_cmd := inflight_cmd r; cmd_queue := q |}.

Definition with_adapters (r : router_softc) (a : option (list (option ptr))) : router_softc :=
  {| route := route r; depth := depth r; max_adap := max_adap r;
     adapters := a; suspended := suspended r;
     inflight_cmd := inflight_cmd r; cmd_queue := cmd_queue r |}.

(** [sc->inflight_cmd = c], with its instrumentation event. *)
Definition set_inflight (w : world) (sc : ptr) (c : option ptr) : option world :=
  r ← routers w !! sc;
  Some (log (set_routers w (<[sc := with_inflight_cmd r c]> (routers w)))
            (match c with Some p => SlotAssign sc p | None => SlotClear sc end)).

(** [sc->cmd_queue = q] (the TAILQ operations below go through it). *)
Definition set_queue (w : world) (sc : ptr) (q : list ptr) : option world :=
  r ← routers w !! sc;
  Some (set_routers w (<[sc := with_cmd_queue r q]> (routers w))).

(** ** Power-state hooks *)

(** tb_router_resume *)
Definition tb_router_resume (w : world) (sc : ptr) : option (Z * world) :=
  r ← routers w !! sc;
  if suspended r then Some (0, w)
  else Some (0, set_routers w (<[sc := with_suspended r false]> (routers w))).

(** ** Detach *)

(** [free(sc, M_THUNDERBOLT)]: the router leaves the heap, and the call is
    logged. *)
Definition free_router (w : world) (sc : ptr) : world :=
  log (set_routers w (delete sc (routers w))) (FreeRouter sc).

(** tb_router_detach.  The source calls [free(sc)] under the test
    [sc->adapters != NULL] and again under [sc != NULL]. *)
Definition tb_router_detach (w : world) (sc : ptr) : option (Z * world) :=
  r ← routers w !! sc;
  match cmd_queue r with
  | _ :: _ => Some (EBUSY, w)
  | [] =>
      let w1 := match adapters r with
                | Some _ => free_router w sc
                | None => w
                end in
      Some (0, free_router w1 sc)
  end.

(** ** Command scheduler *)

(** The [while] loop of router_schedule_locked.  [error] is the local of the
    same name.  One unit of [fuel] is spent per loop iteration. *)
Fixpoint router_schedule_loop (fuel : nat) (w : world) (sc : ptr) (error : Z)
  : option (Z * world) :=
  r ← routers w !! sc;
  match inflight_cmd r, cmd_queue r with
  | None, cmd :: rest =>
      match fuel with
      | O => None
      | S fuel' =>
          w1 ← set_queue w sc rest;                 (* TAILQ_REMOVE *)
          c ← commands w1 !! cmd;                   (* nhicmd = cmd->nhicmd *)
          w2 ← set_inflight w1 sc (Some cmd);
          let '(e, rg) := nhi_tx_schedule (ring0 w2) (cmd_nhicmd c) in
          let w3 := log (set_ring0 w2 rg) (TxSchedule (cmd_nhicmd c) e) in
          if e =? 0 then router_schedule_loop fuel' w3 sc e
          else
            w4 ← set_inflight w3 sc None;
            if e =? EBUSY then
              w5 ← set_queue w4 sc (cmd :: rest);   (* TAILQ_INSERT_HEAD *)
              Some (0, w5)
            else Some (e, w4)
      end
  | _, _ => Some (error, w)
  end.

(** router_schedule_locked.  TAILQ_INSERT_TAIL appends a command that is on
    no queue.  The function does not test that; for a command that is still
    linked in the queue of [sc] the macro leaves no list behind and the
    result is [None] (see the conventions at the top).  Every caller in the
    file hands over a command that router_alloc_cmd made for [sc], so the
    queue of [sc] is the only one the command can be on. *)
Definition router_schedule_locked (w : world) (sc : ptr) (cmd : option ptr)
  : option (Z * world) :=
  r ← routers w !! sc;
  w1 ← match cmd with
       | Some c =>
           if bool_decide (c ∈ cmd_queue r) then None
           else set_queue w sc (cmd_queue r ++ [c])      (* TAILQ_INSERT_TAIL *)
       | None => Some w
       end;
  r1 ← routers w1 !! sc;
  router_schedule_loop (S (length (cmd_queue r1))) w1 sc 0.

(** What TAILQ_INSERT_TAIL asks of the command that router_schedule_locked
    is handed: it is not linked in the queue of the router. *)
Definition unlinked (r : router_softc) (cmd : option ptr) : Prop :=
  match cmd with
  | Some c => c ∉ cmd_queue r
  | None => True
  end.

(** router_schedule: the same under the router's mutex. *)
Definition router_schedule (w : world) (sc : ptr) (cmd : option ptr)
  : option (Z * world) :=
  router_schedule_locked w sc cmd.


(** ** Words and buffers *)

(** htobe32 / be32toh on a little-endian host: the byte swap of a 32-bit
    word. *)
Definition bswap32 (x : Z) : Z :=
  Z.lor (Z.lor (Z.shiftl (Z.land x 255) 24)
               (Z.shiftl (Z.land (Z.shiftr x 8) 255) 16))
        (Z.lor (Z.shiftl (Z.land (Z.shiftr x 16) 255) 8)
               (Z.land (Z.shiftr x 24) 255)).
Definition htobe32 := bswap32.
Definition be32toh := bswap32.

(** [d[i]] of a word array (0 past its end). *)
Definition word_at (d : list Z) (i : nat) : Z := default 0 (d !! i).

(** bzero of the first [n] words. *)
Definition bzero_words (n : nat) (d : list Z) : list Z :=
  replicate (Nat.min n (length d)) 0 ++ drop n d.

(** [for (i = 0; i < n; i++) d[i] = htobe32(d[i])] *)
Definition htobe32_words (n : nat) (d : list Z) : list Z :=
  (htobe32 <$> take n d) ++ drop n d.

(** bcopy of [n] words from [src] to [dst]. *)
Definition bcopy_words (n : nat) (src dst : list Z) : list Z :=
  take n src ++ drop n dst.

(** TB_ROUTE and the same packing of a [tb_route_t] argument. *)
Definition route_u64 (rt : tb_route_t) : Z :=
  Z.lor (lo rt) (Z.shiftl (hi rt) 32).
Definition TB_ROUTE (r : router_softc) : Z := route_u64 (route r).

(** ** Command objects *)

Definition with_nhicmd (c : router_command) (f : nhi_cmd_frame) : router_command :=
  {| cmd_sc := cmd_sc c; cmd_nhicmd := f; cmd_flags := cmd_flags c;
     cmd_callback := cmd_callback c; cmd_callback_arg := cmd_callback_arg c;
     cmd_dwlen := cmd_dwlen c; cmd_timeout := cmd_timeout c;
     cmd_retries := cmd_retries c; cmd_ev := cmd_ev c;
     cmd_resp_buffer := cmd_resp_buffer c |}.

Definition with_cmd_flags (c : router_command) (f : Z) : router_command :=
  {| cmd_sc := cmd_sc c; cmd_nhicmd := cmd_nhicmd c; cmd_flags := f;
     cmd_callback := cmd_callback c; cmd_callback_arg := cmd_callback_arg c;
     cmd_dwlen := cmd_dwlen c; cmd_timeout := cmd_timeout c;
     cmd_retries := cmd_retries c; cmd_ev := cmd_ev c;
     cmd_resp_buffer := cmd_resp_buffer c |}.

Definition with_callback_arg (c : router_command) (b : list Z) : router_command :=
  {| cmd_sc := cmd_sc c; cmd_nhicmd := cmd_nhicmd c; cmd_flags := cmd_flags c;
     cmd_callback := cmd_callback c; cmd_callback_arg := b;
     cmd_dwlen := cmd_dwlen c; cmd_timeout := cmd_timeout c;
     cmd_retries := cmd_retries c; cmd_ev := cmd_ev c;
     cmd_resp_buffer := cmd_resp_buffer c |}.

Definition with_cmd_ev (c : router_command) (e : Z) : router_command :=
  {| cmd_sc := cmd_sc c; cmd_nhicmd := cmd_nhicmd c; cmd_flags := cmd_flags c;
     cmd_callback := cmd_callback c; cmd_callback_arg := cmd_callback_arg c;
     cmd_dwlen := cmd_dwlen c; cmd_timeout := cmd_timeout c;
     cmd_retries := cmd_retries c; cmd_ev := e;
     cmd_resp_buffer := cmd_resp_buffer c |}.

Definition with_resp_buffer (c : router_command) (b : list Z) : router_command :=
  {| cmd_sc := cmd_sc c; cmd_nhicmd := cmd_nhicmd c; cmd_flags := cmd_flags c;
     cmd_callback := cmd_callback c; cmd_callback_arg := cmd_callback_arg c;
     cmd_dwlen := cmd_dwlen c; cmd_timeout := cmd_timeout c;
     cmd_retries := cmd_retries c; cmd_ev := cmd_ev c;
     cmd_resp_buffer := b |}.

Definition with_nhicmd_data (f : nhi_cmd_frame) (d : list Z) : nhi_cmd_frame :=
  {| nhicmd_idx := nhicmd_idx f; nhicmd_data := d; nhicmd_pdf := nhicmd_pdf f;
     nhicmd_req_len := nhicmd_req_len f; nhicmd_flags := nhicmd_flags f;
     nhicmd_timeout := nhicmd_timeout f; nhicmd_retries := nhicmd_retries f;
     nhicmd_resp_len := nhicmd_resp_len f |}.

Definition with_nhicmd_flags (f : nhi_cmd_frame) (fl : Z) : nhi_cmd_frame :=
  {| nhicmd_idx := nhicmd_idx f; nhicmd_data := nhicmd_data f;
     nhicmd_pdf := nhicmd_pdf f; nhicmd_req_len := nhicmd_req_len f;
     nhicmd_flags := fl; nhicmd_timeout := nhicmd_timeout f;
     nhicmd_retries := nhicmd_retries f; nhicmd_resp_len := nhicmd_resp_len f |}.

(** A command as malloc(M_ZERO) leaves it, with its frame attached. *)
Definition zeroed_command (sc : ptr) (f : nhi_cmd_frame) : router_command :=
  {| cmd_sc := sc; cmd_nhicmd := f; cmd_flags := 0; cmd_callback := None;
     cmd_callback_arg := []; cmd_dwlen := 0; cmd_timeout := 0;
     cmd_retries := 0; cmd_ev := 0;
     cmd_resp_buffer := replicate resp_buffer_words 0 |}.

(** router_alloc_cmd.  [mem] is what malloc(9) returned for the command
    (NULL or a new address).  The result is the error or the command. *)
Definition router_alloc_cmd (w : world) (sc : ptr) (mem : option ptr)
  : option ((Z + ptr) * world) :=
  _ ← routers w !! sc;
  match mem with
  | None => Some (inl ENOMEM, w)
  | Some cmd =>
      match nhi_alloc_tx_frame (ring0 w) with
      | None => Some (inl EBUSY, w)          (* free(cmd) *)
      | Some (f, rg) =>
          Some (inr cmd,
                set_commands (set_ring0 w rg)
                  (<[cmd := zeroed_command sc f]> (commands w)))
      end
  end.

(** router_free_cmd *)
Definition router_free_cmd (w : world) (sc : ptr) (cmd : option ptr)
  : option world :=
  match cmd with
  | None => Some w
  | Some p =>
      c ← commands w !! p;
      _ ← routers w !! sc;
      Some (set_commands
              (set_ring0 w (nhi_free_tx_frame (ring0 w) (cmd_nhicmd c)))
              (delete p (commands w)))
  end.

(** The part router_prepare_read and router_prepare_write share: byte-swap
    the message words, append the CRC, fill in the frame and the retry
    budget. *)
Definition router_prepare (p : pdf_t) (c : router_command) (len : Z)
  : router_command :=
  let f := cmd_nhicmd c in
  let msglen := Z.to_nat ((len - 4) / 4) in
  let d1 := htobe32_words msglen (nhicmd_data f) in
  let d2 := <[msglen := htobe32 (tb_calc_crc (take msglen d1))]> d1 in
  let f' := {| nhicmd_idx := nhicmd_idx f; nhicmd_data := d2;
               nhicmd_pdf := p; nhicmd_req_len := len;
               nhicmd_flags := nhicmd_flags f;
               nhicmd_timeout := NHI_CMD_TIMEOUT; nhicmd_retries := 0;
               nhicmd_resp_len := (cmd_dwlen c + 3) * 4 |} in
  {| cmd_sc := cmd_sc c; cmd_nhicmd := f'; cmd_flags := cmd_flags c;
     cmd_callback := cmd_callback c; cmd_callback_arg := cmd_callback_arg c;
     cmd_dwlen := cmd_dwlen c; cmd_timeout := CFG_DEFAULT_TIMEOUT;
     cmd_retries := CFG_DEFAULT_RETRIES; cmd_ev := cmd_ev c;
     cmd_resp_buffer := cmd_resp_buffer c |}.

(** router_prepare_read *)
Definition router_prepare_read (c : router_command) (len : Z) : router_command :=
  router_prepare PDF_READ c len.

(** router_prepare_write *)
Definition router_prepare_write (c : router_command) (len : Z) : router_command :=
  router_prepare PDF_WRITE c len.

(** The request header both builders write: route words, then the address
    attributes. *)
Definition write_header (rt : tb_route_t) (attrs : Z) (d : list Z) : list Z :=
  <[2%nat := attrs]> (<[1%nat := lo rt]> (<[0%nat := hi rt]> d)).

Definition with_request (c : router_command) (d : list Z)
    (cb : option router_callback_t) (buf : list Z) (dwlen : Z) : router_command :=
  {| cmd_sc := cmd_sc c; cmd_nhicmd := with_nhicmd_data (cmd_nhicmd c) d;
     cmd_flags := cmd_flags c; cmd_callback := cb; cmd_callback_arg := buf;
     cmd_dwlen := dwlen; cmd_timeout := cmd_timeout c;
     cmd_retries := cmd_retries c; cmd_ev := cmd_ev c;
     cmd_resp_buffer := cmd_resp_buffer c |}.

(** _tb_config_read *)
Definition _tb_config_read (w : world) (sc : ptr) (space adapter offset dwlen : Z)
    (buf : list Z) (cb : option router_callback_t) (mem : option ptr)
  : option ((Z + ptr) * world) :=
  '(res, w1) ← router_alloc_cmd w sc mem;
  match res with
  | inl error => Some (inl error, w1)
  | inr cmd =>
      r ← routers w1 !! sc;
      c ← commands w1 !! cmd;
      let d0 := bzero_words (Z.to_nat (sizeof_tb_cfg_read / 4))
                  (nhicmd_data (cmd_nhicmd c)) in
      let d1 := write_header (route r)
                  (TB_CONFIG_ADDR 0 space adapter dwlen offset) d0 in
      let c1 := router_prepare_read (with_request c d1 cb buf dwlen)
                  sizeof_tb_cfg_read in
      Some (inr cmd, set_commands w1 (<[cmd := c1]> (commands w1)))
  end.

(** [for (i = 0; i < dwlen; i++) msg->data[i] = buf[i]] *)
Fixpoint write_data (i : nat) (buf d : list Z) : list Z :=
  match buf with
  | [] => d
  | x :: buf' => write_data (S i) buf' (<[i := x]> d)
  end.

(** _tb_config_write *)
Definition _tb_config_write (w : world) (sc : ptr) (space adapter offset dwlen : Z)
    (buf : list Z) (cb : option router_callback_t) (mem : option ptr)
  : option ((Z + ptr) * world) :=
  let msglen := sizeof_tb_cfg_write + dwlen * 4 in
  '(res, w1) ← router_alloc_cmd w sc mem;
  match res with
  | inl error => Some (inl error, w1)
  | inr cmd =>
      r ← routers w1 !! sc;
      c ← commands w1 !! cmd;
      let d0 := bzero_words (Z.to_nat (msglen / 4))
                  (nhicmd_data (cmd_nhicmd c)) in
      let d1 := write_header (route r)
                  (TB_CONFIG_ADDR 0 space adapter dwlen offset) d0 in
      let d2 := write_data 3 (take (Z.to_nat dwlen) buf) d1 in
      let c1 := router_prepare_write (with_request c d2 cb buf dwlen) msglen in
      Some (inr cmd, set_commands w1 (<[cmd := c1]> (commands w1)))
  end.

(** ** Completion callbacks *)

(** The kernel services and the callers' callbacks, which live outside the
    driver file.  [caller_cb k] is the k-th callback a caller of the
    asynchronous interface supplied.  [msleep] returns its error code and
    the world as the other threads and interrupt handlers left it while the
    mutex was released; [DELAY] likewise, for the polled wait. *)
Variable caller_cb : nat -> world -> ptr -> ptr -> world.
Variable msleep : world -> ptr -> Z -> Z * world.
Variable DELAY : world -> Z -> world.
Variable hz : Z.

(** router_get_config_cb *)
Definition router_get_config_cb (w : world) (sc cmd : ptr) : option world :=
  c ← commands w !! cmd;
  let c1 := if cmd_ev c =? 0
            then with_callback_arg c
                   (bcopy_words (Z.to_nat (cmd_dwlen c)) (cmd_resp_buffer c)
                      (cmd_callback_arg c))
            else c in
  let w1 := set_commands w (<[cmd := c1]> (commands w)) in
  w2 ← set_inflight w1 sc None;
  let w3 := if Z.land (cmd_flags c1) RCMD_POLLED =? 0
            then log w2 (Wakeup cmd)
            else set_commands w2
                   (<[cmd := with_cmd_flags c1
                               (Z.lor (cmd_flags c1) RCMD_POLL_COMPLETE)]>
                      (commands w2)) in
  '(_, w4) ← router_schedule_locked w3 sc None;
  Some w4.

(** [cmd->callback(sc, cmd, cmd->callback_arg)] *)
Definition call_callback (w : world) (sc cmd : ptr) : option world :=
  c ← commands w !! cmd;
  cb ← cmd_callback c;
  match cb with
  | CB_router_get_config_cb => router_get_config_cb w sc cmd
  | CB_caller k => Some (caller_cb k w sc cmd)
  end.

(** ** Blocking, polled and asynchronous wrappers *)

(** The retry loop of tb_config_read and tb_config_write:
    [while (retries-- >= 0) { schedule; msleep; clear the slot }].
    [error] is the value of the local when the loop is entered. *)
Fixpoint tb_config_retry_loop (fuel : nat) (w : world) (sc cmd : ptr)
    (retries error : Z) : option (Z * world) :=
  if retries >=? 0 then
    match fuel with
    | O => None
    | S fuel' =>
        '(e, w1) ← router_schedule_locked w sc (Some cmd);
        if negb (e =? 0) then Some (e, w1)
        else
          c ← commands w1 !! cmd;
          let '(e2, w2) := msleep w1 cmd (cmd_timeout c * hz) in
          if negb (e2 =? EWOULDBLOCK) then Some (e2, w2)
          else
            w3 ← set_inflight w2 sc None;
            tb_config_retry_loop fuel' w3 sc cmd (retries - 1) e2
    end
  else Some (error, w).

(** What follows the loop in every blocking and polled wrapper: force
    EINVAL on an event code, free the command, hand back the caller's
    buffer. *)
Definition tb_config_finish (w : world) (sc cmd : ptr) (error : Z)
  : option (Z * list Z * world) :=
  c ← commands w !! cmd;
  let error := if negb (cmd_ev c =? 0) then EINVAL else error in
  w1 ← router_free_cmd w sc (Some cmd);
  Some (error, cmd_callback_arg c, w1).

(** The body of a blocking wrapper once its command is built. *)
Definition tb_config_blocking (w : world) (sc cmd : ptr)
  : option (Z * list Z * world) :=
  c ← commands w !! cmd;
  let retries := cmd_retries c in
  '(error, w1) ← tb_config_retry_loop (Z.to_nat (retries + 1)) w sc cmd retries 0;
  tb_config_finish w1 sc cmd error.

(** tb_config_read *)
Definition tb_config_read (w : world) (sc : ptr) (space adapter offset dwlen : Z)
    (buf : list Z) (mem : option ptr) : option (Z * list Z * world) :=
  '(res, w0) ← _tb_config_read w sc space adapter offset dwlen buf
                 (Some CB_router_get_config_cb) mem;
  match res with
  | inl error => Some (error, buf, w0)
  | inr cmd => tb_config_blocking w0 sc cmd
  end.

(** tb_config_write *)
Definition tb_config_write (w : world) (sc : ptr) (space adapter offset dwlen : Z)
    (buf : list Z) (mem : option ptr) : option (Z * list Z * world) :=
  '(res, w0) ← _tb_config_write w sc space adapter offset dwlen buf
                 (Some CB_router_get_config_cb) mem;
  match res with
  | inl error => Some (error, buf, w0)
  | inr cmd => tb_config_blocking w0 sc cmd
  end.

(** The inner loop of tb_config_read_polled:
    [while (timeout > 0) { DELAY; if (complete) break; timeout -= 100000; }].
    It returns what is left of [timeout]. *)
Fixpoint tb_config_poll_wait (fuel : nat) (w : world) (cmd : ptr) (timeout : Z)
  : option (Z * world) :=
  if timeout >? 0 then
    match fuel with
    | O => None
    | S fuel' =>
        let w1 := DELAY w (100 * 1000) in
        c ← commands w1 !! cmd;
        if negb (Z.land (cmd_flags c) RCMD_POLL_COMPLETE =? 0)
        then Some (timeout, w1)
        else tb_config_poll_wait fuel' w1 cmd (timeout - 100000)
    end
  else Some (timeout, w).

(** The retry loop of tb_config_read_polled.  [timeout] is the local that is
    set once, before the loop. *)
Fixpoint tb_config_poll_loop (fuel : nat) (w : world) (sc cmd : ptr)
    (retries timeout error : Z) : option (Z * world) :=
  if retries >=? 0 then
    match fuel with
    | O => None
    | S fuel' =>
        '(e, w1) ← router_schedule_locked w sc (Some cmd);
        if negb (e =? 0) then Some (e, w1)
        else
          '(timeout', w2) ← tb_config_poll_wait (Z.to_nat timeout) w1 cmd timeout;
          c ← commands w2 !! cmd;
          if Z.land (cmd_flags c) RCMD_POLL_COMPLETE =? 0 then
            w3 ← set_inflight w2 sc None;
            tb_config_poll_loop fuel' w3 sc cmd (retries - 1) timeout' ETIMEDOUT
          else Some (e, w2)
    end
  else Some (error, w).

(** tb_config_read_polled *)
Definition tb_config_read_polled (w : world) (sc : ptr)
    (space adapter offset dwlen : Z) (buf : list Z) (mem : option ptr)
  : option (Z * list Z * world) :=
  '(res, w0) ← _tb_config_read w sc space adapter offset dwlen buf
                 (Some CB_router_get_config_cb) mem;
  match res with
  | inl error => Some (error, buf, w0)
  | inr cmd =>
      c ← commands w0 !! cmd;
      let retries := cmd_retries c in
      let c1 := with_cmd_flags c (Z.lor (cmd_flags c) RCMD_POLLED) in
      let w1 := set_commands w0 (<[cmd := c1]> (commands w0)) in
      let timeout := cmd_timeout c1 * 1000000 in
      '(error, w2) ← tb_config_poll_loop (Z.to_nat (retries + 1)) w1 sc cmd
                       retries timeout 0;
      tb_config_finish w2 sc cmd error
  end.

(** tb_config_read_async *)
Definition tb_config_read_async (w : world) (sc : ptr)
    (space adapter offset dwlen : Z) (buf : list Z)
    (cb : option router_callback_t) (mem : option ptr) : option (Z * world) :=
  '(res, w0) ← _tb_config_read w sc space adapter offset dwlen buf cb mem;
  match res with
  | inl error => Some (error, w0)
  | inr cmd => router_schedule w0 sc (Some cmd)
  end.

(** ** Route resolver *)

(** The [while (cursor != NULL)] loop of router_lookup_device.  The result
    is the error code and [*dev]. *)
Fixpoint router_lookup_loop (fuel : nat) (w : world) (cursor : option ptr)
    (search_rt remainder_rt : Z) : option (Z * option ptr) :=
  match cursor with
  | None => Some (ENOENT, None)
  | Some cur =>
      match fuel with
      | O => None
      | S fuel' =>
          c ← routers w !! cur;
          if TB_ROUTE c =? search_rt then Some (0, Some cur)
          else
            let hop := Z.land remainder_rt 255 in
            let remainder_rt := Z.shiftr remainder_rt 8 in
            if hop =? 0 then Some (ENOENT, None)
            else if hop >? max_adap c then Some (EINVAL, None)
            else
              match adapters c with
              | None => Some (EINVAL, None)
              | Some arr =>
                  next ← arr !! Z.to_nat hop;
                  router_lookup_loop fuel' w next search_rt remainder_rt
              end
      end
  end.

(** router_lookup_device.  The cursor starts at tb_config_get_root(sc); a
    64-bit route is exhausted after eight hops, so nine iterations are
    enough. *)
Definition router_lookup_device (w : world) (sc : ptr) (rt : tb_route_t)
  : option (Z * option ptr) :=
  _ ← routers w !! sc;
  router_lookup_loop 9 w (root w) (route_u64 rt) (route_u64 rt).

(** router_insert *)
Definition router_insert (w : world) (sc : ptr) (parent : option ptr)
  : option (Z * world) :=
  match parent with
  | None => Some (EINVAL, w)
  | Some par =>
      s ← routers w !! sc;
      p ← routers w !! par;
      let this_rt := TB_ROUTE s in
      if (Z.shiftr this_rt (depth s * 8) >? 255) || negb (depth p + 1 =? depth s)
      then Some (EINVAL, w)
      else
        let this_hop := Z.land (Z.shiftr this_rt (depth s * 8)) 255 in
        if this_hop >? max_adap p then Some (EINVAL, w)
        else
          arr ← adapters p;
          slot ← arr !! Z.to_nat this_hop;
          match slot with
          | Some _ => Some (EEXIST, w)
          | None =>
              Some (0, set_routers w
                         (<[par := with_adapters p
                                     (Some (<[Z.to_nat this_hop := Some sc]> arr))]>
                            (routers w)))
          end
  end.

(** ** Response and event dispatch *)

(** router_complete_intr: [cmd] is [nhicmd->context]. *)
Definition router_complete_intr (w : world) (cmd : ptr) : option world :=
  c ← commands w !! cmd;
  if negb (Z.land (nhicmd_flags (cmd_nhicmd c)) CMD_RESP_COMPLETE =? 0)
  then call_callback w (cmd_sc c) cmd
  else Some w.

(** [for (i = 0; i < n; i++) resp_buffer[i] = be32toh(read->data[i])], where
    [read->data] starts at the fourth word of the received frame. *)
Fixpoint copy_response (n : nat) (data buf : list Z) : list Z :=
  match n with
  | O => buf
  | S i => <[i := be32toh (word_at data (3 + i))]> (copy_response i data buf)
  end.

(** router_response_intr: [eof] is the packet type of the receive
    descriptor and [data] the words of the received frame. *)
Definition router_response_intr (w : world) (sc : ptr) (eof : pdf_t)
    (data : list Z) : option world :=
  let rt_hi := be32toh (word_at data 0) in
  let rt_lo := be32toh (word_at data 1) in
  let attrs := be32toh (word_at data 2) in
  let len := Z.shiftr (Z.land attrs TB_CFG_SIZE_MASK) TB_CFG_SIZE_SHIFT in
  let rt := {| hi := Z.land rt_hi 2147483647; lo := rt_lo |} in
  '(error, dev) ← router_lookup_device w sc rt;
  match error =? 0, dev with
  | true, Some dev =>
      d ← routers w !! dev;
      match inflight_cmd d with
      | None => Some w
      | Some cmd =>
          c ← commands w !! cmd;
          let f := cmd_nhicmd c in
          let c1 := if pdf_eqb eof PDF_READ
                    then with_resp_buffer c
                           (copy_response (Z.to_nat (Z.min len (nhicmd_resp_len f)))
                              data (cmd_resp_buffer c))
                    else c in
          let f1 := with_nhicmd_flags f (Z.lor (nhicmd_flags f) CMD_RESP_COMPLETE) in
          let w1 := set_commands w (<[cmd := with_nhicmd c1 f1]> (commands w)) in
          if negb (Z.land (nhicmd_flags f1) CMD_REQ_COMPLETE =? 0)
          then call_callback w1 dev cmd
          else Some w1
      end
  | _, _ => Some w
  end.

(** The case labels of the switch in router_notify_intr. *)
Definition notify_recognized (ev : Z) : bool :=
  existsb (Z.eqb ev)
    [TB_CFG_ERR_CONN; TB_CFG_ERR_LINK; TB_CFG_ERR_ADDR; TB_CFG_ERR_ADP;
     TB_CFG_ERR_ENUM; TB_CFG_ERR_NUA; TB_CFG_ERR_LEN; TB_CFG_ERR_HEC;
     TB_CFG_ERR_FC; TB_CFG_ERR_PLUG; TB_CFG_ERR_LOCK; TB_CFG_HP_ACK;
     TB_CFG_DP_BW].

(** router_notify_intr *)
Definition router_notify_intr (w : world) (sc : ptr) (data : list Z)
  : option world :=
  let event_adap := be32toh (word_at data 2) in
  let ev := GET_NOTIFY_EVENT event_adap in
  if notify_recognized ev then
    r ← routers w !! sc;
    match inflight_cmd r with
    | Some cmd =>
        c ← commands w !! cmd;
        call_callback
          (set_commands w (<[cmd := with_cmd_ev c ev]> (commands w))) sc cmd
    | None => Some w
    end
  else Some w.

(** struct tb_cfg_hotplug, in host byte order. *)
Record tb_cfg_hotplug := { hp_route : tb_route_t; adapter_attrs : Z }.

(** The frame router_hotplug_ack builds in the frame [f] it was given. *)
Definition hotplug_ack_frame (f : nhi_cmd_frame) (event : tb_cfg_hotplug)
    (unplug : bool) : nhi_cmd_frame :=
  let len := sizeof_tb_cfg_notify in
  let d0 := bzero_words (Z.to_nat (len / 4)) (nhicmd_data f) in
  let d1 := write_header (hp_route event)
              (Z.lor TB_CFG_HP_ACK
                 (if unplug then TB_CFG_UPG_UNPLUG else TB_CFG_PG_PLUG)) d0 in
  let msglen := Z.to_nat ((len - 4) / 4) in
  let d2 := htobe32_words msglen d1 in
  let d3 := <[msglen := htobe32 (tb_calc_crc (take msglen d2))]> d2 in
  {| nhicmd_idx := nhicmd_idx f; nhicmd_data := d3; nhicmd_pdf := PDF_NOTIFY;
     nhicmd_req_len := len; nhicmd_flags := nhicmd_flags f;
     nhicmd_timeout := NHI_CMD_TIMEOUT; nhicmd_retries := 0;
     nhicmd_resp_len := nhicmd_resp_len f |}.

(** router_hotplug_ack *)
Definition router_hotplug_ack (w : world) (sc : ptr) (event : tb_cfg_hotplug)
    (unplug : bool) (mem : option ptr) : option world :=
  '(res, w1) ← router_alloc_cmd w sc mem;
  match res with
  | inl _ => Some w1
  | inr cmd =>
      c ← commands w1 !! cmd;
      let f := hotplug_ack_frame (cmd_nhicmd c) event unplug in
      let w2 := set_commands w1 (<[cmd := with_nhicmd c f]> (commands w1)) in
      let '(err, rg) := nhi_tx_schedule (ring0 w2) f in
      let w3 := log (set_ring0 w2 rg) (TxSchedule f err) in
      router_free_cmd w3 sc (Some cmd)
  end.

(** The event router_hotplug_intr parses from a received frame, with the
    locals [unplug] and [adap_num]. *)
Definition hotplug_event (data : list Z) : tb_cfg_hotplug :=
  {| hp_route := {| hi := be32toh (word_at data 0);
                    lo := be32toh (word_at data 1) |};
     adapter_attrs := be32toh (word_at data 2) |}.
Definition hotplug_unplug (event : tb_cfg_hotplug) : bool :=
  negb (Z.land (adapter_attrs event) TB_CFG_UPG_UNPLUG =? 0).
Definition hotplug_adap_num (event : tb_cfg_hotplug) : Z :=
  Z.land (Z.land (adapter_attrs event) TB_CFG_ADPT_MASK) 255.

(** router_hotplug_intr *)
Definition router_hotplug_intr (w : world) (sc : ptr) (data : list Z)
    (mem : option ptr) : option world :=
  let event := hotplug_event data in
  router_hotplug_ack w sc event (hotplug_unplug event) mem.

(** ** Capability walker *)

(** struct router_cfg_cap *)
Record router_cfg_cap := {
  space : Z;
  adap : Z;
  current_cap : Z;
  next_cap : Z;
  cap_id : Z;
  vsc_id : Z;
  vsc_len : Z;
  vsec_len : Z
}.

(** The blocking read as the walker uses it: from the space, the adapter,
    the offset, the number of words and the buffer it is given, the error
    code and the buffer afterwards. *)
Variable config_read : Z -> Z -> Z -> Z -> list Z -> Z * list Z.

(** What [buf] points to in tb_config_next_cap.  malloc(9) is called with
    M_NOWAIT|M_ZERO: it hands out a zeroed union tb_cfg_cap or NULL, and
    [buf_mem] tells which.  Behind NULL there are no words. *)
Definition tbcap_buf (buf_mem : bool) : list Z :=
  if buf_mem then replicate tb_cfg_cap_words 0 else [].

(** tb_config_next_cap.  The result of malloc is not tested.  With NULL the
    read is handed NULL as its destination: a read that fails touches no
    buffer and its error is returned; after a read that reports success the
    header fields are read through NULL, a fault.  The result of the second
    read is not assigned, so the [error] tested after it is the one of the
    first read, which is 0 there. *)
Definition tb_config_next_cap (buf_mem : bool) (cap : router_cfg_cap)
  : option (Z * router_cfg_cap) :=
  let buf := tbcap_buf buf_mem in
  let current := next_cap cap in
  let '(error, buf1) := config_read (space cap) (adap cap) current 1 buf in
  if negb (error =? 0) then Some (error, cap)
  else if negb buf_mem then None                    (* tbcap->hdr of NULL *)
  else
    let cap1 := {| space := space cap; adap := adap cap;
                   current_cap := current;
                   next_cap := tbcap_hdr_next_cap buf1;
                   cap_id := tbcap_hdr_cap_id buf1;
                   vsc_id := vsc_id cap; vsc_len := vsc_len cap;
                   vsec_len := vsec_len cap |} in
    if negb (space cap =? TB_CFG_CS_ROUTER)
       && negb (tbcap_hdr_cap_id buf1 =? TB_CFG_CAP_VSC)
    then Some (0, cap1)
    else
      let '(_, buf2) := config_read (space cap) (adap cap) current 2 buf1 in
      let vsec := tbcap_vsc_len buf2 =? 0 in
      Some (0, {| space := space cap; adap := adap cap;
                  current_cap := current;
                  next_cap := if vsec then tbcap_vsec_vsec_next_cap buf2
                              else next_cap cap1;
                  cap_id := cap_id cap1;
                  vsc_id := tbcap_vsc_vsc_id buf2;
                  vsc_len := tbcap_vsc_len buf2;
                  vsec_len := if vsec then tbcap_vsec_vsec_len buf2
                              else vsec_len cap |}).

(** The [while] loop of tb_config_find_cap; one unit of [fuel] per
    iteration, [None] when the fuel does not reach the end of the walk or
    the walk faults.  [mem i] tells whether the malloc of the [i]-th call of
    tb_config_next_cap from here on grants its buffer. *)
Fixpoint tb_config_find_cap_loop (fuel : nat) (mem : nat -> bool)
    (cap : router_cfg_cap) (cap_id0 vsc_id0 : Z)
  : option (Z * router_cfg_cap) :=
  if negb (cap_id cap =? cap_id0) || negb (vsc_id cap =? vsc_id0) then
    match fuel with
    | O => None
    | S fuel' =>
        if (next_cap cap =? 0) || (next_cap cap >? TB_CFG_CAP_OFFSET_MAX)
        then Some (EINVAL, cap)
        else
          '(error, cap') ← tb_config_next_cap (mem O) cap;
          if negb (error =? 0) then Some (0, cap')
          else tb_config_find_cap_loop fuel' (fun i => mem (S i)) cap'
                 cap_id0 vsc_id0
    end
  else Some (0, cap).

(** tb_config_find_cap *)
Definition tb_config_find_cap (fuel : nat) (mem : nat -> bool)
    (cap : router_cfg_cap) : option (Z * router_cfg_cap) :=
  let cap_id0 := cap_id cap in
  let vsc_id0 := vsc_id cap in
  let cap0 := {| space := space cap; adap := adap cap;
                 current_cap := current_cap cap; next_cap := next_cap cap;
                 cap_id := 0; vsc_id := 0;
                 vsc_len := vsc_len cap; vsec_len := vsec_len cap |} in
  tb_config_find_cap_loop fuel mem cap0 cap_id0 vsc_id0.

(** * Properties *)

(** ** Basic facts about the state updates *)

Lemma set_routers_id (w : world) : set_routers w (routers w) = w.
Proof. by destruct w. Qed.

Lemma with_suspended_id (r : router_softc) : with_suspended r (suspended r) = r.
Proof. by destruct r. Qed.

Lemma set_queue_Some (w : world) (sc : ptr) (r : router_softc) (q : list ptr) :
  routers w !! sc = Some r ->
  set_queue w sc q
  = Some (set_routers w (<[sc := with_cmd_queue r q]> (routers w))).
Proof. intros H. unfold set_queue. by rewrite H. Qed.

Lemma set_inflight_Some (w : world) (sc : ptr) (r : router_softc) (c : option ptr) :
  routers w !! sc = Some r ->
  set_inflight w sc c
  = Some (log (set_routers w (<[sc := with_inflight_cmd r c]> (routers w)))
            (match c with Some p => SlotAssign sc p | None => SlotClear sc end)).
Proof. intros H. unfold set_inflight. by rewrite H. Qed.

(** ** Resume *)

(** C10.  For a router [sc] of the world, tb_router_resume returns 0 and
    leaves the router as it was, its [suspended] flag included: a suspended
    router stays suspended. *)
Theorem tb_router_resume_keeps_suspended (w : world) (sc : ptr) (r : router_softc) :
  routers w !! sc = Some r ->
  exists w', tb_router_resume w sc = Some (0, w')
    /\ routers w' !! sc = Some r
    /\ suspended <$> routers w' !! sc = Some (suspended r).
Proof.
  intros H. unfold tb_router_resume. rewrite H. simpl.
  destruct (suspended r) eqn:Hs.
  - exists w. rewrite H. simpl. by rewrite Hs.
  - eexists. split; [reflexivity|]. simpl. rewrite lookup_insert_eq.
    assert (with_suspended r false = r) as ->
      by (rewrite <- Hs; apply with_suspended_id).
    simpl. by rewrite Hs.
Qed.

(** ** Detach *)

(** C8 (as the code has it).  tb_router_detach consults the FIFO only: it
    returns EBUSY and leaves the world untouched when the queue is not
    empty, and it returns 0 and releases the router when the queue is
    empty, whatever the inflight slot holds. *)
Theorem tb_router_detach_queue_only (w : world) (sc : ptr) (r : router_softc) :
  routers w !! sc = Some r ->
  (cmd_queue r <> [] -> tb_router_detach w sc = Some (EBUSY, w))
  /\ (cmd_queue r = [] ->
      exists w', tb_router_detach w sc = Some (0, w')
        /\ routers w' !! sc = None
        /\ commands w' = commands w).
Proof.
  intros H. unfold tb_router_detach. rewrite H. simpl. split.
  - intros Hq. destruct (cmd_queue r); [done|reflexivity].
  - intros ->. eexists. split; [reflexivity|].
    destruct (adapters r); simpl; rewrite lookup_delete_eq; done.
Qed.

(** ** The loops never run out of fuel *)

(** The drain loop runs its body at most once (a submitted command
    occupies the slot, a refused one ends the loop), so one unit of fuel is
    all it ever uses. *)
Lemma router_schedule_loop_fuel (n : nat) (w : world) (sc : ptr) (error : Z) :
  router_schedule_loop (S n) w sc error = router_schedule_loop 1 w sc error.
Proof.
  cbn [router_schedule_loop].
  destruct (routers w !! sc) as [r|] eqn:Hr; cbn [mbind option_bind]; [|done].
  destruct (inflight_cmd r), (cmd_queue r) as [|cmd rest]; try done.
  rewrite (set_queue_Some _ _ _ _ Hr). cbn [mbind option_bind].
  destruct (commands _ !! cmd) as [c|]; cbn [mbind option_bind]; [|done].
  erewrite set_inflight_Some by (cbn [routers set_routers]; apply lookup_insert_eq).
  cbn [mbind option_bind].
  destruct (nhi_tx_schedule _ _) as [e rg]. destruct (e =? 0); [|done].
  destruct n; cbn [router_schedule_loop]; cbn -[insert lookup];
    rewrite lookup_insert_eq; done.
Qed.

(** A route of [n] hop bytes is resolved within [n + 1] iterations: more
    fuel changes nothing. *)
Lemma router_lookup_loop_fuel (w : world) (search_rt : Z) (n : nat) :
  forall (k : nat) (cursor : option ptr) (remainder_rt : Z),
  0 <= remainder_rt < 2 ^ (8 * Z.of_nat n) ->
  router_lookup_loop (S n + k) w cursor search_rt remainder_rt
  = router_lookup_loop (S n) w cursor search_rt remainder_rt.
Proof.
  induction n as [|n IH]; intros k cursor rem Hrem.
  - assert (rem = 0) as -> by (change (2 ^ (8 * Z.of_nat 0)) with 1 in Hrem; lia).
    destruct cursor as [cur|]; [|done]. cbn [router_lookup_loop Nat.add].
    destruct (routers w !! cur) as [c|]; cbn [mbind option_bind]; [|done].
    destruct (TB_ROUTE c =? search_rt); done.
  - destruct cursor as [cur|]; [|done].
    change (S (S n) + k)%nat with (S (S n + k)).
    cbn [router_lookup_loop].
    destruct (routers w !! cur) as [c|]; cbn [mbind option_bind]; [|done].
    destruct (TB_ROUTE c =? search_rt); [done|].
    destruct (Z.land rem 255 =? 0); [done|].
    destruct (Z.land rem 255 >? max_adap c); [done|].
    destruct (adapters c) as [arr|]; [|done].
    destruct (arr !! Z.to_nat (Z.land rem 255)) as [next|];
      cbn [mbind option_bind]; [|done].
    apply IH. rewrite Z.shiftr_div_pow2 by lia. split.
    + apply Z.div_pos; lia.
    + apply Z.div_lt_upper_bound; [lia|].
      replace (8 * Z.of_nat (S n)) with (8 + 8 * Z.of_nat n) in Hrem by lia.
      rewrite Z.pow_add_r in Hrem by lia. lia.
Qed.

(** The retry loop of the blocking wrappers runs [retries + 1] times at
    most. *)
Lemma tb_config_retry_loop_fuel (sc cmd : ptr) (n : nat) :
  forall (k : nat) (w : world) (retries error : Z),
  retries < Z.of_nat n ->
  tb_config_retry_loop (n + k) w sc cmd retries error
  = tb_config_retry_loop n w sc cmd retries error.
Proof.
  induction n as [|n IH]; intros k w retries error Hn.
  - destruct k; cbn [tb_config_retry_loop Nat.add];
      assert ((retries >=? 0) = false) as -> by lia; done.
  - cbn [tb_config_retry_loop Nat.add]. destruct (retries >=? 0); [|done].
    destruct (router_schedule_locked w sc (Some cmd)) as [[e w1]|];
      cbn [mbind option_bind]; [|done].
    destruct (negb (e =? 0)); [done|].
    destruct (commands w1 !! cmd) as [c|]; cbn [mbind option_bind]; [|done].
    destruct (msleep w1 cmd (cmd_timeout c * hz)) as [e2 w2].
    destruct (negb (e2 =? EWOULDBLOCK)); [done|].
    destruct (set_inflight w2 sc None) as [w3|]; cbn [mbind option_bind]; [|done].
    apply IH. lia.
Qed.

(** The polled wait gives up after [timeout] iterations at most. *)
Lemma tb_config_poll_wait_fuel (cmd : ptr) (n : nat) :
  forall (k : nat) (w : world) (timeout : Z),
  timeout <= Z.of_nat n ->
  tb_config_poll_wait (n + k) w cmd timeout = tb_config_poll_wait n w cmd timeout.
Proof.
  induction n as [|n IH]; intros k w timeout Hn.
  - destruct k; cbn [tb_config_poll_wait Nat.add];
      assert ((timeout >? 0) = false) as -> by lia; done.
  - cbn [tb_config_poll_wait Nat.add]. destruct (timeout >? 0); [|done].
    destruct (commands (DELAY w (100 * 1000)) !! cmd) as [c|];
      cbn [mbind option_bind]; [|done].
    destruct (negb (_ =? 0)); [done|]. apply IH. lia.
Qed.

(** The retry loop of the polled wrapper runs [retries + 1] times at most. *)
Lemma tb_config_poll_loop_fuel (sc cmd : ptr) (n : nat) :
  forall (k : nat) (w : world) (retries timeout error : Z),
  retries < Z.of_nat n ->
  tb_config_poll_loop (n + k) w sc cmd retries timeout error
  = tb_config_poll_loop n w sc cmd retries timeout error.
Proof.
  induction n as [|n IH]; intros k w retries timeout error Hn.
  - destruct k; cbn [tb_config_poll_loop Nat.add];
      assert ((retries >=? 0) = false) as -> by lia; done.
  - cbn [tb_config_poll_loop Nat.add]. destruct (retries >=? 0); [|done].
    destruct (router_schedule_locked w sc (Some cmd)) as [[e w1]|];
      cbn [mbind option_bind]; [|done].
    destruct (negb (e =? 0)); [done|].
    destruct (tb_config_poll_wait (Z.to_nat timeout) w1 cmd timeout)
      as [[timeout' w2]|]; cbn [mbind option_bind]; [|done].
    destruct (commands w2 !! cmd) as [c|]; cbn [mbind option_bind]; [|done].
    destruct (_ =? 0); [|done].
    destruct (set_inflight w2 sc None) as [w3|]; cbn [mbind option_bind]; [|done].
    apply IH. lia.
Qed.

(** A walk that ends with some fuel ends the same way with more. *)
Lemma tb_config_find_cap_loop_mono (cap_id0 vsc_id0 : Z) (n : nat) :
  forall (k : nat) (mem : nat -> bool) (cap : router_cfg_cap)
         (res : Z * router_cfg_cap),
  tb_config_find_cap_loop n mem cap cap_id0 vsc_id0 = Some res ->
  tb_config_find_cap_loop (n + k) mem cap cap_id0 vsc_id0 = Some res.
Proof.
  induction n as [|n IH]; intros k mem cap res H.
  - cbn [tb_config_find_cap_loop] in H.
    destruct k; cbn [tb_config_find_cap_loop Nat.add];
      destruct (negb (cap_id cap =? cap_id0) || negb (vsc_id cap =? vsc_id0));
      done.
  - cbn [tb_config_find_cap_loop Nat.add] in *.
    destruct (negb (cap_id cap =? cap_id0) || negb (vsc_id cap =? vsc_id0));
      [|done].
    destruct ((next_cap cap =? 0) || (next_cap cap >? TB_CFG_CAP_OFFSET_MAX));
      [done|].
    destruct (tb_config_next_cap (mem O) cap) as [[error cap']|];
      cbn [mbind option_bind] in *; [|done].
    destruct (negb (error =? 0)); [done|]. by apply IH.
Qed.

(** ** Scheduler: a failed submission *)

(** One iteration of the drain loop whose submission fails. *)
Lemma router_schedule_loop_error (fuel : nat) (w : world) (sc : ptr)
    (r : router_softc) (c : ptr) (rest : list ptr) (cmd : router_command)
    (e : Z) (rg : ring) (error : Z) :
  routers w !! sc = Some r ->
  inflight_cmd r = None ->
  cmd_queue r = c :: rest ->
  commands w !! c = Some cmd ->
  nhi_tx_schedule (ring0 w) (cmd_nhicmd cmd) = (e, rg) ->
  e <> 0 ->
  exists w' r',
    router_schedule_loop (S fuel) w sc error
    = Some (if e =? EBUSY then 0 else e, w')
    /\ routers w' !! sc = Some r'
    /\ inflight_cmd r' = None
    /\ cmd_queue r' = (if e =? EBUSY then c :: rest else rest)
    /\ trace w' = trace w ++ [SlotAssign sc c; TxSchedule (cmd_nhicmd cmd) e;
                               SlotClear sc]
    /\ commands w' = commands w
    /\ ring0 w' = rg.
Proof.
  intros Hr Hin Hq Hc Htx He.
  cbn [router_schedule_loop]. rewrite Hr. cbn [mbind option_bind].
  rewrite Hin, Hq.
  rewrite (set_queue_Some _ _ _ _ Hr). cbn [mbind option_bind].
  cbn [commands set_routers]. rewrite Hc. cbn [mbind option_bind].
  erewrite set_inflight_Some by (cbn [routers set_routers]; apply lookup_insert_eq).
  cbn [mbind option_bind]. cbn [ring0 log set_routers]. rewrite Htx.
  assert ((e =? 0) = false) as -> by lia.
  erewrite set_inflight_Some
    by (cbn [routers set_routers log set_ring0]; apply lookup_insert_eq).
  cbn [mbind option_bind].
  destruct (e =? EBUSY).
  - erewrite set_queue_Some
      by (cbn [routers set_routers log set_ring0]; apply lookup_insert_eq).
    do 2 eexists. split; [reflexivity|].
    cbn [routers set_routers log set_ring0 trace commands ring0].
    rewrite lookup_insert_eq. repeat split; try done.
    by rewrite <- !app_assoc.
  - do 2 eexists. split; [reflexivity|].
    cbn [routers set_routers log set_ring0 trace commands ring0].
    rewrite lookup_insert_eq. repeat split; try done.
    by rewrite <- !app_assoc.
Qed.

(** C2.  Draining with an empty slot, when the transport refuses the head
    command [c] of the (just extended) queue [c :: rest] with error [e]:
    on EBUSY the command is put back at the head, so the queue is
    [c :: rest] again, and the call returns 0; on any other error the
    command stays removed and [e] is returned.  Either way the slot is
    cleared and no further command is submitted by this call.  The command
    handed to the call, if any, is one that is not queued already. *)
Theorem router_schedule_locked_submit_error (w : world) (sc : ptr)
    (r : router_softc) (arg : option ptr) (c : ptr) (rest : list ptr)
    (cmd : router_command) (e : Z) (rg : ring) :
  routers w !! sc = Some r ->
  inflight_cmd r = None ->
  unlinked r arg ->
  cmd_queue r ++ match arg with Some a => [a] | None => [] end = c :: rest ->
  commands w !! c = Some cmd ->
  nhi_tx_schedule (ring0 w) (cmd_nhicmd cmd) = (e, rg) ->
  e <> 0 ->
  exists w' r',
    router_schedule_locked w sc arg = Some (if e =? EBUSY then 0 else e, w')
    /\ routers w' !! sc = Some r'
    /\ inflight_cmd r' = None
    /\ cmd_queue r' = (if e =? EBUSY then c :: rest else rest)
    /\ trace w' = trace w ++ [SlotAssign sc c; TxSchedule (cmd_nhicmd cmd) e;
                               SlotClear sc]
    /\ commands w' = commands w.
Proof.
  intros Hr Hin Hun Hq Hc Htx He.
  unfold router_schedule_locked. rewrite Hr. cbn [mbind option_bind].
  destruct arg as [a|].
  - rewrite bool_decide_eq_false_2 by exact Hun.
    rewrite (set_queue_Some _ _ _ _ Hr). cbn [mbind option_bind].
    cbn [routers set_routers]. rewrite lookup_insert_eq. cbn [mbind option_bind].
    edestruct (router_schedule_loop_error
                 (length (cmd_queue (with_cmd_queue r (cmd_queue r ++ [a]))))
                 (set_routers w (<[sc:=with_cmd_queue r (cmd_queue r ++ [a])]> (routers w)))
                 sc (with_cmd_queue r (cmd_queue r ++ [a])) c rest cmd e rg 0)
      as (w' & r' & Hl & H1 & H2 & H3 & H4 & H5 & H6); eauto.
    { cbn [routers set_routers]. apply lookup_insert_eq. }
    exists w', r'. repeat split; try done.
  - rewrite app_nil_r in Hq. cbn [mbind option_bind]. rewrite Hr.
    cbn [mbind option_bind].
    edestruct (router_schedule_loop_error (length (cmd_queue r)) w sc r c rest
                 cmd e rg 0)
      as (w' & r' & Hl & H1 & H2 & H3 & H4 & H5 & H6); eauto.
    exists w', r'. repeat split; try done.
Qed.

(** ** Scheduler: the inflight slot *)

(** The occupancy of router [n]'s slot after a trace: the number of
    commands assigned to it since it was last cleared. *)
Definition occ_step (n : ptr) (o : nat) (e : event) : nat :=
  match e with
  | SlotAssign sc _ => if decide (sc = n) then S o else o
  | SlotClear sc => if decide (sc = n) then O else o
  | _ => o
  end.

Definition occupancy (n : ptr) (tr : list event) : nat :=
  fold_left (occ_step n) tr O.

(** At every instant of the trace at most one command occupies the slot. *)
Definition slot_ok (n : ptr) (tr : list event) : Prop :=
  forall k : nat, (occupancy n (take k tr) <= 1)%nat.

(** The operations of the scheduler and the dispatcher on a world: enqueue
    and drain (router_schedule_locked with and without a command), the
    completion callback, the timeout clear of the wrappers, and what the
    rest of the engine does to the commands and the ring.  The last step
    lets the links of a queue change in any way.  It stands for what
    router_schedule_locked does when it is handed a command that is still
    queued, where [step_schedule] has no result: the TAILQ_INSERT_TAIL
    changes the links only, and the call then makes one turn of its loop,
    which is a drain of whatever the links make the head of the queue. *)
Inductive engine_step : world -> world -> Prop :=
| step_schedule w sc cmd e w' :
    router_schedule_locked w sc cmd = Some (e, w') -> engine_step w w'
| step_callback w sc cmd w' :
    router_get_config_cb w sc cmd = Some w' -> engine_step w w'
| step_timeout_clear w sc w' :
    set_inflight w sc None = Some w' -> engine_step w w'
| step_commands w m : engine_step w (set_commands w m)
| step_ring w rg : engine_step w (set_ring0 w rg)
| step_queue w sc q w' :
    set_queue w sc q = Some w' -> engine_step w w'.

(** The invariant: the trace is fine so far, and an empty slot has
    occupancy 0. *)
Definition slot_inv (n : ptr) (w : world) : Prop :=
  slot_ok n (trace w)
  /\ (forall r, routers w !! n = Some r -> inflight_cmd r = None ->
       occupancy n (trace w) = O).

Lemma occupancy_snoc (n : ptr) (tr : list event) (e : event) :
  occupancy n (tr ++ [e]) = occ_step n (occupancy n tr) e.
Proof. unfold occupancy. by rewrite fold_left_app. Qed.

Lemma slot_ok_snoc (n : ptr) (tr : list event) (e : event) :
  slot_ok n tr ->
  (occ_step n (occupancy n tr) e <= 1)%nat ->
  slot_ok n (tr ++ [e]).
Proof.
  intros Hok He k. destruct (decide (k <= length tr)%nat) as [Hk|Hk].
  - rewrite take_app_le by done. apply Hok.
  - rewrite take_ge by (rewrite length_app; simpl; lia).
    by rewrite occupancy_snoc.
Qed.

Lemma slot_ok_occupancy (n : ptr) (tr : list event) :
  slot_ok n tr -> (occupancy n tr <= 1)%nat.
Proof. intros H. specialize (H (length tr)). by rewrite firstn_all in H. Qed.

(** One step through a bind in a hypothesis: the bound computation did not
    fault. *)
Tactic Notation "opt_step" hyp(H) "as" simple_intropattern(x) ident(E) :=
  match type of H with
  | (?m ≫= _) = Some _ =>
      destruct m as [x|] eqn:E; cbn [mbind option_bind] in H;
      [|discriminate H]
  end.

Lemma slot_inv_set_queue (n : ptr) (w w' : world) (sc : ptr) (q : list ptr) :
  slot_inv n w -> set_queue w sc q = Some w' -> slot_inv n w'.
Proof.
  intros [Hok Hz] H. unfold set_queue in H. opt_step H as r E.
  injection H as <-. split; [done|]. cbn [routers trace set_routers].
  intros r' Hr' Hin. destruct (decide (sc = n)) as [->|Hne].
  - rewrite lookup_insert_eq in Hr'. injection Hr' as <-. by eapply Hz.
  - rewrite lookup_insert_ne in Hr' by done. by eapply Hz.
Qed.

Lemma slot_inv_clear (n : ptr) (w w' : world) (sc : ptr) :
  slot_inv n w -> set_inflight w sc None = Some w' -> slot_inv n w'.
Proof.
  intros [Hok Hz] H. unfold set_inflight in H. opt_step H as r E.
  injection H as <-. split; cbn [routers trace set_routers log].
  - apply slot_ok_snoc; [done|]. cbn [occ_step].
    case_decide; [lia|]. by apply slot_ok_occupancy.
  - intros r' Hr' Hin. rewrite occupancy_snoc. cbn [occ_step].
    case_decide as Hd; [done|]. rewrite lookup_insert_ne in Hr' by done.
    by eapply Hz.
Qed.

Lemma slot_inv_assign (n : ptr) (w w' : world) (sc c : ptr) (r : router_softc) :
  slot_inv n w ->
  routers w !! sc = Some r -> inflight_cmd r = None ->
  set_inflight w sc (Some c) = Some w' -> slot_inv n w'.
Proof.
  intros [Hok Hz] Hr Hin H. rewrite (set_inflight_Some _ _ _ _ Hr) in H.
  injection H as <-. split; cbn [routers trace set_routers log].
  - apply slot_ok_snoc; [done|]. cbn [occ_step].
    case_decide as Hd; [|by apply slot_ok_occupancy].
    subst. by rewrite (Hz r Hr Hin).
  - intros r' Hr' Hin'. rewrite occupancy_snoc. cbn [occ_step].
    case_decide as Hd.
    + subst. rewrite lookup_insert_eq in Hr'. by injection Hr' as <-.
    + rewrite lookup_insert_ne in Hr' by done. by eapply Hz.
Qed.

Lemma slot_inv_log (n : ptr) (w : world) (e : event) :
  slot_inv n w ->
  (forall o, occ_step n o e = o) ->
  slot_inv n (log w e).
Proof.
  intros [Hok Hz] He. split; cbn [routers trace log].
  - apply slot_ok_snoc; [done|]. rewrite He. by apply slot_ok_occupancy.
  - intros r Hr Hin. rewrite occupancy_snoc, He. by eapply Hz.
Qed.

Lemma slot_inv_schedule_loop (n : ptr) (fuel : nat) :
  forall (w : world) (sc : ptr) (error e : Z) (w' : world),
  slot_inv n w ->
  router_schedule_loop fuel w sc error = Some (e, w') ->
  slot_inv n w'.
Proof.
  induction fuel as [|fuel IH]; intros w sc error e w' Hinv H.
  - cbn [router_schedule_loop] in H. opt_step H as r E.
    destruct (inflight_cmd r), (cmd_queue r); try discriminate;
      by injection H as _ <-.
  - cbn [router_schedule_loop] in H. opt_step H as r E.
    destruct (inflight_cmd r) eqn:Hin, (cmd_queue r) eqn:Hq;
      try (by injection H as _ <-).
    opt_step H as w0 E0. opt_step H as c E1. opt_step H as w1 E2.
    assert (slot_inv n w0) as Hinv0 by (by eapply slot_inv_set_queue).
    assert (exists r0, routers w0 !! sc = Some r0 /\ inflight_cmd r0 = None)
      as (r0 & Hr0 & Hin0).
    { rewrite (set_queue_Some _ _ _ _ E) in E0. injection E0 as <-.
      cbn [routers set_routers]. rewrite lookup_insert_eq. by eexists. }
    assert (slot_inv n w1) as Hinv1 by (by eapply slot_inv_assign).
    destruct (nhi_tx_schedule (ring0 w1) (cmd_nhicmd c)) as [e1 rg] eqn:Htx.
    assert (slot_inv n (log (set_ring0 w1 rg) (TxSchedule (cmd_nhicmd c) e1)))
      as Hinv3.
    { apply slot_inv_log; [|done]. by destruct Hinv1. }
    destruct (e1 =? 0).
    + by eapply IH.
    + opt_step H as w2 E3.
      assert (slot_inv n w2) as Hinv4 by (by eapply slot_inv_clear).
      destruct (e1 =? EBUSY).
      * opt_step H as w3 E4. injection H as _ <-.
        by eapply slot_inv_set_queue.
      * by injection H as _ <-.
Qed.

Lemma slot_inv_schedule_locked (n : ptr) (w : world) (sc : ptr)
    (cmd : option ptr) (e : Z) (w' : world) :
  slot_inv n w ->
  router_schedule_locked w sc cmd = Some (e, w') ->
  slot_inv n w'.
Proof.
  intros Hinv H. unfold router_schedule_locked in H. opt_step H as r E.
  opt_step H as w1 E0. opt_step H as r1 E1.
  eapply slot_inv_schedule_loop; [|exact H].
  destruct cmd; [|by injection E0 as <-].
  case_bool_decide; [done|]. by eapply slot_inv_set_queue.
Qed.

Lemma slot_inv_set_commands (n : ptr) (w : world) (m : gmap ptr router_command) :
  slot_inv n w -> slot_inv n (set_commands w m).
Proof. by intros [? ?]. Qed.

Lemma slot_inv_get_config_cb (n : ptr) (w : world) (sc cmd : ptr) (w' : world) :
  slot_inv n w ->
  router_get_config_cb w sc cmd = Some w' ->
  slot_inv n w'.
Proof.
  intros Hinv H. unfold router_get_config_cb in H. opt_step H as c E.
  cbv zeta in H.
  set (c1 := if cmd_ev c =? 0 then _ else c) in H. clearbody c1.
  opt_step H as w0 E0.
  assert (slot_inv n w0) as Hinv0.
  { eapply slot_inv_clear; [|exact E0]. by apply slot_inv_set_commands. }
  opt_step H as [e w4] Hs. injection H as <-.
  eapply slot_inv_schedule_locked; [|exact Hs].
  destruct (Z.land (cmd_flags c1) RCMD_POLLED =? 0).
  - by apply slot_inv_log.
  - by apply slot_inv_set_commands.
Qed.

Lemma slot_inv_step (n : ptr) (w w' : world) :
  slot_inv n w -> engine_step w w' -> slot_inv n w'.
Proof.
  intros Hinv H. destruct H.
  - by eapply slot_inv_schedule_locked.
  - by eapply slot_inv_get_config_cb.
  - by eapply slot_inv_clear.
  - by apply slot_inv_set_commands.
  - by destruct Hinv.
  - by eapply slot_inv_set_queue.
Qed.

(** C1.  From a world whose trace is still empty, after any sequence of
    scheduler and dispatcher operations, the slot of every router [n] was
    occupied by at most one command at every instant [k] of the trace: a
    command is assigned to the slot only when it is empty, and the slot is
    cleared before the next assignment. *)
Theorem inflight_slot_single_occupancy (w w' : world) (n : ptr) (k : nat) :
  trace w = [] ->
  rtc engine_step w w' ->
  (occupancy n (take k (trace w')) <= 1)%nat.
Proof.
  intros Ht Hsteps.
  assert (slot_inv n w') as [Hok _]; [|apply Hok].
  eapply (rtc_ind_r (slot_inv n)); [| |exact Hsteps].
  - split; rewrite Ht.
    + intros j. rewrite take_nil. cbn. lia.
    + done.
  - intros w1 w2 _ Hs IH. by eapply slot_inv_step.
Qed.

(** The dispatcher's entry points are sequences of engine steps, as long as
    the commands carry the engine's own callback (what a caller-supplied
    callback does is not the engine's). *)
Definition engine_callbacks (w : world) : Prop :=
  forall p c, commands w !! p = Some c ->
              cmd_callback c = Some CB_router_get_config_cb.

Lemma call_callback_steps (w : world) (sc cmd : ptr) (w' : world) :
  engine_callbacks w ->
  call_callback w sc cmd = Some w' ->
  engine_step w w'.
Proof.
  intros Hcb H. unfold call_callback in H.
  destruct (commands w !! cmd) as [c|] eqn:Hc; cbn [mbind option_bind] in H;
    [|discriminate H].
  rewrite (Hcb _ _ Hc) in H. cbn [mbind option_bind] in H.
  by eapply step_callback.
Qed.

Lemma router_complete_intr_steps (w : world) (cmd : ptr) (w' : world) :
  engine_callbacks w ->
  router_complete_intr w cmd = Some w' ->
  rtc engine_step w w'.
Proof.
  intros Hcb H. unfold router_complete_intr in H. opt_step H as c Hc.
  destruct (negb _).
  - apply rtc_once. by eapply call_callback_steps.
  - injection H as <-. apply rtc_refl.
Qed.

Lemma router_notify_intr_steps (w : world) (sc : ptr) (data : list Z)
    (w' : world) :
  engine_callbacks w ->
  router_notify_intr w sc data = Some w' ->
  rtc engine_step w w'.
Proof.
  intros Hcb H. unfold router_notify_intr in H.
  destruct (notify_recognized _); [|injection H as <-; apply rtc_refl].
  opt_step H as r Hr.
  destruct (inflight_cmd r) as [cmd|]; [|injection H as <-; apply rtc_refl].
  opt_step H as c Hc.
  eapply rtc_l; [apply step_commands|]. apply rtc_once.
  eapply call_callback_steps; [|exact H].
  intros p c' Hp. cbn [commands set_commands] in Hp.
  destruct (decide (p = cmd)) as [->|Hne].
  - rewrite lookup_insert_eq in Hp. injection Hp as <-.
    cbn [cmd_callback with_cmd_ev]. by eapply Hcb.
  - rewrite lookup_insert_ne in Hp by done. by eapply Hcb.
Qed.

Lemma router_response_intr_steps (w : world) (sc : ptr) (eof : pdf_t)
    (data : list Z) (w' : world) :
  engine_callbacks w ->
  router_response_intr w sc eof data = Some w' ->
  rtc engine_step w w'.
Proof.
  intros Hcb H. unfold router_response_intr in H.
  opt_step H as [error dev] Hl.
  destruct (error =? 0), dev as [dev|];
    try (injection H as <-; apply rtc_refl).
  opt_step H as d Hd.
  destruct (inflight_cmd d) as [cmd|]; [|injection H as <-; apply rtc_refl].
  opt_step H as c Hc. cbv zeta in H.
  set (c1 := if pdf_eqb eof PDF_READ then _ else c) in H.
  assert (cmd_callback c1 = cmd_callback c) as Hc1
    by (subst c1; by destruct (pdf_eqb eof PDF_READ)).
  clearbody c1.
  eapply rtc_l; [apply step_commands|].
  destruct (negb _).
  - apply rtc_once. eapply call_callback_steps; [|exact H].
    intros p c' Hp. cbn [commands set_commands] in Hp.
    destruct (decide (p = cmd)) as [->|Hne].
    + rewrite lookup_insert_eq in Hp. injection Hp as <-.
      cbn [cmd_callback with_nhicmd]. rewrite Hc1. by eapply Hcb.
    + rewrite lookup_insert_ne in Hp by done. by eapply Hcb.
  - injection H as <-. apply rtc_refl.
Qed.

(** ** Wrappers: timeouts and retries *)

(** A call of router_schedule_locked that finds the slot empty and whose
    submission of the head command [c] is accepted. *)
Lemma router_schedule_locked_submit_ok (w : world) (sc : ptr)
    (r : router_softc) (arg : option ptr) (c : ptr) (rest : list ptr)
    (cmd : router_command) (rg : ring) :
  routers w !! sc = Some r ->
  inflight_cmd r = None ->
  unlinked r arg ->
  cmd_queue r ++ match arg with Some a => [a] | None => [] end = c :: rest ->
  commands w !! c = Some cmd ->
  nhi_tx_schedule (ring0 w) (cmd_nhicmd cmd) = (0, rg) ->
  exists w' r',
    router_schedule_locked w sc arg = Some (0, w')
    /\ routers w' !! sc = Some r'
    /\ inflight_cmd r' = Some c
    /\ cmd_queue r' = rest
    /\ trace w' = trace w ++ [SlotAssign sc c; TxSchedule (cmd_nhicmd cmd) 0]
    /\ commands w' = commands w.
Proof.
  intros Hr Hin Hun Hq Hc Htx.
  unfold router_schedule_locked. rewrite Hr. cbn [mbind option_bind].
  set (q := cmd_queue r ++ match arg with Some a => [a] | None => [] end) in *.
  assert (exists w1 r1, match arg with
                        | Some c0 =>
                            if bool_decide (c0 ∈ cmd_queue r) then None
                            else set_queue w sc (cmd_queue r ++ [c0])
                        | None => Some w
                        end = Some w1
            /\ routers w1 !! sc = Some r1 /\ inflight_cmd r1 = None
            /\ cmd_queue r1 = c :: rest /\ commands w1 = commands w
            /\ trace w1 = trace w /\ ring0 w1 = ring0 w)
    as (w1 & r1 & -> & Hr1 & Hin1 & Hq1 & Hc1 & Ht1 & Hg1).
  { destruct arg as [a|].
    - rewrite bool_decide_eq_false_2 by exact Hun.
      rewrite (set_queue_Some _ _ _ _ Hr). do 2 eexists. split; [done|].
      cbn [routers set_routers]. rewrite lookup_insert_eq. by repeat split.
    - exists w, r. subst q. rewrite app_nil_r in Hq. by repeat split. }
  cbn [mbind option_bind]. rewrite Hr1. cbn [mbind option_bind].
  cbn [router_schedule_loop]. rewrite Hr1. cbn [mbind option_bind].
  rewrite Hin1, Hq1.
  rewrite (set_queue_Some _ _ _ _ Hr1). cbn [mbind option_bind].
  cbn [commands set_routers]. rewrite Hc1, Hc. cbn [mbind option_bind].
  erewrite set_inflight_Some by (cbn [routers set_routers]; apply lookup_insert_eq).
  cbn [mbind option_bind]. cbn [ring0 log set_routers]. rewrite Hg1, Htx.
  change (0 =? 0) with true. cbv iota.
  match goal with
  | |- context [router_schedule_loop ?f ?w3 sc 0] =>
      assert (router_schedule_loop f w3 sc 0 = Some (0, w3)) as ->
  end.
  { destruct (length (cmd_queue r1)); cbn [router_schedule_loop];
      cbn -[insert lookup]; rewrite lookup_insert_eq; done. }
  do 2 eexists. split; [reflexivity|].
  cbn [routers set_routers log set_ring0 trace commands].
  rewrite lookup_insert_eq. repeat split; try done.
  rewrite Ht1. by rewrite <- !app_assoc.
Qed.








(** What router_alloc_cmd and the builders leave in the new command. *)
Lemma router_alloc_cmd_ok (w : world) (sc p : ptr) (r : router_softc)
    (f : nhi_cmd_frame) (rg : ring) :
  routers w !! sc = Some r ->
  nhi_alloc_tx_frame (ring0 w) = Some (f, rg) ->
  router_alloc_cmd w sc (Some p)
  = Some (inr p, set_commands (set_ring0 w rg)
                   (<[p := zeroed_command sc f]> (commands w))).
Proof. intros Hr Hf. unfold router_alloc_cmd. rewrite Hr. simpl. by rewrite Hf. Qed.

Lemma tb_config_read_builds (w : world) (sc p : ptr) (r : router_softc)
    (f : nhi_cmd_frame) (rg : ring) (space adapter offset dwlen : Z)
    (buf : list Z) (cb : option router_callback_t) :
  routers w !! sc = Some r ->
  nhi_alloc_tx_frame (ring0 w) = Some (f, rg) ->
  exists c,
    _tb_config_read w sc space adapter offset dwlen buf cb (Some p)
    = Some (inr p, set_commands (set_ring0 w rg) (<[p := c]> (commands w)))
    /\ cmd_retries c = CFG_DEFAULT_RETRIES /\ cmd_timeout c = CFG_DEFAULT_TIMEOUT
    /\ cmd_ev c = 0 /\ cmd_flags c = 0 /\ cmd_callback c = cb
    /\ cmd_callback_arg c = buf /\ cmd_dwlen c = dwlen
    /\ nhicmd_resp_len (cmd_nhicmd c) = (dwlen + 3) * 4.
Proof.
  intros Hr Hf. unfold _tb_config_read.
  rewrite (router_alloc_cmd_ok _ _ _ _ _ _ Hr Hf). cbn [mbind option_bind].
  cbn [routers commands set_commands set_ring0]. rewrite Hr, lookup_insert_eq.
  cbn [mbind option_bind]. eexists. split.
  - by rewrite insert_insert_eq.
  - by repeat split.
Qed.





(** ** Event codes *)

Lemma set_queue_commands (w w' : world) (sc : ptr) (q : list ptr) :
  set_queue w sc q = Some w' -> commands w' = commands w.
Proof. unfold set_queue. intros H. opt_step H as r E. by injection H as <-. Qed.

Lemma set_inflight_commands (w w' : world) (sc : ptr) (c : option ptr) :
  set_inflight w sc c = Some w' -> commands w' = commands w.
Proof. unfold set_inflight. intros H. opt_step H as r E. by injection H as <-. Qed.

(** The scheduler never writes to a command. *)
Lemma router_schedule_loop_commands (fuel : nat) :
  forall (w : world) (sc : ptr) (error e : Z) (w' : world),
  router_schedule_loop fuel w sc error = Some (e, w') ->
  commands w' = commands w.
Proof.
  induction fuel as [|fuel IH]; intros w sc error e w' H.
  - cbn [router_schedule_loop] in H. opt_step H as r E.
    destruct (inflight_cmd r), (cmd_queue r); try discriminate;
      by injection H as _ <-.
  - cbn [router_schedule_loop] in H. opt_step H as r E.
    destruct (inflight_cmd r) eqn:Hin, (cmd_queue r) eqn:Hq;
      try (by injection H as _ <-).
    opt_step H as w0 E0. opt_step H as c E1. opt_step H as w1 E2.
    apply set_queue_commands in E0. apply set_inflight_commands in E2.
    destruct (nhi_tx_schedule (ring0 w1) (cmd_nhicmd c)) as [e1 rg] eqn:Htx.
    destruct (e1 =? 0).
    + apply IH in H. cbn [commands log set_ring0] in H. congruence.
    + opt_step H as w2 E3. apply set_inflight_commands in E3.
      cbn [commands log set_ring0] in E3.
      destruct (e1 =? EBUSY).
      * opt_step H as w3 E4. injection H as _ <-.
        apply set_queue_commands in E4. congruence.
      * injection H as _ <-. congruence.
Qed.

Lemma router_schedule_locked_commands (w : world) (sc : ptr) (cmd : option ptr)
    (e : Z) (w' : world) :
  router_schedule_locked w sc cmd = Some (e, w') ->
  commands w' = commands w.
Proof.
  intros H. unfold router_schedule_locked in H. opt_step H as r E.
  opt_step H as w1 E0. opt_step H as r1 E1.
  apply router_schedule_loop_commands in H. rewrite H.
  destruct cmd; [|by injection E0 as <-].
  case_bool_decide; [done|]. by eapply set_queue_commands.
Qed.

(** router_get_config_cb on a command that carries an event code: the
    caller's buffer and the event code are as before. *)
Lemma router_get_config_cb_no_copy (w : world) (sc p : ptr)
    (c : router_command) (w' : world) :
  commands w !! p = Some c ->
  cmd_ev c <> 0 ->
  router_get_config_cb w sc p = Some w' ->
  exists c', commands w' !! p = Some c'
    /\ cmd_callback_arg c' = cmd_callback_arg c
    /\ cmd_ev c' = cmd_ev c.
Proof.
  intros Hc Hev H. unfold router_get_config_cb in H. rewrite Hc in H.
  cbn [mbind option_bind] in H.
  assert ((cmd_ev c =? 0) = false) as Hz by lia. rewrite Hz in H.
  opt_step H as w0 E0. apply set_inflight_commands in E0.
  cbn [commands set_commands] in E0.
  opt_step H as [e w4] Hs. injection H as <-.
  apply router_schedule_locked_commands in Hs. rewrite Hs.
  destruct (Z.land (cmd_flags c) RCMD_POLLED =? 0).
  - exists c. cbn [commands log]. rewrite E0, lookup_insert_eq. done.
  - eexists. cbn [commands set_commands]. rewrite lookup_insert_eq. done.
Qed.



(** ** Response dispatch *)

(** The route and the declared length router_response_intr reads from a
    received frame. *)
Definition response_route (data : list Z) : tb_route_t :=
  {| hi := Z.land (be32toh (word_at data 0)) 2147483647;
     lo := be32toh (word_at data 1) |}.
Definition response_len (data : list Z) : Z :=
  Z.shiftr (Z.land (be32toh (word_at data 2)) TB_CFG_SIZE_MASK) TB_CFG_SIZE_SHIFT.

(** What router_response_intr does for a resolved router [dev] with the
    inflight command [cmd], while the request side has not completed: a read
    response copies [MIN(len, resp_len)] words into the response buffer, any
    other response copies nothing; the response-side flag is set and no
    callback runs. *)
Lemma router_response_intr_copy (w : world) (sc dev cmd : ptr) (eof : pdf_t)
    (data : list Z) (d : router_softc) (c : router_command) :
  router_lookup_device w sc (response_route data) = Some (0, Some dev) ->
  routers w !! dev = Some d ->
  inflight_cmd d = Some cmd ->
  commands w !! cmd = Some c ->
  Z.land (Z.lor (nhicmd_flags (cmd_nhicmd c)) CMD_RESP_COMPLETE) CMD_REQ_COMPLETE
  = 0 ->
  exists c',
    router_response_intr w sc eof data
    = Some (set_commands w (<[cmd := c']> (commands w)))
    /\ cmd_resp_buffer c'
       = (if pdf_eqb eof PDF_READ
          then copy_response
                 (Z.to_nat (Z.min (response_len data)
                              (nhicmd_resp_len (cmd_nhicmd c))))
                 data (cmd_resp_buffer c)
          else cmd_resp_buffer c)
    /\ nhicmd_flags (cmd_nhicmd c')
       = Z.lor (nhicmd_flags (cmd_nhicmd c)) CMD_RESP_COMPLETE
    /\ cmd_callback_arg c' = cmd_callback_arg c.
Proof.
  intros Hl Hd Hin Hc Hfl. unfold router_response_intr.
  fold (response_route data). rewrite Hl. cbn [mbind option_bind].
  change (0 =? 0) with true. cbv iota. rewrite Hd. cbn [mbind option_bind].
  rewrite Hin, Hc. cbn [mbind option_bind].
  cbn [nhicmd_flags with_nhicmd_flags]. rewrite Hfl.
  change (negb (0 =? 0)) with false. cbv iota.
  eexists. split; [reflexivity|]. fold (response_len data).
  destruct (pdf_eqb eof PDF_READ); by repeat split.
Qed.

(** ** Hotplug acknowledgment *)

(** C7 (what the code does).  The acknowledgment router_hotplug_ack builds
    and submits consists of the two route words of the event, an event
    word that is TB_CFG_HP_ACK or'ed with the plug or unplug flag, and the
    CRC, each in big-endian order; the adapter number of the event is not
    part of it, so two events that differ in their [adapter_attrs] only are
    acknowledged by the same frame. *)
Theorem hotplug_ack_leaves_out_adapter (w : world) (sc : ptr)
    (event : tb_cfg_hotplug) (attrs' : Z) (unplug : bool) (mem : option ptr)
    (f : nhi_cmd_frame) (a b c d : Z) (rest : list Z) :
  router_hotplug_ack w sc event unplug mem
  = router_hotplug_ack w sc
      {| hp_route := hp_route event; adapter_attrs := attrs' |} unplug mem
  /\ nhicmd_data
       (hotplug_ack_frame (with_nhicmd_data f (a :: b :: c :: d :: rest))
          event unplug)
     = [ htobe32 (hi (hp_route event));
         htobe32 (lo (hp_route event));
         htobe32 (Z.lor TB_CFG_HP_ACK
                    (if unplug then TB_CFG_UPG_UNPLUG else TB_CFG_PG_PLUG));
         htobe32 (tb_calc_crc
                    [ htobe32 (hi (hp_route event));
                      htobe32 (lo (hp_route event));
                      htobe32 (Z.lor TB_CFG_HP_ACK
                                 (if unplug then TB_CFG_UPG_UNPLUG
                                  else TB_CFG_PG_PLUG)) ]) ]
       ++ rest
  /\ nhicmd_pdf (hotplug_ack_frame f event unplug) = PDF_NOTIFY.
Proof. split; [reflexivity|]. split; reflexivity. Qed.

(** ** Capability walker *)

(** The cursor does not match the target yet, so the loop goes on. *)
Definition cap_mismatch (cap : router_cfg_cap) (cap_id0 vsc_id0 : Z) : bool :=
  negb (cap_id cap =? cap_id0) || negb (vsc_id cap =? vsc_id0).

(** The offset test at the top of an iteration. *)
Definition cap_offset_bad (cap : router_cfg_cap) : bool :=
  (next_cap cap =? 0) || (next_cap cap >? TB_CFG_CAP_OFFSET_MAX).

Lemma tb_config_find_cap_loop_bad_offset (fuel : nat) (mem : nat -> bool)
    (cap : router_cfg_cap) (cap_id0 vsc_id0 : Z) :
  cap_mismatch cap cap_id0 vsc_id0 = true ->
  cap_offset_bad cap = true ->
  tb_config_find_cap_loop (S fuel) mem cap cap_id0 vsc_id0 = Some (EINVAL, cap).
Proof.
  unfold cap_mismatch, cap_offset_bad. intros Hm Hb.
  cbn [tb_config_find_cap_loop]. by rewrite Hm, Hb.
Qed.

(** tb_config_next_cap stays in the space and at the adapter of its
    cursor. *)
Lemma tb_config_next_cap_space (buf_mem : bool) (cap cap' : router_cfg_cap)
    (e : Z) :
  tb_config_next_cap buf_mem cap = Some (e, cap') ->
  space cap' = space cap /\ adap cap' = adap cap.
Proof.
  unfold tb_config_next_cap. intros H.
  destruct (config_read (space cap) (adap cap) (next_cap cap) 1 _)
    as [error buf1].
  destruct (negb (error =? 0)); [by injection H as <- <-|].
  destruct (negb buf_mem); [done|].
  destruct (negb (space cap =? TB_CFG_CS_ROUTER) && _);
    [by injection H as <- <-|].
  destruct (config_read _ _ _ 2 _). by injection H as <- <-.
Qed.

(** One iteration of the walk. *)
Lemma tb_config_find_cap_loop_S (fuel : nat) (mem : nat -> bool)
    (cap : router_cfg_cap) (cap_id0 vsc_id0 : Z) :
  tb_config_find_cap_loop (S fuel) mem cap cap_id0 vsc_id0
  = if cap_mismatch cap cap_id0 vsc_id0 then
      if cap_offset_bad cap then Some (EINVAL, cap)
      else
        '(error, cap') ← tb_config_next_cap (mem O) cap;
        if negb (error =? 0) then Some (0, cap')
        else tb_config_find_cap_loop fuel (fun i => mem (S i)) cap'
               cap_id0 vsc_id0
    else Some (0, cap).
Proof. reflexivity. Qed.

(** With its buffer granted, tb_config_next_cap returns. *)
Lemma tb_config_next_cap_returns (cap : router_cfg_cap) :
  exists e cap', tb_config_next_cap true cap = Some (e, cap').
Proof.
  unfold tb_config_next_cap.
  destruct (config_read (space cap) (adap cap) (next_cap cap) 1 _)
    as [error buf1].
  destruct (negb (error =? 0)); [by eexists _, _|]. cbn [negb].
  destruct (negb (space cap =? TB_CFG_CS_ROUTER) && _); [by eexists _, _|].
  destruct (config_read _ _ _ 2 _). by eexists _, _.
Qed.

(** On a chain without a cycle the walk ends.  [rank] numbers the offsets
    so that every header read leads to an offset of lower rank or out of
    the range; the walk from an offset of rank [n] takes at most [n + 1]
    reads. *)
Lemma tb_config_find_cap_loop_terminates (rank : Z -> nat) (sp ad : Z)
    (cap_id0 vsc_id0 : Z) :
  (forall c c', space c = sp -> adap c = ad ->
                cap_offset_bad c = false ->
                tb_config_next_cap true c = Some (0, c') ->
                cap_offset_bad c' = true
                \/ (rank (next_cap c') < rank (next_cap c))%nat) ->
  forall (n : nat) (mem : nat -> bool) (cap : router_cfg_cap),
  (forall i, mem i = true) ->
  space cap = sp -> adap cap = ad ->
  cap_offset_bad cap = true \/ (rank (next_cap cap) < n)%nat ->
  exists res, tb_config_find_cap_loop (S n) mem cap cap_id0 vsc_id0 = Some res.
Proof.
  intros Hrank. induction n as [|n IH]; intros mem cap Hmem Hsp Had Hn;
    rewrite tb_config_find_cap_loop_S;
    (destruct (cap_mismatch cap cap_id0 vsc_id0); [|by eexists]);
    (destruct (cap_offset_bad cap) eqn:Hbad; [by eexists|]).
  - destruct Hn as [?|?]; [done|lia].
  - rewrite Hmem.
    destruct (tb_config_next_cap_returns cap) as (error & cap' & Hstep).
    rewrite Hstep. cbn [mbind option_bind].
    destruct (error =? 0) eqn:He; cbn [negb]; [|by eexists].
    assert (error = 0) as -> by lia.
    destruct (tb_config_next_cap_space _ _ _ _ Hstep) as [Hsp' Had'].
    apply IH; [done|congruence|congruence|].
    destruct (Hrank cap cap' Hsp Had Hbad Hstep) as [?|?]; [by left|].
    right. destruct Hn as [?|?]; [congruence|lia].
Qed.

(** C9 (as the code has it).  Whenever an iteration of the walk starts with
    a cursor that does not match the target and a next-capability offset
    that is zero or above TB_CFG_CAP_OFFSET_MAX, the walk returns EINVAL at
    once, without another read.  And on a chain without a cycle
    tb_config_find_cap returns after a bounded number of header reads,
    provided its buffers are granted: when the offsets of the space and the
    adapter of the search can be ranked so that every successful header
    read leads to an offset of lower rank or to one that is zero or above
    the bound, the walk from an offset of rank [n] is over within [n + 2]
    iterations.  (On a chain whose offsets increase the rank of an offset
    is its distance to the bound.) *)
Theorem tb_config_find_cap_bounded_on_acyclic_chain (rank : Z -> nat)
    (mem : nat -> bool) (cap : router_cfg_cap) :
  (forall i, mem i = true) ->
  (forall c c', space c = space cap -> adap c = adap cap ->
                cap_offset_bad c = false ->
                tb_config_next_cap true c = Some (0, c') ->
                cap_offset_bad c' = true
                \/ (rank (next_cap c') < rank (next_cap c))%nat) ->
  (exists res,
     tb_config_find_cap (S (S (rank (next_cap cap)))) mem cap = Some res)
  /\ (forall fuel mem' cur cap_id0 vsc_id0,
       cap_mismatch cur cap_id0 vsc_id0 = true ->
       cap_offset_bad cur = true ->
       tb_config_find_cap_loop (S fuel) mem' cur cap_id0 vsc_id0
       = Some (EINVAL, cur)).
Proof.
  intros Hmem Hrank. split.
  - unfold tb_config_find_cap.
    eapply tb_config_find_cap_loop_terminates; try done.
    right. cbn [next_cap]. lia.
  - intros fuel mem' cur cap_id0 vsc_id0.
    apply tb_config_find_cap_loop_bad_offset.
Qed.

End Router.

(** * Concrete instances *)

(** A transport that hands out one fixed frame and answers every
    submission with [err]. *)
Definition sample_frame : nhi_cmd_frame :=
  {| nhicmd_idx := 0; nhicmd_data := replicate 8 0; nhicmd_pdf := PDF_NONE;
     nhicmd_req_len := 0; nhicmd_flags := 0; nhicmd_timeout := 0;
     nhicmd_retries := 0; nhicmd_resp_len := 0 |}.

Definition sample_transport (err : Z) : nhi_transport :=
  {| ring := unit;
     nhi_alloc_tx_frame := fun _ => Some (sample_frame, tt);
     nhi_free_tx_frame := fun rg _ => rg;
     nhi_tx_schedule := fun rg _ => (err, rg) |}.

(** Sample register constants (the proofs of the general theorems do not
    depend on them): one bit per flag, an event code in the low byte of the
    event word, the dword count in bits 7 to 12 of the address word. *)
Definition sample_regs_with (hdr_next vlen : list Z -> Z) : tb_regs :=
  {| CMD_REQ_COMPLETE := 1; CMD_RESP_COMPLETE := 2;
     RCMD_POLLED := 1; RCMD_POLL_COMPLETE := 2;
     NHI_CMD_TIMEOUT := 2;
     TB_CFG_SIZE_MASK := 8064; TB_CFG_SIZE_SHIFT := 7;
     TB_CONFIG_ADDR := fun seq space adapter dwlen offset =>
       Z.lor (Z.lor (Z.shiftl seq 27) (Z.shiftl space 25))
             (Z.lor (Z.lor (Z.shiftl adapter 19) (Z.shiftl dwlen 13)) offset);
     tb_calc_crc := fun ws => fold_right Z.lxor 0 ws;
     resp_buffer_words := 8;
     GET_NOTIFY_EVENT := fun x => Z.land x 255;
     GET_NOTIFY_ADAPTER := fun x => Z.land (Z.shiftr x 8) 63;
     TB_CFG_ERR_CONN := 0; TB_CFG_ERR_LINK := 1; TB_CFG_ERR_ADDR := 2;
     TB_CFG_ERR_ADP := 4; TB_CFG_ERR_ENUM := 8; TB_CFG_ERR_NUA := 9;
     TB_CFG_ERR_LEN := 11; TB_CFG_ERR_HEC := 12; TB_CFG_ERR_FC := 13;
     TB_CFG_ERR_PLUG := 14; TB_CFG_ERR_LOCK := 15; TB_CFG_DP_BW := 32;
     TB_CFG_HP_ACK := 7;
     TB_CFG_PG_PLUG := 1073741824; TB_CFG_UPG_UNPLUG := 2147483648;
     TB_CFG_ADPT_MASK := 63;
     TB_CFG_CAP_OFFSET_MAX := 4095;
     TB_CFG_CS_ROUTER := 2; TB_CFG_CAP_VSC := 5;
     tb_cfg_cap_words := 3;
     tbcap_hdr_cap_id := fun b => Z.land (Z.shiftr (word_at b 0) 8) 255;
     tbcap_hdr_next_cap := hdr_next;
     tbcap_vsc_vsc_id := fun b => Z.land (Z.shiftr (word_at b 0) 16) 255;
     tbcap_vsc_len := vlen;
     tbcap_vsec_vsec_next_cap := fun b => Z.land (Z.shiftr (word_at b 1) 16) 65535;
     tbcap_vsec_vsec_len := fun b => Z.land (word_at b 1) 65535 |}.

Definition sample_regs : tb_regs :=
  sample_regs_with (fun b => Z.land (word_at b 0) 255)
    (fun b => Z.land (Z.shiftr (word_at b 0) 24) 255).

(** The root router of the samples: route 0, depth 0, eight adapter slots. *)
Definition sample_root (inflight : option ptr) (queue : list ptr) (susp : bool)
  : router_softc :=
  {| route := {| hi := 0; lo := 0 |}; depth := 0; max_adap := 7;
     adapters := Some (replicate 8 None); suspended := susp;
     inflight_cmd := inflight; cmd_queue := queue |}.

(** A command of router 1 whose frame is [sample_frame]. *)
Definition sample_command (ev : Z) : router_command :=
  {| cmd_sc := 1%nat; cmd_nhicmd := sample_frame; cmd_flags := 0;
     cmd_callback := Some CB_router_get_config_cb;
     cmd_callback_arg := [0; 0]; cmd_dwlen := 2;
     cmd_timeout := CFG_DEFAULT_TIMEOUT; cmd_retries := CFG_DEFAULT_RETRIES;
     cmd_ev := ev; cmd_resp_buffer := [17; 34; 0; 0; 0; 0; 0; 0] |}.

(** A world with the root router at address 1 and the given commands. *)
Definition sample_world (err : Z) (r : router_softc)
    (cmds : gmap ptr router_command) : world (T := sample_transport err) :=
  @Build_world (sample_transport err) {[ 1%nat := r ]} cmds (Some 1%nat) tt [].

(** *** C10 *)

Lemma tb_router_resume_keeps_suspended_witness :
  exists w', tb_router_resume (sample_world 0 (sample_root None [] true) ∅) 1%nat
             = Some (0, w')
    /\ routers w' !! 1%nat = Some (sample_root None [] true)
    /\ suspended <$> routers w' !! 1%nat = Some true.
Proof.
  apply (tb_router_resume_keeps_suspended
           (sample_world 0 (sample_root None [] true) ∅) 1%nat
           (sample_root None [] true)).
  reflexivity.
Defined.

(** *** C8 *)

(** The claim as stated fails: with an empty queue and command 9 in the
    inflight slot, detach succeeds; and with the adapter array allocated it
    hands the router to free(9) twice. *)
Lemma tb_router_detach_inflight_counterexample :
  inflight_cmd (sample_root (Some 9%nat) [] false) = Some 9%nat
  /\ cmd_queue (sample_root (Some 9%nat) [] false) = []
  /\ exists w',
       tb_router_detach
         (sample_world 0 (sample_root (Some 9%nat) [] false)
            {[ 9%nat := sample_command 0 ]}) 1%nat
       = Some (0, w')
       /\ routers w' !! 1%nat = None
       /\ trace w' = [FreeRouter 1; FreeRouter 1].
Proof.
  split; [reflexivity|]. split; [reflexivity|].
  eexists. split; [reflexivity|]. split; reflexivity.
Qed.

Lemma tb_router_detach_queue_only_witness :
  (cmd_queue (sample_root None [9%nat] false) <> [] ->
   tb_router_detach
     (sample_world 0 (sample_root None [9%nat] false)
        {[ 9%nat := sample_command 0 ]}) 1%nat
   = Some (EBUSY,
           sample_world 0 (sample_root None [9%nat] false)
             {[ 9%nat := sample_command 0 ]}))
  /\ (cmd_queue (sample_root None [9%nat] false) = [] ->
      exists w',
        tb_router_detach
          (sample_world 0 (sample_root None [9%nat] false)
             {[ 9%nat := sample_command 0 ]}) 1%nat
        = Some (0, w')
        /\ routers w' !! 1%nat = None
        /\ commands w' = commands
                           (sample_world 0 (sample_root None [9%nat] false)
                              {[ 9%nat := sample_command 0 ]})).
Proof.
  apply (tb_router_detach_queue_only
           (sample_world 0 (sample_root None [9%nat] false)
              {[ 9%nat := sample_command 0 ]}) 1%nat
           (sample_root None [9%nat] false)).
  reflexivity.
Defined.

(** *** C2 *)

(** A command that is not in a given queue. *)
Ltac not_queued :=
  cbn; apply (proj1 (bool_decide_eq_false _)); vm_compute; reflexivity.

(** Commands 6 and 7 are queued on an idle router whose transport is busy;
    command 5 is handed to the scheduler. *)
Lemma router_schedule_locked_submit_error_witness :
  exists w' r',
    router_schedule_locked
      (sample_world EBUSY (sample_root None [6%nat; 7%nat] false)
         {[ 5%nat := sample_command 0; 6%nat := sample_command 0;
            7%nat := sample_command 0 ]}) 1%nat (Some 5%nat)
    = Some (if EBUSY =? EBUSY then 0 else EBUSY, w')
    /\ routers w' !! 1%nat = Some r'
    /\ inflight_cmd r' = None
    /\ cmd_queue r' = (if EBUSY =? EBUSY then [6%nat; 7%nat; 5%nat]
                       else [7%nat; 5%nat])
    /\ trace w' = [] ++ [SlotAssign 1 6; TxSchedule sample_frame EBUSY;
                        SlotClear 1]
    /\ commands w' = {[ 5%nat := sample_command 0; 6%nat := sample_command 0;
                        7%nat := sample_command 0 ]}.
Proof.
  refine (router_schedule_locked_submit_error
            (sample_world EBUSY (sample_root None [6%nat; 7%nat] false)
               {[ 5%nat := sample_command 0; 6%nat := sample_command 0;
                  7%nat := sample_command 0 ]}) 1%nat
            (sample_root None [6%nat; 7%nat] false) (Some 5%nat) 6%nat
            [7%nat; 5%nat] (sample_command 0) EBUSY tt _ _ _ _ _ _ _);
    [reflexivity | reflexivity | not_queued | reflexivity | reflexivity
    | reflexivity | discriminate].
Defined.

(** *** C1 *)

(** A run of the engine: command 5 is enqueued and submitted, then its
    completion callback runs. *)
Definition run_world0 : world (T := sample_transport 0) :=
  sample_world 0 (sample_root None [] false) {[ 5%nat := sample_command 0 ]}.
Definition run_world1 : world (T := sample_transport 0) :=
  match router_schedule_locked run_world0 1%nat (Some 5%nat) with
  | Some (_, w) => w
  | None => run_world0
  end.
Definition run_world2 : world (T := sample_transport 0) :=
  default run_world1 (router_get_config_cb (K := sample_regs) run_world1 1%nat 5%nat).

Lemma inflight_slot_single_occupancy_witness :
  trace run_world0 = []
  /\ rtc (engine_step (K := sample_regs)) run_world0 run_world2
  /\ trace run_world2
     = [SlotAssign 1 5; TxSchedule sample_frame 0; SlotClear 1; Wakeup 5]
  /\ (occupancy 1 (take 2 (trace run_world2)) <= 1)%nat.
Proof.
  assert (rtc (engine_step (K := sample_regs)) run_world0 run_world2) as Hrun.
  { eapply rtc_l.
    - apply (step_schedule (K := sample_regs) run_world0 1%nat (Some 5%nat) 0
               run_world1).
      reflexivity.
    - apply rtc_once.
      apply (step_callback (K := sample_regs) run_world1 1%nat 5%nat run_world2).
      reflexivity. }
  split; [reflexivity|]. split; [exact Hrun|]. split; [reflexivity|].
  exact (inflight_slot_single_occupancy (K := sample_regs)
           run_world0 run_world2 1%nat 2%nat eq_refl Hrun).
Defined.

(** *** C3 *)

(** Nothing ever completes: msleep ends by its timeout, DELAY just passes. *)
Definition sleep_times_out (err : Z)
  : world (T := sample_transport err) -> ptr -> Z -> Z * world (T := sample_transport err) :=
  fun w _ _ => (EWOULDBLOCK, w).
Definition delay_passes (err : Z)
  : world (T := sample_transport err) -> Z -> world (T := sample_transport err) :=
  fun w _ => w.

Definition idle_world : world (T := sample_transport 0) :=
  sample_world 0 (sample_root None [] false) ∅.



(** A transport that refuses every frame with EIO. *)
Definition refusing_world : world (T := sample_transport 5) :=
  sample_world 5 (sample_root None [] false) ∅.



(** *** C4 *)



(** A notify frame carrying event code 1 (TB_CFG_ERR_LINK in the sample
    constants) for adapter 0. *)
Definition notify_frame : list Z := htobe32 <$> [0; 0; 1; 0].

(** The callers' callbacks of the samples do nothing. *)
Definition caller_cb_nop (err : Z)
  : nat -> world (T := sample_transport err) -> ptr -> ptr
    -> world (T := sample_transport err) :=
  fun _ w _ _ => w.


(** *** C5 *)

(** A router one hop below the root, behind adapter 5: route 0x5, depth 1. *)
Definition child_at_5 : router_softc :=
  {| route := {| hi := 0; lo := 5 |}; depth := 1; max_adap := 0;
     adapters := None; suspended := false;
     inflight_cmd := None; cmd_queue := [] |}.

Definition topology (root_adapters : list (option ptr))
  : world (T := sample_transport 0) :=
  @Build_world (sample_transport 0)
    {[ 1%nat := with_adapters (sample_root None [] false) (Some root_adapters);
       2%nat := child_at_5 ]}
    ∅ (Some 1%nat) tt [].

(** C5 (what the code does).  Inserting the child with route 0x5 under the
    root succeeds, but router_insert takes the hop from byte [depth] of the
    route, which is 0 here, so the child lands in adapter slot 0; the
    lookup of route 0x5, which descends through the low byte 5, does not
    find it.  Had the child been stored in slot 5, the lookup would return
    it.  A second insert returns EEXIST and changes nothing. *)
Theorem router_insert_then_lookup_misses :
  router_insert (topology (replicate 8 None)) 2%nat (Some 1%nat)
  = Some (0, topology (Some 2%nat :: replicate 7 None))
  /\ router_lookup_device (topology (Some 2%nat :: replicate 7 None)) 1%nat
       {| hi := 0; lo := 5 |}
     = Some (ENOENT, None)
  /\ router_lookup_device (topology (<[5%nat := Some 2%nat]> (replicate 8 None)))
       1%nat {| hi := 0; lo := 5 |}
     = Some (0, Some 2%nat)
  /\ router_insert (topology (Some 2%nat :: replicate 7 None)) 2%nat (Some 1%nat)
     = Some (EEXIST, topology (Some 2%nat :: replicate 7 None)).
Proof. repeat split; vm_compute; reflexivity. Qed.

(** *** C6 *)

(** A read of one dword is in flight on the root (command 5, built by the
    asynchronous wrapper), and a read response arrives that declares five
    dwords. *)
Definition one_dword_read : world (T := sample_transport 0) :=
  match tb_config_read_async (K := sample_regs) idle_world 1%nat 2 0 0 1 [0]
          (Some CB_router_get_config_cb) (Some 5%nat) with
  | Some (_, w) => w
  | None => idle_world
  end.

Definition five_dword_response : list Z :=
  htobe32 <$> [2147483648; 0; Z.shiftl 5 7; 101; 102; 103; 104; 105].

(** C6 (what the code does).  The command asked for one dword, so its
    frame's [resp_len] is (1 + 3) * 4 = 16, a byte count; the dispatcher
    bounds the copy by MIN(len, resp_len) = MIN(5, 16) and copies all five
    declared words into the response buffer, not min(5, 1) = 1.  The
    callback is not run, the request-side flag being still clear. *)
Theorem router_response_intr_copies_past_request :
  cmd_dwlen <$> commands one_dword_read !! 5%nat = Some 1
  /\ nhicmd_resp_len <$> (cmd_nhicmd <$> commands one_dword_read !! 5%nat)
     = Some 16
  /\ cmd_resp_buffer <$> commands one_dword_read !! 5%nat
     = Some [0; 0; 0; 0; 0; 0; 0; 0]
  /\ exists w',
       router_response_intr (K := sample_regs) (caller_cb_nop 0)
         one_dword_read 1%nat PDF_READ five_dword_response
       = Some w'
       /\ cmd_resp_buffer <$> commands w' !! 5%nat
          = Some [101; 102; 103; 104; 105; 0; 0; 0]
       /\ trace w' = trace one_dword_read.
Proof.
  split; [reflexivity|]. split; [reflexivity|]. split; [reflexivity|].
  eexists. split; [vm_compute; reflexivity|]. split; reflexivity.
Qed.

(** *** C9 *)

(** A capability chain in adapter space that goes 16 -> 32 -> 24 -> end:
    capability 1 at offset 16, capability 2 at offset 32, capability 3 at
    offset 24, whose next offset is the end marker 0.  Any other offset
    reads as a header with the end marker.  The low byte of the header
    word is the next offset, the byte above it the capability id. *)
Definition chain_header (offset : Z) : Z :=
  if offset =? 16 then Z.lor (Z.shiftl 1 8) 32
  else if offset =? 32 then Z.lor (Z.shiftl 2 8) 24
  else Z.shiftl 3 8.
Definition chain_read : Z -> Z -> Z -> Z -> list Z -> Z * list Z :=
  fun _ _ offset _ _ => (0, [chain_header offset; 0; 0]).

(** The number of headers from an offset of the chain to its end. *)
Definition chain_rank (offset : Z) : nat :=
  if offset =? 16 then 3 else if offset =? 32 then 2
  else if offset =? 24 then 1 else 0.

Definition cap_query (start cid vid : Z) : router_cfg_cap :=
  {| space := 1; adap := 0; current_cap := 0; next_cap := start;
     cap_id := cid; vsc_id := vid; vsc_len := 0; vsec_len := 0 |}.

Lemma chain_read_ranked (c c' : router_cfg_cap) :
  space c = 1 -> adap c = 0 ->
  cap_offset_bad (K := sample_regs) c = false ->
  tb_config_next_cap (K := sample_regs) chain_read true c = Some (0, c') ->
  cap_offset_bad (K := sample_regs) c' = true
  \/ (chain_rank (next_cap c') < chain_rank (next_cap c))%nat.
Proof.
  intros Hsp _ _. unfold tb_config_next_cap, chain_read, chain_header, chain_rank.
  rewrite Hsp.
  destruct (next_cap c =? 16) eqn:H16; [|destruct (next_cap c =? 32) eqn:H32];
    vm_compute; intros H; injection H as <-; vm_compute; auto.
Qed.

(** The search for capability 2 finds it at offset 32; the search for
    capability 7, which the chain does not hold, walks the three headers
    and returns EINVAL at the end marker. *)
Example tb_config_find_cap_walks_chain :
  (exists c, tb_config_find_cap (K := sample_regs) chain_read 5 (fun _ => true)
               (cap_query 16 2 0) = Some (0, c)
             /\ current_cap c = 32 /\ cap_id c = 2)
  /\ (exists c, tb_config_find_cap (K := sample_regs) chain_read 5 (fun _ => true)
                  (cap_query 16 7 0) = Some (EINVAL, c)
                /\ current_cap c = 24 /\ next_cap c = 0).
Proof.
  split; eexists; (split; [vm_compute; reflexivity|]); split; reflexivity.
Qed.

Lemma tb_config_find_cap_bounded_on_acyclic_chain_witness :
  (exists res,
     tb_config_find_cap (K := sample_regs) chain_read
       (S (S (chain_rank (next_cap (cap_query 16 7 0))))) (fun _ => true)
       (cap_query 16 7 0)
     = Some res)
  /\ (forall fuel mem' cur cap_id0 vsc_id0,
       cap_mismatch cur cap_id0 vsc_id0 = true ->
       cap_offset_bad (K := sample_regs) cur = true ->
       tb_config_find_cap_loop (K := sample_regs) chain_read (S fuel) mem' cur
         cap_id0 vsc_id0
       = Some (EINVAL, cur)).
Proof.
  exact (tb_config_find_cap_bounded_on_acyclic_chain (K := sample_regs)
           chain_read chain_rank (fun _ => true) (cap_query 16 7 0)
           (fun _ => eq_refl) chain_read_ranked).
Defined.

(** A chain in adapter space whose only capability, id 1 at offset 16,
    points back to itself. *)
Definition cyclic_read : Z -> Z -> Z -> Z -> list Z -> Z * list Z :=
  fun _ _ _ _ _ => (0, [Z.lor (Z.shiftl 1 8) 16; 0; 0]).

(** The cursor of the walk over [cyclic_read] after its first step. *)
Definition cyclic_cursor : router_cfg_cap :=
  {| space := 1; adap := 0; current_cap := 16; next_cap := 16;
     cap_id := 1; vsc_id := 0; vsc_len := 0; vsec_len := 0 |}.

Lemma cyclic_walk_never_ends (fuel : nat) :
  tb_config_find_cap_loop (K := sample_regs) cyclic_read fuel (fun _ => true)
    cyclic_cursor 2 0
  = None.
Proof. induction fuel as [|fuel IH]; [reflexivity|exact IH]. Qed.

(** The claim as stated fails: on this chain, whose offset 16 is neither
    zero nor above the bound, the search for capability 2 is still running
    after any number of iterations.  Every buffer is granted and every
    read succeeds: each one leads from the cursor back to it. *)
Lemma tb_config_find_cap_cyclic_counterexample :
  (forall fuel : nat,
     tb_config_find_cap (K := sample_regs) cyclic_read fuel (fun _ => true)
       (cap_query 16 2 0)
     = None)
  /\ cap_offset_bad (K := sample_regs) cyclic_cursor = false
  /\ tb_config_next_cap (K := sample_regs) cyclic_read true cyclic_cursor
     = Some (0, cyclic_cursor).
Proof.
  split; [|split; reflexivity].
  intros [|fuel]; [reflexivity|]. exact (cyclic_walk_never_ends fuel).
Qed.

(** *** End-to-end runs of the blocking read *)

(** The transport marks the request side of command [cmd] complete (nhi.c
    does this before it calls router_complete_intr). *)
Definition mark_req_complete {T : nhi_transport} (K : tb_regs) (w : world)
    (cmd : ptr) : world :=
  match commands w !! cmd with
  | Some c =>
      set_commands w
        (<[cmd := with_nhicmd c
                    (with_nhicmd_flags (cmd_nhicmd c)
                       (Z.lor (nhicmd_flags (cmd_nhicmd c)) CMD_REQ_COMPLETE))]>
           (commands w))
  | None => w
  end.

(** While the caller sleeps, the request completes and the read response
    with the two data words 17 and 34 arrives; the callback wakes the
    caller. *)
Definition sleep_until_response
  : world (T := sample_transport 0) -> ptr -> Z -> Z * world (T := sample_transport 0) :=
  fun w cmd _ =>
    let w1 := mark_req_complete sample_regs w cmd in
    let w2 := default w1 (router_complete_intr (K := sample_regs) (caller_cb_nop 0) w1 cmd) in
    (0, default w2
          (router_response_intr (K := sample_regs) (caller_cb_nop 0) w2 1%nat
             PDF_READ (htobe32 <$> [2147483648; 0; Z.shiftl 2 7; 17; 34]))).

Example tb_config_read_completes :
  exists w',
    tb_config_read (K := sample_regs) sleep_until_response 1000 idle_world
      1%nat 2 0 0 2 [0; 0] (Some 5%nat)
    = Some (0, [17; 34], w')
    /\ (inflight_cmd <$> routers w' !! 1%nat) = Some None
    /\ commands w' = ∅
    /\ exists f, trace w' = [SlotAssign 1 5; TxSchedule f 0; SlotClear 1; Wakeup 5].
Proof.
  eexists. split; [vm_compute; reflexivity|].
  split; [reflexivity|]. split; [reflexivity|]. eexists. reflexivity.
Qed.

(** While the caller sleeps, a notify with event code 1 arrives instead. *)
Definition sleep_until_notify
  : world (T := sample_transport 0) -> ptr -> Z -> Z * world (T := sample_transport 0) :=
  fun w _ _ =>
    (0, default w
          (router_notify_intr (K := sample_regs) (caller_cb_nop 0) w 1%nat
             notify_frame)).

Example tb_config_read_interrupted_by_event :
  exists w',
    tb_config_read (K := sample_regs) sleep_until_notify 1000 idle_world
      1%nat 2 0 0 2 [0; 0] (Some 5%nat)
    = Some (EINVAL, [0; 0], w')
    /\ (inflight_cmd <$> routers w' !! 1%nat) = Some None.
Proof. eexists. split; [vm_compute; reflexivity|reflexivity]. Qed.

(** *** The wait budget of the polled read *)


(** * Further properties of the engine *)

Section RouterFacts.
Context {T : nhi_transport} {K : tb_regs}.
Variable caller_cb : nat -> world -> ptr -> ptr -> world.
Variable msleep : world -> ptr -> Z -> Z * world.
Variable DELAY : world -> Z -> world.
Variable hz : Z.

Tactic Notation "bind_step" hyp(H) "as" simple_intropattern(x) ident(E) :=
  match type of H with
  | (?m ≫= _) = Some _ =>
      destruct m as [x|] eqn:E; cbn [mbind option_bind] in H;
      [|discriminate H]
  end.

(** ** Scheduler *)








(** X2.  While a command occupies the slot, router_schedule_locked only
    appends the new command, one that is not queued already, to the tail of
    the queue: it returns 0, submits nothing and leaves the slot alone;
    without a new command it does nothing at all. *)
Theorem router_schedule_locked_queues_behind_inflight (w : world) (sc : ptr)
    (r : router_softc) (x : ptr) (arg : option ptr) :
  routers w !! sc = Some r ->
  inflight_cmd r = Some x ->
  unlinked r arg ->
  router_schedule_locked w sc arg
  = Some (0, match arg with
             | Some c => set_routers w (<[sc := with_cmd_queue r (cmd_queue r ++ [c])]>
                                          (routers w))
             | None => w
             end).
Proof.
  intros Hr Hin Hun. unfold router_schedule_locked. rewrite Hr.
  cbn [mbind option_bind]. destruct arg as [c|].
  - rewrite bool_decide_eq_false_2 by exact Hun.
    rewrite (set_queue_Some _ _ _ _ Hr). cbn [mbind option_bind].
    cbn [routers set_routers]. rewrite lookup_insert_eq.
    cbn [mbind option_bind router_schedule_loop].
    cbn [routers set_routers]. rewrite lookup_insert_eq.
    cbn [mbind option_bind inflight_cmd with_cmd_queue]. by rewrite Hin.
  - cbn [mbind option_bind]. rewrite Hr. cbn [mbind option_bind router_schedule_loop].
    rewrite Hr. cbn [mbind option_bind]. by rewrite Hin.
Qed.

(** X3.  An idle router submits at once: when the slot is empty and the
    transport accepts the head [c] of the queue, extended by the new
    command if there is one (a command that is not queued already), [c]
    takes the slot, the rest of the queue stays queued in order, one frame
    has been submitted and the call returns 0. *)
Theorem router_schedule_locked_idle_submits_head (w : world) (sc : ptr)
    (r : router_softc) (arg : option ptr) (c : ptr) (rest : list ptr)
    (cmd : router_command) (rg : ring) :
  routers w !! sc = Some r ->
  inflight_cmd r = None ->
  unlinked r arg ->
  cmd_queue r ++ match arg with Some a => [a] | None => [] end = c :: rest ->
  commands w !! c = Some cmd ->
  nhi_tx_schedule (ring0 w) (cmd_nhicmd cmd) = (0, rg) ->
  exists w' r',
    router_schedule_locked w sc arg = Some (0, w')
    /\ routers w' !! sc = Some r'
    /\ inflight_cmd r' = Some c
    /\ cmd_queue r' = rest
    /\ trace w' = trace w ++ [SlotAssign sc c; TxSchedule (cmd_nhicmd cmd) 0].
Proof.
  intros Hr Hin Hun Hq Hc Htx.
  destruct (router_schedule_locked_submit_ok w sc r arg c rest cmd rg
              Hr Hin Hun Hq Hc Htx) as (w' & r' & H1 & H2 & H3 & H4 & H5 & _).
  by exists w', r'.
Qed.

(** The scheduler keeps the queue free of duplicates: a command is on the
    queue at most once, which is what makes the list stand for the
    TAILQ. *)
Lemma router_schedule_loop_queue_nodup (sc : ptr) (fuel : nat) :
  forall (w : world) (error e : Z) (w' : world) (r : router_softc),
  router_schedule_loop fuel w sc error = Some (e, w') ->
  routers w !! sc = Some r ->
  NoDup (cmd_queue r) ->
  forall r', routers w' !! sc = Some r' -> NoDup (cmd_queue r').
Proof.
  induction fuel as [|fuel IH]; intros w error e w' r H Hr Hnd.
  - cbn [router_schedule_loop] in H. rewrite Hr in H.
    cbn [mbind option_bind] in H.
    assert (w' = w) as ->
      by (destruct (inflight_cmd r), (cmd_queue r); congruence).
    intros r' Hr'. congruence.
  - cbn [router_schedule_loop] in H. rewrite Hr in H.
    cbn [mbind option_bind] in H.
    destruct (inflight_cmd r) eqn:Hin;
      [injection H as _ <-; intros r' Hr'; congruence|].
    destruct (cmd_queue r) as [|c rest] eqn:Hq;
      [injection H as _ <-; intros r' Hr'; congruence|].
    apply NoDup_cons in Hnd as [Hc Hrest].
    rewrite (set_queue_Some _ _ _ _ Hr) in H. cbn [mbind option_bind] in H.
    bind_step H as cm E1.
    erewrite set_inflight_Some in H
      by (cbn [routers set_routers]; apply lookup_insert_eq).
    cbn [mbind option_bind] in H.
    destruct (nhi_tx_schedule _ _) as [e1 rg].
    destruct (e1 =? 0).
    + eapply IH; [exact H| |].
      * cbn [routers log set_routers set_ring0]. apply lookup_insert_eq.
      * done.
    + erewrite set_inflight_Some in H
        by (cbn [routers log set_routers set_ring0]; apply lookup_insert_eq).
      cbn [mbind option_bind] in H.
      destruct (e1 =? EBUSY).
      * erewrite set_queue_Some in H
          by (cbn [routers log set_routers set_ring0]; apply lookup_insert_eq).
        injection H as _ <-. intros r1.
        cbn [routers log set_routers set_ring0]. rewrite lookup_insert_eq.
        intros [= <-]. cbn [cmd_queue with_cmd_queue]. by apply NoDup_cons.
      * injection H as _ <-. intros r1.
        cbn [routers log set_routers set_ring0]. rewrite lookup_insert_eq.
        by intros [= <-].
Qed.

Lemma router_schedule_locked_queue_nodup (w : world) (sc : ptr)
    (arg : option ptr) (e : Z) (w' : world) (r r' : router_softc) :
  routers w !! sc = Some r ->
  NoDup (cmd_queue r) ->
  router_schedule_locked w sc arg = Some (e, w') ->
  routers w' !! sc = Some r' ->
  NoDup (cmd_queue r').
Proof.
  intros Hr Hnd H. unfold router_schedule_locked in H. rewrite Hr in H.
  cbn [mbind option_bind] in H. bind_step H as w1 E0. bind_step H as r1 E1.
  eapply router_schedule_loop_queue_nodup; [exact H|exact E1|].
  destruct arg as [c|].
  - case_bool_decide as Hc; [done|].
    rewrite (set_queue_Some _ _ _ _ Hr) in E0. injection E0 as <-.
    cbn [routers set_routers] in E1. rewrite lookup_insert_eq in E1.
    injection E1 as <-. cbn [cmd_queue with_cmd_queue].
    apply NoDup_app. split; [done|]. split; [|apply NoDup_singleton].
    intros x Hx Hx'. apply list_elem_of_singleton in Hx'. by subst.
  - injection E0 as <-. assert (r1 = r) as -> by congruence. done.
Qed.

(** ** Completion callback *)

(** X4.  When the engine's callback completes command [cmd] of a router
    whose queue is [c :: rest], and the transport accepts [c], then the
    slot is released and handed to [c], the oldest queued command; the
    queue keeps [rest] in order; the sleeping caller of [cmd] is woken
    (the command is not a polled one). *)
Theorem router_get_config_cb_submits_oldest_queued (w : world) (sc cmd c : ptr)
    (r : router_softc) (cm cc : router_command) (rest : list ptr) (rg : ring) :
  routers w !! sc = Some r ->
  cmd_queue r = c :: rest ->
  commands w !! cmd = Some cm ->
  commands w !! c = Some cc ->
  c <> cmd ->
  Z.land (cmd_flags cm) RCMD_POLLED = 0 ->
  nhi_tx_schedule (ring0 w) (cmd_nhicmd cc) = (0, rg) ->
  exists w' r',
    router_get_config_cb w sc cmd = Some w'
    /\ routers w' !! sc = Some r'
    /\ inflight_cmd r' = Some c
    /\ cmd_queue r' = rest
    /\ trace w' = trace w ++ [SlotClear sc; Wakeup cmd; SlotAssign sc c;
                             TxSchedule (cmd_nhicmd cc) 0].
Proof.
  intros Hr Hq Hcm Hcc Hne Hfl Htx. unfold router_get_config_cb.
  rewrite Hcm. cbn [mbind option_bind].
  set (c1 := if cmd_ev cm =? 0 then _ else cm).
  assert (cmd_flags c1 = cmd_flags cm) as Hfl1
    by (subst c1; by destruct (cmd_ev cm =? 0)).
  erewrite set_inflight_Some by (cbn [routers set_commands]; exact Hr).
  cbn [mbind option_bind]. rewrite Hfl1, Hfl. change (0 =? 0) with true.
  cbv iota.
  edestruct (router_schedule_locked_submit_ok
               (log (log (set_routers (set_commands w (<[cmd:=c1]> (commands w)))
                            (<[sc:=with_inflight_cmd r None]>
                               (routers (set_commands w (<[cmd:=c1]> (commands w))))))
                       (SlotClear sc)) (Wakeup cmd))
               sc (with_inflight_cmd r None) None c rest cc rg)
    as (w' & r' & Hs & H1 & H2 & H3 & H4 & H5).
  { cbn [routers log set_routers]. apply lookup_insert_eq. }
  { done. }
  { done. }
  { cbn [cmd_queue with_inflight_cmd]. by rewrite app_nil_r. }
  { cbn [commands log set_routers set_commands]. by rewrite lookup_insert_ne. }
  { exact Htx. }
  rewrite Hs. cbn [mbind option_bind]. exists w', r'.
  repeat split; try done. rewrite H4. cbn [trace log set_routers set_commands].
  by rewrite <- !app_assoc.
Qed.

(** X5.  The engine's callback on a command without event code copies the
    first [dwlen] words of the response buffer over the first [dwlen] words
    of the caller's buffer: the buffer keeps its length, its words past
    [dwlen] and the response buffer are as before. *)
Theorem router_get_config_cb_copies_dwlen_words (w : world) (sc cmd : ptr)
    (c : router_command) (w' : world) :
  commands w !! cmd = Some c ->
  cmd_ev c = 0 ->
  (Z.to_nat (cmd_dwlen c) <= length (cmd_resp_buffer c))%nat ->
  (Z.to_nat (cmd_dwlen c) <= length (cmd_callback_arg c))%nat ->
  router_get_config_cb w sc cmd = Some w' ->
  exists c',
    commands w' !! cmd = Some c'
    /\ length (cmd_callback_arg c') = length (cmd_callback_arg c)
    /\ take (Z.to_nat (cmd_dwlen c)) (cmd_callback_arg c')
       = take (Z.to_nat (cmd_dwlen c)) (cmd_resp_buffer c)
    /\ drop (Z.to_nat (cmd_dwlen c)) (cmd_callback_arg c')
       = drop (Z.to_nat (cmd_dwlen c)) (cmd_callback_arg c)
    /\ cmd_resp_buffer c' = cmd_resp_buffer c.
Proof.
  intros Hc Hev Hl1 Hl2 H. unfold router_get_config_cb in H. rewrite Hc in H.
  cbn [mbind option_bind] in H. rewrite Hev in H. change (0 =? 0) with true in H.
  cbv iota in H.
  set (n := Z.to_nat (cmd_dwlen c)) in *.
  set (c1 := with_callback_arg c _) in H.
  bind_step H as w0 E0. apply set_inflight_commands in E0.
  cbn [commands set_commands] in E0.
  bind_step H as [e w4] Hs. injection H as <-.
  apply router_schedule_locked_commands in Hs. rewrite Hs.
  assert (length (take n (cmd_resp_buffer c)) = n) as Hlt
    by (rewrite length_take; lia).
  assert (exists c', (commands (if Z.land (cmd_flags c1) RCMD_POLLED =? 0
                                then log w0 (Wakeup cmd)
                                else set_commands w0
                                       (<[cmd:=with_cmd_flags c1
                                                 (Z.lor (cmd_flags c1) RCMD_POLL_COMPLETE)]>
                                          (commands w0)))) !! cmd = Some c'
                     /\ cmd_callback_arg c' = cmd_callback_arg c1
                     /\ cmd_resp_buffer c' = cmd_resp_buffer c1)
    as (c' & Hc' & Ha & Hb).
  { destruct (_ =? 0).
    - exists c1. cbn [commands log]. by rewrite E0, lookup_insert_eq.
    - eexists. cbn [commands set_commands]. by rewrite lookup_insert_eq. }
  exists c'. split; [done|]. rewrite Ha, Hb. subst c1.
  cbn [cmd_callback_arg cmd_resp_buffer with_callback_arg]. unfold bcopy_words.
  repeat split.
  - rewrite length_app, length_drop. lia.
  - rewrite take_app_le by lia. rewrite take_ge by lia. done.
  - rewrite drop_app_ge by lia. rewrite Hlt, Nat.sub_diag. done.
Qed.

(** ** Call wrappers *)

Lemma router_alloc_cmd_failure (w : world) (sc : ptr) (mem : option ptr)
    (e : Z) (w1 : world) :
  router_alloc_cmd w sc mem = Some (inl e, w1) ->
  w1 = w /\ (e = ENOMEM \/ e = EBUSY).
Proof.
  unfold router_alloc_cmd. intros H. bind_step H as r E.
  destruct mem as [p|].
  - destruct (nhi_alloc_tx_frame (ring0 w)) as [[f rg]|]; [discriminate|].
    injection H as <- <-. auto.
  - injection H as <- <-. auto.
Qed.

(** X6.  When the command cannot be allocated (malloc returns NULL: ENOMEM;
    the transport has no free frame: EBUSY), every wrapper returns that
    error at once: the world is untouched, nothing is queued or submitted,
    and the caller's buffer is as it was. *)
Theorem config_access_allocation_failure (w : world) (sc : ptr)
    (mem : option ptr) (e : Z) (w1 : world)
    (space adapter offset dwlen : Z) (buf : list Z)
    (cb : option router_callback_t) :
  router_alloc_cmd w sc mem = Some (inl e, w1) ->
  (e = ENOMEM \/ e = EBUSY)
  /\ tb_config_read msleep hz w sc space adapter offset dwlen buf mem
     = Some (e, buf, w)
  /\ tb_config_write msleep hz w sc space adapter offset dwlen buf mem
     = Some (e, buf, w)
  /\ tb_config_read_polled DELAY w sc space adapter offset dwlen buf mem
     = Some (e, buf, w)
  /\ tb_config_read_async w sc space adapter offset dwlen buf cb mem
     = Some (e, w).
Proof.
  intros H. destruct (router_alloc_cmd_failure _ _ _ _ _ H) as [-> He].
  split; [done|].
  unfold tb_config_read, tb_config_write, tb_config_read_polled,
    tb_config_read_async, _tb_config_read, _tb_config_write.
  rewrite H. cbn [mbind option_bind]. done.
Qed.

(** router_schedule_locked when the transport refuses the only command of an
    idle router with a hard error. *)
Lemma router_schedule_locked_hard_error (w : world) (sc p : ptr)
    (r : router_softc) (c : router_command) (e : Z) (rg : ring) :
  routers w !! sc = Some r ->
  inflight_cmd r = None ->
  cmd_queue r = [] ->
  commands w !! p = Some c ->
  nhi_tx_schedule (ring0 w) (cmd_nhicmd c) = (e, rg) ->
  e <> 0 -> e <> EBUSY ->
  exists w' r',
    router_schedule_locked w sc (Some p) = Some (e, w')
    /\ routers w' !! sc = Some r'
    /\ inflight_cmd r' = None /\ cmd_queue r' = []
    /\ trace w' = trace w ++ [SlotAssign sc p; TxSchedule (cmd_nhicmd c) e;
                             SlotClear sc]
    /\ commands w' = commands w.
Proof.
  intros Hr Hin Hq Hc Htx He Hb. unfold router_schedule_locked.
  rewrite Hr. cbn [mbind option_bind].
  rewrite bool_decide_eq_false_2 by (rewrite Hq; apply not_elem_of_nil).
  rewrite (set_queue_Some _ _ _ _ Hr). cbn [mbind option_bind].
  cbn [routers set_routers]. rewrite lookup_insert_eq. cbn [mbind option_bind].
  edestruct (router_schedule_loop_error
               (length (cmd_queue (with_cmd_queue r (cmd_queue r ++ [p]))))
               (set_routers w (<[sc:=with_cmd_queue r (cmd_queue r ++ [p])]> (routers w)))
               sc (with_cmd_queue r (cmd_queue r ++ [p])) p [] c e rg 0)
    as (w' & r' & Hl & H1 & H2 & H3 & H4 & H5 & H6); eauto.
  { cbn [routers set_routers]. apply lookup_insert_eq. }
  { cbn [cmd_queue with_cmd_queue]. by rewrite Hq. }
  assert ((e =? EBUSY) = false) as Hbf by lia. rewrite Hbf in Hl, H3.
  exists w', r'. by repeat split.
Qed.

(** X7.  A hard error of the transport (neither 0 nor EBUSY) ends a
    blocking read at its first attempt: the error is returned as it is,
    after one submission, without sleeping or retrying; the slot is clear,
    the command is freed and the caller's buffer is as it was. *)
Theorem tb_config_read_hard_error_not_retried (w : world) (sc p : ptr)
    (r : router_softc) (f : nhi_cmd_frame) (rg : ring) (e : Z)
    (space adapter offset dwlen : Z) (buf : list Z) :
  routers w !! sc = Some r ->
  inflight_cmd r = None ->
  cmd_queue r = [] ->
  commands w !! p = None ->
  nhi_alloc_tx_frame (ring0 w) = Some (f, rg) ->
  (forall rg f, (nhi_tx_schedule rg f).1 = e) ->
  e <> 0 -> e <> EBUSY ->
  exists w' r' fr,
    tb_config_read msleep hz w sc space adapter offset dwlen buf (Some p)
    = Some (e, buf, w')
    /\ routers w' !! sc = Some r'
    /\ inflight_cmd r' = None /\ cmd_queue r' = []
    /\ trace w' = trace w ++ [SlotAssign sc p; TxSchedule fr e; SlotClear sc]
    /\ commands w' = commands w.
Proof.
  intros Hr Hin Hq Hfresh Hf Htx He Hb.
  destruct (tb_config_read_builds w sc p r f rg space adapter offset dwlen buf
              (Some CB_router_get_config_cb) Hr Hf)
    as (c & Hbuild & Hret & _ & Hev & _ & _ & Harg & _).
  unfold tb_config_read. rewrite Hbuild. cbn [mbind option_bind].
  unfold tb_config_blocking. cbn [commands set_commands].
  rewrite lookup_insert_eq. cbn [mbind option_bind]. rewrite Hret.
  change (Z.to_nat (CFG_DEFAULT_RETRIES + 1)) with 4%nat.
  cbn [tb_config_retry_loop]. change (CFG_DEFAULT_RETRIES >=? 0) with true.
  cbv iota.
  set (w0 := set_commands (set_ring0 w rg) (<[p:=c]> (commands w))).
  destruct (nhi_tx_schedule (ring0 w0) (cmd_nhicmd c)) as [e0 rg0] eqn:Etx.
  assert (e0 = e) as -> by (specialize (Htx (ring0 w0) (cmd_nhicmd c));
                            by rewrite Etx in Htx).
  destruct (router_schedule_locked_hard_error w0 sc p r c e rg0)
    as (w1 & r1 & -> & Hr1 & Hin1 & Hq1 & Ht1 & Hc1); try done.
  { subst w0. cbn [commands set_commands]. apply lookup_insert_eq. }
  cbn [mbind option_bind]. assert ((e =? 0) = false) as -> by lia.
  cbn [negb mbind option_bind]. unfold tb_config_finish, router_free_cmd.
  rewrite Hc1. subst w0. cbn [commands set_commands].
  rewrite lookup_insert_eq. cbn [mbind option_bind]. rewrite Hr1, Hev.
  cbn [mbind option_bind]. change (negb (0 =? 0)) with false. cbv iota.
  eexists _, r1, (cmd_nhicmd c).
  rewrite Harg. split; [reflexivity|].
  cbn [routers trace commands set_commands set_ring0].
  repeat split; try done.
  rewrite delete_insert_eq. by apply delete_id.
Qed.

(** X8.  The asynchronous read on an idle router, when the transport
    accepts the frame, returns 0 with its command submitted and holding the
    slot; the command is not freed: it stays in the heap with the caller's
    callback, buffer and length, for the dispatcher to complete. *)
Theorem tb_config_read_async_leaves_command_inflight (w : world) (sc p : ptr)
    (r : router_softc) (f : nhi_cmd_frame) (rg : ring)
    (space adapter offset dwlen : Z) (buf : list Z)
    (cb : option router_callback_t) :
  routers w !! sc = Some r ->
  inflight_cmd r = None ->
  cmd_queue r = [] ->
  nhi_alloc_tx_frame (ring0 w) = Some (f, rg) ->
  (forall rg f, (nhi_tx_schedule rg f).1 = 0) ->
  exists w' r' c,
    tb_config_read_async w sc space adapter offset dwlen buf cb (Some p)
    = Some (0, w')
    /\ routers w' !! sc = Some r'
    /\ inflight_cmd r' = Some p /\ cmd_queue r' = []
    /\ commands w' !! p = Some c
    /\ cmd_callback c = cb /\ cmd_callback_arg c = buf /\ cmd_dwlen c = dwlen
    /\ trace w' = trace w ++ [SlotAssign sc p; TxSchedule (cmd_nhicmd c) 0].
Proof.
  intros Hr Hin Hq Hf Htx.
  destruct (tb_config_read_builds w sc p r f rg space adapter offset dwlen buf
              cb Hr Hf)
    as (c & Hbuild & _ & _ & _ & _ & Hcb & Harg & Hdw & _).
  unfold tb_config_read_async, router_schedule. rewrite Hbuild.
  cbn [mbind option_bind].
  set (w0 := set_commands (set_ring0 w rg) (<[p:=c]> (commands w))).
  destruct (nhi_tx_schedule (ring0 w0) (cmd_nhicmd c)) as [e0 rg0] eqn:Etx.
  assert (e0 = 0) as -> by (specialize (Htx (ring0 w0) (cmd_nhicmd c));
                            by rewrite Etx in Htx).
  destruct (router_schedule_locked_submit_ok w0 sc r (Some p) p [] c rg0)
    as (w1 & r1 & -> & Hr1 & Hin1 & Hq1 & Ht1 & Hc1); try done.
  { cbn [unlinked]. rewrite Hq. apply not_elem_of_nil. }
  { by rewrite Hq. }
  { subst w0. cbn [commands set_commands]. apply lookup_insert_eq. }
  exists w1, r1, c. repeat split; try done.
  rewrite Hc1. subst w0. cbn [commands set_commands]. apply lookup_insert_eq.
Qed.

(** ** Response and event dispatch *)

(** X9.  A response whose route resolves to no router (the lookup fails),
    or whose router has no command in flight, is dropped: the world is
    exactly as before. *)
Theorem router_response_intr_drops_unmatched (w : world) (sc : ptr)
    (eof : pdf_t) (data : list Z) (e : Z) (dev : option ptr) :
  router_lookup_device w sc (response_route data) = Some (e, dev) ->
  (e <> 0 \/ dev = None
   \/ exists d r, dev = Some d /\ routers w !! d = Some r
                  /\ inflight_cmd r = None) ->
  router_response_intr caller_cb w sc eof data = Some w.
Proof.
  intros Hl Hcase. unfold router_response_intr. fold (response_route data).
  rewrite Hl. cbn [mbind option_bind].
  destruct Hcase as [He|[->|(d & r & -> & Hr & Hin)]].
  - assert ((e =? 0) = false) as -> by lia. done.
  - by destruct (e =? 0).
  - destruct (e =? 0); [|done]. rewrite Hr. cbn [mbind option_bind].
    by rewrite Hin.
Qed.

(** X10.  A notify whose event code is not one of the thirteen recognised
    codes, or that finds no command in flight on the router, changes
    nothing. *)
Theorem router_notify_intr_ignores (w : world) (sc : ptr) (data : list Z) :
  (notify_recognized (GET_NOTIFY_EVENT (be32toh (word_at data 2))) = false
   \/ exists r, routers w !! sc = Some r /\ inflight_cmd r = None) ->
  router_notify_intr caller_cb w sc data = Some w.
Proof.
  intros Hcase. unfold router_notify_intr.
  destruct Hcase as [->|(r & Hr & Hin)]; [done|].
  destruct (notify_recognized _); [|done].
  rewrite Hr. cbn [mbind option_bind]. by rewrite Hin.
Qed.

(** The trace only grows. *)
Lemma router_schedule_loop_trace_extends (sc : ptr) (fuel : nat) :
  forall (w : world) (error e : Z) (w' : world),
  router_schedule_loop fuel w sc error = Some (e, w') ->
  exists tl, trace w' = trace w ++ tl.
Proof.
  induction fuel as [|fuel IH]; intros w error e w' H.
  - cbn [router_schedule_loop] in H. bind_step H as r2 E2.
    destruct (inflight_cmd r2), (cmd_queue r2); try discriminate;
      injection H as _ <-; exists []; by rewrite app_nil_r.
  - cbn [router_schedule_loop] in H. bind_step H as r2 E2.
    destruct (inflight_cmd r2), (cmd_queue r2);
      try (injection H as _ <-; exists []; by rewrite app_nil_r).
    bind_step H as wa Ea. bind_step H as ca Eb. bind_step H as wb Ec.
    unfold set_queue in Ea. bind_step Ea as ra Ed. injection Ea as <-.
    unfold set_inflight in Ec. cbn [routers set_routers] in Ec.
    bind_step Ec as rb Ee. injection Ec as <-.
    destruct (nhi_tx_schedule _ _) as [e2 rg].
    destruct (e2 =? 0).
    + apply IH in H as [tl Htl]. cbn [trace log set_routers set_ring0] in Htl.
      eexists. rewrite Htl. by rewrite <- !app_assoc.
    + bind_step H as wc Ef. unfold set_inflight in Ef.
      bind_step Ef as rc Eg. injection Ef as <-.
      destruct (e2 =? EBUSY).
      * bind_step H as wd Eh. unfold set_queue in Eh.
        bind_step Eh as rd Ei. injection Eh as <-. injection H as _ <-.
        cbn [trace log set_routers set_ring0]. eexists.
        by rewrite <- !app_assoc.
      * injection H as _ <-. cbn [trace log set_routers set_ring0].
        eexists. by rewrite <- !app_assoc.
Qed.

Lemma router_schedule_locked_trace_extends (w : world) (sc : ptr)
    (arg : option ptr) (e : Z) (w' : world) :
  router_schedule_locked w sc arg = Some (e, w') ->
  exists tl, trace w' = trace w ++ tl.
Proof.
  intros H. unfold router_schedule_locked in H.
  bind_step H as r E. bind_step H as w1 E0. bind_step H as r1 E1.
  assert (trace w1 = trace w) as <-.
  { destruct arg; [|by injection E0 as <-].
    case_bool_decide; [done|].
    unfold set_queue in E0. bind_step E0 as r2 E2. by injection E0 as <-. }
  by eapply router_schedule_loop_trace_extends.
Qed.

(** X11.  A recognised notify with a non-zero event code, arriving while a
    command with the engine's callback is in flight, records the code in
    that command and completes it: the slot is cleared, and the caller's
    buffer is not touched. *)
Theorem router_notify_intr_records_event (w : world) (sc cmd : ptr)
    (data : list Z) (r : router_softc) (c : router_command) (w' : world) :
  notify_recognized (GET_NOTIFY_EVENT (be32toh (word_at data 2))) = true ->
  GET_NOTIFY_EVENT (be32toh (word_at data 2)) <> 0 ->
  routers w !! sc = Some r ->
  inflight_cmd r = Some cmd ->
  commands w !! cmd = Some c ->
  cmd_callback c = Some CB_router_get_config_cb ->
  router_notify_intr caller_cb w sc data = Some w' ->
  exists c',
    commands w' !! cmd = Some c'
    /\ cmd_ev c' = GET_NOTIFY_EVENT (be32toh (word_at data 2))
    /\ cmd_callback_arg c' = cmd_callback_arg c
    /\ In (SlotClear sc) (trace w').
Proof.
  intros Hrec Hev Hr Hin Hc Hcb H. unfold router_notify_intr in H.
  rewrite Hrec, Hr in H. cbn [mbind option_bind] in H. rewrite Hin, Hc in H.
  cbn [mbind option_bind] in H. unfold call_callback in H.
  cbn [commands set_commands] in H. rewrite lookup_insert_eq in H.
  cbn [mbind option_bind cmd_callback with_cmd_ev] in H. rewrite Hcb in H.
  cbn [mbind option_bind] in H.
  set (ev := GET_NOTIFY_EVENT (be32toh (word_at data 2))) in *.
  set (w0 := set_commands w (<[cmd:=with_cmd_ev c ev]> (commands w))) in *.
  destruct (router_get_config_cb_no_copy w0 sc cmd (with_cmd_ev c ev) w')
    as (c' & Hc' & Ha & He); try done.
  { subst w0. cbn [commands set_commands]. apply lookup_insert_eq. }
  exists c'. repeat split; try done.
  unfold router_get_config_cb in H.
  destruct (commands w0 !! cmd) as [c0|]; cbn [mbind option_bind] in H;
    [|discriminate H].
  bind_step H as w1 E0. bind_step H as [e w4] Hs. injection H as <-.
  assert (In (SlotClear sc) (trace w1)) as Hin1.
  { unfold set_inflight in E0. bind_step E0 as r0 E1. injection E0 as <-.
    cbn [trace log]. apply in_or_app. right. by left. }
  apply router_schedule_locked_trace_extends in Hs as [tl ->].
  apply in_or_app. left.
  destruct (Z.land _ RCMD_POLLED =? 0); cbn [trace log set_commands]; [|done].
  apply in_or_app. by left.
Qed.

(** ** Hotplug *)

(** X12.  router_hotplug_intr submits its acknowledgment exactly once and
    never retries, whatever the transport answers; the acknowledgment is
    built in a command of its own that is freed before the handler returns,
    and it goes past the scheduler: no router's slot or queue changes.
    When the command cannot be allocated nothing is submitted at all. *)
Theorem router_hotplug_intr_acknowledges_once (w : world) (sc p : ptr)
    (r : router_softc) (data : list Z) (f : nhi_cmd_frame) (rg rg' : ring)
    (err : Z) :
  routers w !! sc = Some r ->
  commands w !! p = None ->
  nhi_alloc_tx_frame (ring0 w) = Some (f, rg) ->
  nhi_tx_schedule rg
    (hotplug_ack_frame f (hotplug_event data)
       (hotplug_unplug (hotplug_event data))) = (err, rg') ->
  (exists w',
     router_hotplug_intr w sc data (Some p) = Some w'
     /\ trace w'
        = trace w ++ [TxSchedule
                        (hotplug_ack_frame f (hotplug_event data)
                           (hotplug_unplug (hotplug_event data))) err]
     /\ commands w' = commands w
     /\ routers w' = routers w)
  /\ router_hotplug_intr w sc data None = Some w.
Proof.
  intros Hr Hfresh Hf Htx. split.
  - unfold router_hotplug_intr, router_hotplug_ack.
    rewrite (router_alloc_cmd_ok _ _ _ _ _ _ Hr Hf).
    cbn -[insert lookup delete hotplug_ack_frame]. rewrite lookup_insert_eq.
    cbn -[insert lookup delete hotplug_ack_frame]. rewrite Htx.
    unfold router_free_cmd. cbn -[insert lookup delete hotplug_ack_frame].
    rewrite insert_insert_eq, lookup_insert_eq.
    cbn -[insert lookup delete hotplug_ack_frame]. rewrite Hr.
    cbn -[insert lookup delete hotplug_ack_frame].
    eexists. split; [reflexivity|].
    cbn -[insert lookup delete hotplug_ack_frame].
    repeat split; try done. rewrite delete_insert_eq. by apply delete_id.
  - unfold router_hotplug_intr, router_hotplug_ack, router_alloc_cmd.
    rewrite Hr. done.
Qed.

(** ** Detach *)

(** X13.  A successful tb_router_detach hands the router to free(9) twice
    when its adapter array has been allocated, and once when it has not;
    nothing else is logged. *)
Theorem tb_router_detach_frees_twice (w : world) (sc : ptr) (r : router_softc) :
  routers w !! sc = Some r ->
  cmd_queue r = [] ->
  exists w',
    tb_router_detach w sc = Some (0, w')
    /\ trace w' = trace w ++ match adapters r with
                              | Some _ => [FreeRouter sc; FreeRouter sc]
                              | None => [FreeRouter sc]
                              end
    /\ (forall n, n <> sc -> routers w' !! n = routers w !! n).
Proof.
  intros Hr Hq. unfold tb_router_detach. rewrite Hr. cbn [mbind option_bind].
  rewrite Hq. eexists. split; [reflexivity|].
  destruct (adapters r); cbn [trace routers free_router log set_routers]; split.
  - by rewrite <- app_assoc.
  - intros n Hn. by rewrite !lookup_delete_ne.
  - done.
  - intros n Hn. by rewrite lookup_delete_ne.
Qed.

(** ** Words on the wire *)

Lemma testbit_255 (n : Z) : Z.testbit 255 n = (0 <=? n) && (n <? 8).
Proof. change 255 with (Z.ones 8). by apply Z.testbit_ones. Qed.

Lemma testbit_word32_high (x n : Z) :
  0 <= x < 2 ^ 32 -> 32 <= n -> Z.testbit x n = false.
Proof.
  intros Hx Hn. destruct (Z.eq_dec x 0) as [->|Hne]; [apply Z.bits_0|].
  apply Z.bits_above_log2; [lia|].
  assert (Z.log2 x < 32) by (apply Z.log2_lt_pow2; lia). lia.
Qed.

(** Bit [n] of the swapped word is the bit of the same position in the
    mirrored byte. *)
Lemma bswap32_testbit (x n : Z) :
  0 <= n ->
  Z.testbit (bswap32 x) n
  = if n <? 8 then Z.testbit x (n + 24)
    else if n <? 16 then Z.testbit x (n + 8)
    else if n <? 24 then Z.testbit x (n - 8)
    else if n <? 32 then Z.testbit x (n - 24)
    else false.
Proof.
  intros Hn. unfold bswap32.
  rewrite !Z.lor_spec, !Z.shiftl_spec by lia.
  rewrite !Z.land_spec, !testbit_255.
  destruct (Z.ltb_spec n 8).
  { rewrite (Z.testbit_neg_r _ (n - 24)), (Z.testbit_neg_r _ (n - 16)),
      (Z.testbit_neg_r _ (n - 8)) by lia.
    rewrite Z.shiftr_spec by lia. cbn [orb andb].
    assert ((0 <=? n) = true) as -> by lia.
    by rewrite andb_true_r. }
  destruct (Z.ltb_spec n 16).
  { rewrite (Z.testbit_neg_r _ (n - 24)), (Z.testbit_neg_r _ (n - 16)) by lia.
    rewrite !Z.shiftr_spec by lia.
    assert ((0 <=? n - 8) = true) as -> by lia.
    assert ((n - 8 <? 8) = true) as -> by lia.
    cbn [orb andb]. rewrite !andb_false_r, andb_true_r. cbn [orb].
    rewrite orb_false_r. f_equal. lia. }
  destruct (Z.ltb_spec n 24).
  { rewrite (Z.testbit_neg_r _ (n - 24)) by lia.
    rewrite !Z.shiftr_spec by lia.
    assert ((0 <=? n - 16) = true) as -> by lia.
    assert ((n - 16 <? 8) = true) as -> by lia.
    assert ((n - 8 <? 8) = false) as -> by lia.
    cbn [orb andb]. rewrite !andb_false_r, andb_true_r. cbn [orb].
    rewrite orb_false_r. f_equal. lia. }
  destruct (Z.ltb_spec n 32).
  { rewrite !Z.shiftr_spec by lia.
    assert ((0 <=? n - 24) = true) as -> by lia.
    assert ((n - 24 <? 8) = true) as -> by lia.
    assert ((n - 16 <? 8) = false) as -> by lia.
    assert ((n - 8 <? 8) = false) as -> by lia.
    cbn [orb andb]. rewrite !andb_false_r, andb_true_r. cbn [orb].
    by rewrite !orb_false_r. }
  assert ((n - 24 <? 8) = false) as -> by lia.
  assert ((n - 16 <? 8) = false) as -> by lia.
  assert ((n - 8 <? 8) = false) as -> by lia.
  by rewrite !andb_false_r.
Qed.

(** The swap of any integer is a 32-bit word. *)
Lemma bswap32_range (x : Z) : 0 <= bswap32 x < 2 ^ 32.
Proof.
  assert (0 <= bswap32 x) as H0.
  { unfold bswap32. rewrite !Z.lor_nonneg, !Z.shiftl_nonneg, !Z.land_nonneg. lia. }
  split; [done|].
  destruct (Z.eq_dec (bswap32 x) 0) as [->|Hne]; [done|].
  apply Z.log2_lt_pow2; [lia|].
  destruct (Z.lt_ge_cases (Z.log2 (bswap32 x)) 32) as [|Hge]; [done|].
  pose proof (Z.bit_log2 (bswap32 x) ltac:(lia)) as Hb.
  rewrite bswap32_testbit in Hb by lia. revert Hb.
  set (l := Z.log2 (bswap32 x)) in *.
  assert ((l <? 8) = false) as -> by lia. assert ((l <? 16) = false) as -> by lia.
  assert ((l <? 24) = false) as -> by lia. assert ((l <? 32) = false) as -> by lia.
  done.
Qed.

Lemma bswap32_involutive (x : Z) : 0 <= x < 2 ^ 32 -> bswap32 (bswap32 x) = x.
Proof.
  intros Hx. apply Z.bits_inj'. intros n Hn.
  rewrite bswap32_testbit by done.
  destruct (Z.ltb_spec n 8).
  { rewrite bswap32_testbit by lia.
    assert ((n + 24 <? 8) = false) as -> by lia.
    assert ((n + 24 <? 16) = false) as -> by lia.
    assert ((n + 24 <? 24) = false) as -> by lia.
    assert ((n + 24 <? 32) = true) as -> by lia. f_equal. lia. }
  destruct (Z.ltb_spec n 16).
  { rewrite bswap32_testbit by lia.
    assert ((n + 8 <? 8) = false) as -> by lia.
    assert ((n + 8 <? 16) = false) as -> by lia.
    assert ((n + 8 <? 24) = true) as -> by lia. f_equal. lia. }
  destruct (Z.ltb_spec n 24).
  { rewrite bswap32_testbit by lia.
    destruct (Z.ltb_spec (n - 8) 8); [lia|].
    destruct (Z.ltb_spec (n - 8) 16); [|lia]. f_equal. lia. }
  destruct (Z.ltb_spec n 32).
  { rewrite bswap32_testbit by lia.
    destruct (Z.ltb_spec (n - 24) 8); [|lia]. f_equal. lia. }
  symmetry. by apply testbit_word32_high.
Qed.

(** X14.  htobe32 and be32toh are inverse to each other on 32-bit words,
    and what they produce is a 32-bit word again: a word written to a frame
    in wire order is read back as it was. *)
Theorem be32toh_htobe32_round_trip (x : Z) :
  0 <= x < 2 ^ 32 ->
  be32toh (htobe32 x) = x
  /\ htobe32 (be32toh x) = x
  /\ 0 <= htobe32 x < 2 ^ 32.
Proof.
  intros Hx. unfold be32toh, htobe32.
  split; [by apply bswap32_involutive|].
  split; [by apply bswap32_involutive|apply bswap32_range].
Qed.

(** X15.  The header of a read request is read back by the response
    dispatcher as it was written: for a router whose route fits the wire
    format (31 bits in the high word, 32 in the low one), the route
    router_response_intr extracts from the words _tb_config_read put into
    the frame is the router's route, the third word decodes to the address
    attributes, and the frame is a PDF_READ of sizeof(struct tb_cfg_read)
    bytes whose fourth word is the CRC of the three before it. *)
Theorem tb_config_read_header_round_trip (w : world) (sc p : ptr)
    (r : router_softc) (f : nhi_cmd_frame) (rg : ring)
    (space adapter offset dwlen : Z) (buf : list Z)
    (cb : option router_callback_t) (a b c d : Z) (rest : list Z) :
  routers w !! sc = Some r ->
  nhi_alloc_tx_frame (ring0 w) = Some (f, rg) ->
  nhicmd_data f = a :: b :: c :: d :: rest ->
  0 <= hi (route r) < 2 ^ 31 ->
  0 <= lo (route r) < 2 ^ 32 ->
  0 <= TB_CONFIG_ADDR 0 space adapter dwlen offset < 2 ^ 32 ->
  exists w' cm,
    _tb_config_read w sc space adapter offset dwlen buf cb (Some p)
    = Some (inr p, w')
    /\ commands w' !! p = Some cm
    /\ response_route (nhicmd_data (cmd_nhicmd cm)) = route r
    /\ be32toh (word_at (nhicmd_data (cmd_nhicmd cm)) 2)
       = TB_CONFIG_ADDR 0 space adapter dwlen offset
    /\ word_at (nhicmd_data (cmd_nhicmd cm)) 3
       = htobe32 (tb_calc_crc (take 3 (nhicmd_data (cmd_nhicmd cm))))
    /\ nhicmd_pdf (cmd_nhicmd cm) = PDF_READ
    /\ nhicmd_req_len (cmd_nhicmd cm) = sizeof_tb_cfg_read.
Proof.
  intros Hr Hf Hd Hhi Hlo Haddr. unfold _tb_config_read.
  rewrite (router_alloc_cmd_ok _ _ _ _ _ _ Hr Hf). cbn [mbind option_bind].
  cbn [routers commands set_commands set_ring0]. rewrite Hr, lookup_insert_eq.
  cbn [mbind option_bind]. eexists _, _. split; [reflexivity|].
  cbn [commands set_commands]. split; [apply lookup_insert_eq|].
  unfold router_prepare_read, router_prepare.
  cbn [cmd_nhicmd nhicmd_data with_request with_nhicmd_data zeroed_command
       nhicmd_pdf nhicmd_req_len].
  rewrite Hd.
  change (Z.to_nat ((sizeof_tb_cfg_read - 4) / 4)) with 3%nat.
  change (Z.to_nat (sizeof_tb_cfg_read / 4)) with 4%nat.
  unfold response_route, word_at, write_header, bzero_words, htobe32_words.
  cbn [length Nat.min replicate drop app list_insert insert take fmap list_fmap
       lookup list_lookup default from_option].
  unfold be32toh, htobe32, id.
  rewrite !bswap32_involutive by lia.
  assert (Z.land (hi (route r)) 2147483647 = hi (route r)) as ->.
  { change 2147483647 with (Z.ones 31). rewrite Z.land_ones by lia.
    apply Z.mod_small. lia. }
  repeat split; try done. by destruct (route r).
Qed.

(** ** Route resolver *)

Lemma router_lookup_loop_sound (w : world) (search_rt : Z) (fuel : nat) :
  forall (cursor : option ptr) (remainder_rt e : Z) (dev : option ptr),
  router_lookup_loop fuel w cursor search_rt remainder_rt = Some (e, dev) ->
  (e = 0 /\ exists d r, dev = Some d /\ routers w !! d = Some r
                        /\ TB_ROUTE r = search_rt)
  \/ ((e = ENOENT \/ e = EINVAL) /\ dev = None).
Proof.
  induction fuel as [|fuel IH]; intros cursor rem e dev H.
  - destruct cursor; [discriminate|]. injection H as <- <-. auto.
  - destruct cursor as [cur|]; [|injection H as <- <-; auto].
    cbn [router_lookup_loop] in H. bind_step H as c Ec.
    destruct (TB_ROUTE c =? search_rt) eqn:Hm.
    { injection H as <- <-. left. split; [done|]. exists cur, c.
      repeat split; [done|lia]. }
    destruct (Z.land rem 255 =? 0); [injection H as <- <-; auto|].
    destruct (Z.land rem 255 >? max_adap c); [injection H as <- <-; auto|].
    destruct (adapters c) as [arr|]; [|injection H as <- <-; auto].
    bind_step H as next En. by eapply IH.
Qed.

(** X16.  What router_lookup_device returns: either 0 with a router whose
    route is the one searched for, or ENOENT or EINVAL without a router.
    It never hands back a router of another route, and never reports
    success without one. *)
Theorem router_lookup_device_sound (w : world) (sc : ptr) (rt : tb_route_t)
    (e : Z) (dev : option ptr) :
  router_lookup_device w sc rt = Some (e, dev) ->
  (e = 0 /\ exists d r, dev = Some d /\ routers w !! d = Some r
                        /\ TB_ROUTE r = route_u64 rt)
  \/ ((e = ENOENT \/ e = EINVAL) /\ dev = None).
Proof.
  unfold router_lookup_device. intros H. bind_step H as s Es.
  by eapply router_lookup_loop_sound.
Qed.

(** A topology without dangling pointers: every adapter array has a slot
    for each adapter number up to [max_adap], and the root pointer and the
    children in the slots are routers of the heap. *)
Definition topology_wf (w : world) : Prop :=
  (forall p, root w = Some p -> is_Some (routers w !! p))
  /\ (forall p r arr,
       routers w !! p = Some r -> adapters r = Some arr ->
       (Z.to_nat (max_adap r) < length arr)%nat
       /\ (forall i c, arr !! i = Some (Some c) -> is_Some (routers w !! c))).

Lemma router_lookup_loop_total (w : world) (search_rt : Z) (n : nat) :
  topology_wf w ->
  forall (cursor : option ptr) (remainder_rt : Z),
  (forall p, cursor = Some p -> is_Some (routers w !! p)) ->
  0 <= remainder_rt < 2 ^ (8 * Z.of_nat n) ->
  exists res, router_lookup_loop (S n) w cursor search_rt remainder_rt = Some res.
Proof.
  intros [_ Hwf]. induction n as [|n IH]; intros cursor rem Hcur Hrem.
  - assert (rem = 0) as -> by (change (2 ^ (8 * Z.of_nat 0)) with 1 in Hrem; lia).
    destruct cursor as [cur|]; [|by eexists]. cbn [router_lookup_loop].
    destruct (Hcur cur eq_refl) as [c ->]. cbn [mbind option_bind].
    destruct (TB_ROUTE c =? search_rt); by eexists.
  - destruct cursor as [cur|]; [|by eexists]. cbn [router_lookup_loop].
    destruct (Hcur cur eq_refl) as [c Hc]. rewrite Hc. cbn [mbind option_bind].
    destruct (TB_ROUTE c =? search_rt); [by eexists|].
    destruct (Z.land rem 255 =? 0) eqn:H0; [by eexists|].
    destruct (Z.land rem 255 >? max_adap c) eqn:Hmax; [by eexists|].
    destruct (adapters c) as [arr|] eqn:Harr; [|by eexists].
    destruct (Hwf cur c arr Hc Harr) as [Hlen Hch].
    assert (0 <= Z.land rem 255) by (apply Z.land_nonneg; lia).
    destruct (lookup_lt_is_Some_2 arr (Z.to_nat (Z.land rem 255))) as [next Hn];
      [lia|].
    rewrite Hn. cbn [mbind option_bind]. apply IH.
    + intros p ->. by eapply Hch.
    + rewrite Z.shiftr_div_pow2 by lia. split.
      * apply Z.div_pos; lia.
      * apply Z.div_lt_upper_bound; [lia|].
        replace (2 ^ 8 * 2 ^ (8 * Z.of_nat n)) with (2 ^ (8 * Z.of_nat (S n)));
          [lia|].
        rewrite <- Z.pow_add_r by lia. f_equal. lia.
Qed.

(** X17.  On a topology without dangling pointers, router_lookup_device
    returns for every 64-bit route: its loop leaves within nine iterations
    (one per hop byte of the route, plus one), even when the adapter slots
    form a cycle, and it dereferences no pointer that does not point to a
    router. *)
Theorem router_lookup_device_returns (w : world) (sc : ptr) (rt : tb_route_t) :
  topology_wf w ->
  is_Some (routers w !! sc) ->
  0 <= route_u64 rt < 2 ^ 64 ->
  exists e dev, router_lookup_device w sc rt = Some (e, dev).
Proof.
  intros Hwf [s Hs] Hrt. unfold router_lookup_device. rewrite Hs.
  cbn [mbind option_bind].
  destruct (router_lookup_loop_total w (route_u64 rt) 8 Hwf (root w)
              (route_u64 rt)) as [[e dev] H].
  - intros p Hp. by apply (proj1 Hwf).
  - exact Hrt.
  - by exists e, dev.
Qed.

(** X18.  router_insert either fills one empty adapter slot of the parent
    and returns 0, or returns EINVAL or EEXIST and changes nothing; it
    never overwrites an occupied slot, and inserting the same router again
    is refused with EEXIST. *)
Theorem router_insert_never_overwrites (w : world) (sc : ptr)
    (parent : option ptr) (e : Z) (w' : world) :
  router_insert w sc parent = Some (e, w') ->
  (e = 0 \/ e = EINVAL \/ e = EEXIST)
  /\ (e <> 0 -> w' = w)
  /\ (e = 0 ->
      (exists par p arr h,
         parent = Some par /\ routers w !! par = Some p
         /\ adapters p = Some arr /\ arr !! h = Some None
         /\ routers w' = <[par := with_adapters p (Some (<[h := Some sc]> arr))]>
                           (routers w))
      /\ router_insert w' sc parent = Some (EEXIST, w')).
Proof.
  intros H. destruct parent as [par|]; cbn [router_insert] in H;
    [|injection H as <- <-; split; [auto|]; split; [done|discriminate]].
  bind_step H as s Es. bind_step H as p Ep.
  destruct ((Z.shiftr (TB_ROUTE s) (depth s * 8) >? 255)
            || negb (depth p + 1 =? depth s)) eqn:Hchk;
    [injection H as <- <-; split; [auto|]; split; [done|discriminate]|].
  destruct (Z.land (Z.shiftr (TB_ROUTE s) (depth s * 8)) 255 >? max_adap p)
    eqn:Hmax;
    [injection H as <- <-; split; [auto|]; split; [done|discriminate]|].
  bind_step H as arr Ea. bind_step H as slot Esl.
  destruct slot as [x|];
    [injection H as <- <-; split; [auto|]; split; [done|discriminate]|].
  injection H as <- <-. split; [auto|]. split; [done|]. intros _.
  set (h := Z.to_nat (Z.land (Z.shiftr (TB_ROUTE s) (depth s * 8)) 255)) in *.
  split.
  { exists par, p, arr, h. by repeat split. }
  assert (par <> sc) as Hne.
  { intros ->. assert (s = p) as -> by congruence.
    apply orb_false_elim in Hchk as [_ Hd]. lia. }
  cbn [router_insert routers set_routers].
  assert (forall x, <[par:=x]> (routers w) !! sc = Some s) as ->
    by (intros x; by rewrite lookup_insert_ne).
  cbn [mbind option_bind].
  rewrite lookup_insert_eq. cbn [mbind option_bind depth max_adap with_adapters].
  rewrite Hchk, Hmax. cbn [adapters with_adapters mbind option_bind].
  rewrite list_lookup_insert_eq by (by eapply lookup_lt_Some).
  done.
Qed.

(** ** Capability walker *)

(** The blocking read as the walker uses it (see tb_config_next_cap). *)
Variable config_read : Z -> Z -> Z -> Z -> list Z -> Z * list Z.

(** tb_config_next_cap leaves the cursor alone when it fails. *)
Lemma tb_config_next_cap_error (buf_mem : bool) (cap cap' : router_cfg_cap)
    (e : Z) :
  tb_config_next_cap config_read buf_mem cap = Some (e, cap') ->
  e <> 0 ->
  cap' = cap.
Proof.
  unfold tb_config_next_cap.
  destruct (config_read (space cap) (adap cap) (next_cap cap) 1 _)
    as [error buf1].
  destruct (negb (error =? 0)); [by intros [= <- <-]|].
  destruct (negb buf_mem); [done|].
  destruct (negb (space cap =? TB_CFG_CS_ROUTER) && _); [by intros [= <- <-]|].
  destruct (config_read _ _ _ 2 _). by intros [= <- <-].
Qed.

Lemma tb_config_find_cap_loop_outcome (cap_id0 vsc_id0 : Z) (fuel : nat) :
  forall (mem : nat -> bool) (cap : router_cfg_cap) (e : Z)
         (cap' : router_cfg_cap),
  tb_config_find_cap_loop config_read fuel mem cap cap_id0 vsc_id0
  = Some (e, cap') ->
  (e = 0 /\ cap_mismatch cap' cap_id0 vsc_id0 = false)
  \/ (e = EINVAL /\ cap_mismatch cap' cap_id0 vsc_id0 = true
      /\ cap_offset_bad cap' = true)
  \/ (e = 0 /\ cap_mismatch cap' cap_id0 vsc_id0 = true
      /\ cap_offset_bad cap' = false
      /\ exists buf_mem err,
           tb_config_next_cap config_read buf_mem cap' = Some (err, cap')
           /\ err <> 0).
Proof.
  induction fuel as [|fuel IH]; intros mem cap e cap' H;
    cbn [tb_config_find_cap_loop] in H;
    fold (cap_mismatch cap cap_id0 vsc_id0) in H;
    destruct (cap_mismatch cap cap_id0 vsc_id0) eqn:Hm;
    try discriminate; try (injection H as <- <-; by left).
  fold (cap_offset_bad cap) in H.
  destruct (cap_offset_bad cap) eqn:Hb.
  { injection H as <- <-. right. left. by repeat split. }
  destruct (tb_config_next_cap config_read (mem O) cap) as [[error cap1]|]
    eqn:Hstep; cbn [mbind option_bind] in H; [|discriminate].
  destruct (error =? 0) eqn:He; cbn [negb] in H; [by eapply IH|].
  injection H as <- <-.
  assert (error <> 0) as Hne by lia.
  pose proof (tb_config_next_cap_error _ _ _ _ Hstep Hne) as ->.
  right. right. repeat split; try done. by exists (mem O), error.
Qed.

(** X19.  What tb_config_find_cap returns.  The result is 0 or EINVAL and
    never the error of a failed read.  EINVAL means that the walk stopped
    at a cursor that does not match, with a next offset of zero or above
    TB_CFG_CAP_OFFSET_MAX.  The result 0 means that the cursor matches the
    wanted capability and vendor ids, or that the read of the next header
    failed: a read error ends the walk with the result of a successful
    search, at a cursor that does not match. *)
Theorem tb_config_find_cap_outcome (fuel : nat) (mem : nat -> bool)
    (cap : router_cfg_cap) (e : Z) (cap' : router_cfg_cap) :
  tb_config_find_cap config_read fuel mem cap = Some (e, cap') ->
  (e = 0 /\ cap_mismatch cap' (cap_id cap) (vsc_id cap) = false)
  \/ (e = EINVAL /\ cap_mismatch cap' (cap_id cap) (vsc_id cap) = true
      /\ cap_offset_bad cap' = true)
  \/ (e = 0 /\ cap_mismatch cap' (cap_id cap) (vsc_id cap) = true
      /\ cap_offset_bad cap' = false
      /\ exists buf_mem err,
           tb_config_next_cap config_read buf_mem cap' = Some (err, cap')
           /\ err <> 0).
Proof. unfold tb_config_find_cap. apply tb_config_find_cap_loop_outcome. Qed.

End RouterFacts.

(** * Attach and suspend *)

(** The layout of the router configuration space (tbcfg_reg.h) and the wait
    budget of the sleep handshake (nhi_var.h), as far as _tb_router_attach
    and tb_router_suspend use them.  The [GET_ROUTER_CS_] macros and the
    two uuid fields read the words of a [struct tb_cfg_router]. *)
Class router_cs_regs := {
  GET_ROUTER_CS_UPSTREAM_ADAP : list Z -> Z;
  GET_ROUTER_CS_MAX_ADAP : list Z -> Z;
  GET_ROUTER_CS_DEPTH : list Z -> Z;
  cfg_uuid_lo : list Z -> Z;
  cfg_uuid_hi : list Z -> Z;
  ROUTER_CS1_MAX_ADAPTERS : Z;
  ROUTER_CS_5 : Z;
  ROUTER_CS_6 : Z;
  ROUTER_SLP : Z;
  ROUTER_WOP : Z;
  ROUTER_WOU : Z;
  ROUTER_WOD : Z;
  ROUTER_SLPR : Z;
  NHI_SLPR_WAIT_US : Z;
  NHI_SLPR_WAIT_MAX : nat
}.

Section Lifecycle.
Context {T : nhi_transport} {K : tb_regs} {R : router_cs_regs}.

(** tb_config_router_read_polled, tb_config_router_read and
    tb_config_router_write are macros of router_var.h over the call
    wrappers; they take the router, the offset, the number of words and the
    buffer, and give the error code, the buffer afterwards and the world as
    the access left it.  pause_sbt(9) gives the processor away for the
    given time.  nhi_register_pdf is the transport's registration of the
    dispatch tables. *)
Variable tb_config_router_read_polled
  : world -> ptr -> Z -> Z -> list Z -> option (Z * list Z * world).
Variable tb_config_router_read
  : world -> ptr -> Z -> Z -> list Z -> option (Z * list Z * world).
Variable tb_config_router_write
  : world -> ptr -> Z -> Z -> list Z -> option (Z * list Z * world).
Variable pause_sbt : world -> Z -> world.
Variable nhi_register_pdf : ring -> Z * ring.

Tactic Notation "life_step" hyp(H) "as" simple_intropattern(x) ident(E) :=
  match type of H with
  | (?m ≫= _) = Some _ =>
      destruct m as [x|] eqn:E; cbn [mbind option_bind] in H;
      [|discriminate H]
  end.

(** The world together with the uuid fields, which the engine never reads:
    [uuid] holds [sc->uuid] of every router, [nsc_uuid] is [nsc->uuid] of
    the host interface. *)
Record driver := {
  dw : world;
  uuid : gmap ptr (list Z);
  nsc_uuid : list Z
}.

Definition with_dw (d : driver) (w : world) : driver :=
  {| dw := w; uuid := uuid d; nsc_uuid := nsc_uuid d |}.

(** [tb_config_set_root(sc)], the counterpart of the [tb_config_get_root]
    router_lookup_device starts from: both are macros of router_var.h over
    the root pointer the host interface keeps, which is the [root] of the
    world. *)
Definition set_root (w : world) (p : option ptr) : world :=
  {| routers := routers w; commands := commands w; root := p;
     ring0 := ring0 w; trace := trace w |}.

(** A router as malloc(M_ZERO) and the initialisation of tb_router_attach
    leave it: the route is set, the queue is empty, everything else is
    zero. *)
Definition zeroed_router (rt : tb_route_t) : router_softc :=
  {| route := rt; depth := 0; max_adap := 0; adapters := None;
     suspended := false; inflight_cmd := None; cmd_queue := [] |}.

(** _tb_router_attach.  [buf_mem] and [adapters_mem] tell whether the two
    calls of malloc(9) succeed. *)
Definition _tb_router_attach (d : driver) (sc : ptr)
    (buf_mem adapters_mem : bool) : option (Z * driver) :=
  if negb buf_mem then Some (ENOMEM, d)
  else
    '(error, buf, w1) ← tb_config_router_read_polled (dw d) sc 0 9
                          (replicate 9 0);
    if negb (error =? 0) then Some (error, with_dw d w1)
    else
      r ← routers w1 !! sc;
      let max := Z.min (GET_ROUTER_CS_MAX_ADAP buf) ROUTER_CS1_MAX_ADAPTERS in
      let arr := if adapters_mem
                 then Some (replicate (Z.to_nat (1 + max)) None)
                 else None in
      let r1 := {| route := route r; depth := GET_ROUTER_CS_DEPTH buf;
                   max_adap := max; adapters := arr;
                   suspended := suspended r;
                   inflight_cmd := inflight_cmd r;
                   cmd_queue := cmd_queue r |} in
      let d1 := {| dw := set_routers w1 (<[sc := r1]> (routers w1));
                   uuid := <[sc := [cfg_uuid_lo buf; cfg_uuid_hi buf;
                                    4294967295; 4294967295]]> (uuid d);
                   nsc_uuid := nsc_uuid d |} in
      Some (if adapters_mem then 0 else ENOMEM, d1).

(** tb_router_attach.  [mem] is what malloc(9) returned for the router.
    The result of router_insert is not looked at. *)
Definition tb_router_attach (d : driver) (parent : ptr) (rt : tb_route_t)
    (mem : option ptr) (buf_mem adapters_mem : bool) : option (Z * driver) :=
  match mem with
  | None => Some (ENOMEM, d)
  | Some sc =>
      _ ← routers (dw d) !! parent;
      let w1 := set_routers (dw d) (<[sc := zeroed_router rt]> (routers (dw d))) in
      '(_, w2) ← router_insert w1 sc (Some parent);
      _tb_router_attach
        {| dw := w2; uuid := <[sc := replicate 4 0]> (uuid d);
           nsc_uuid := nsc_uuid d |}
        sc buf_mem adapters_mem
  end.

(** tb_router_attach_root *)
Definition tb_router_attach_root (d : driver) (rt : tb_route_t)
    (mem : option ptr) (buf_mem adapters_mem : bool) : option (Z * driver) :=
  match mem with
  | None => Some (ENOMEM, d)
  | Some sc =>
      let w1 := set_root
                  (set_routers (dw d) (<[sc := zeroed_router rt]> (routers (dw d))))
                  (Some sc) in
      let d1 := {| dw := w1; uuid := <[sc := replicate 4 0]> (uuid d);
                   nsc_uuid := nsc_uuid d |} in
      let '(error, rg) := nhi_register_pdf (ring0 w1) in
      let w2 := set_ring0 w1 rg in
      if negb (error =? 0) then
        '(_, w3) ← tb_router_detach w2 sc;
        Some (error, with_dw d1 w3)
      else
        '(error, d2) ← _tb_router_attach (with_dw d1 w2) sc buf_mem adapters_mem;
        if negb (error =? 0) then Some (error, d2)
        else
          u ← uuid d2 !! sc;
          Some (0, {| dw := dw d2; uuid := uuid d2; nsc_uuid := u |})
  end.

(** The value tb_router_suspend writes to ROUTER_CS_5 from the value [reg]
    it has read: the sleep bit set, the wake bits cleared, wake on USB3 set
    again. *)
Definition suspend_cs5_value (reg : Z) : Z :=
  Z.lor (Z.ldiff (Z.lor reg ROUTER_SLP)
                 (Z.lor (Z.lor ROUTER_WOP ROUTER_WOU) ROUTER_WOD))
        ROUTER_WOU.

(** The label [ready] of tb_router_suspend. *)
Definition suspend_ready (w : world) (sc : ptr) : option (Z * world) :=
  r ← routers w !! sc;
  Some (0, set_routers w (<[sc := with_suspended r true]> (routers w))).

(** The [for] loop of tb_router_suspend, with [n] iterations left; [reg] is
    the local the reads go to. *)
Fixpoint suspend_wait (n : nat) (w : world) (sc : ptr) (reg : Z)
  : option (Z * world) :=
  match n with
  | O => Some (ETIMEDOUT, w)
  | S n' =>
      let w1 := pause_sbt w NHI_SLPR_WAIT_US in
      '(err, buf, w2) ← tb_config_router_read w1 sc ROUTER_CS_6 1 [reg];
      if negb (err =? 0) then Some (err, w2)
      else if negb (Z.land (word_at buf 0) ROUTER_SLPR =? 0)
      then suspend_ready w2 sc
      else suspend_wait n' w2 sc (word_at buf 0)
  end.

(** tb_router_suspend.  [reg0] is what the local [reg] holds before the
    first read. *)
Definition tb_router_suspend (w : world) (sc : ptr) (reg0 : Z)
  : option (Z * world) :=
  r ← routers w !! sc;
  if suspended r then Some (0, w)
  else
    '(err, buf, w1) ← tb_config_router_read w sc ROUTER_CS_5 1 [reg0];
    if negb (err =? 0) then Some (err, w1)
    else
      let reg := suspend_cs5_value (word_at buf 0) in
      '(err, buf1, w2) ← tb_config_router_write w1 sc ROUTER_CS_5 1 [reg];
      if negb (err =? 0) then Some (err, w2)
      else
        let w3 := pause_sbt w2 NHI_SLPR_WAIT_US in
        '(err, buf2, w4) ← tb_config_router_read w3 sc ROUTER_CS_6 1 buf1;
        if negb (err =? 0) then Some (err, w4)
        else if negb (Z.land (word_at buf2 0) ROUTER_SLPR =? 0)
        then suspend_ready w4 sc
        else suspend_wait NHI_SLPR_WAIT_MAX w4 sc (word_at buf2 0).

(** ** Attach *)

(** X20.  tb_router_attach never links the new router into its parent:
    router_insert runs while the depth of the new router is still the 0 of
    malloc(M_ZERO), so it finds that the router is not a direct child and
    returns EINVAL, which tb_router_attach does not look at.  The attach
    goes on with a world in which the parent's adapter slots are as
    before. *)
Theorem tb_router_attach_never_links_child (d : driver) (parent sc : ptr)
    (p : router_softc) (rt : tb_route_t) (buf_mem adapters_mem : bool) :
  routers (dw d) !! parent = Some p ->
  0 <= depth p ->
  routers (dw d) !! sc = None ->
  router_insert
    (set_routers (dw d) (<[sc := zeroed_router rt]> (routers (dw d))))
    sc (Some parent)
  = Some (EINVAL,
          set_routers (dw d) (<[sc := zeroed_router rt]> (routers (dw d))))
  /\ tb_router_attach d parent rt (Some sc) buf_mem adapters_mem
     = _tb_router_attach
         {| dw := set_routers (dw d)
                    (<[sc := zeroed_router rt]> (routers (dw d)));
            uuid := <[sc := replicate 4 0]> (uuid d);
            nsc_uuid := nsc_uuid d |}
         sc buf_mem adapters_mem.
Proof.
  intros Hp Hd Hfresh.
  assert (parent <> sc) as Hne by (intros ->; congruence).
  assert (router_insert
            (set_routers (dw d) (<[sc := zeroed_router rt]> (routers (dw d))))
            sc (Some parent)
          = Some (EINVAL,
                  set_routers (dw d)
                    (<[sc := zeroed_router rt]> (routers (dw d))))) as Hins.
  { cbn [router_insert routers set_routers]. rewrite lookup_insert_eq.
    cbn [mbind option_bind]. rewrite lookup_insert_ne by done. rewrite Hp.
    cbn [mbind option_bind depth zeroed_router].
    assert ((depth p + 1 =? 0) = false) as -> by lia.
    cbn [negb]. by rewrite orb_true_r. }
  split; [exact Hins|].
  unfold tb_router_attach. rewrite Hp. cbn [mbind option_bind].
  rewrite Hins. by cbn [mbind option_bind].
Qed.

(** X21.  When _tb_router_attach returns 0, the router has an adapter
    array of [1 + max_adap] empty slots, [max_adap] is at most
    ROUTER_CS1_MAX_ADAPTERS, and the depth is the one the router reported;
    its slot, queue, route and suspended flag are as the read left them.
    When it fails, the router is not freed. *)
Theorem _tb_router_attach_builds_adapter_array (d : driver) (sc : ptr)
    (buf_mem adapters_mem : bool) (e : Z) (d' : driver) :
  _tb_router_attach d sc buf_mem adapters_mem = Some (e, d') ->
  (e = 0 ->
   exists buf w1 r r',
     tb_config_router_read_polled (dw d) sc 0 9 (replicate 9 0)
     = Some (0, buf, w1)
     /\ routers w1 !! sc = Some r
     /\ routers (dw d') !! sc = Some r'
     /\ adapters r' = Some (replicate (Z.to_nat (1 + max_adap r')) None)
     /\ max_adap r' <= ROUTER_CS1_MAX_ADAPTERS
     /\ depth r' = GET_ROUTER_CS_DEPTH buf
     /\ route r' = route r /\ suspended r' = suspended r
     /\ inflight_cmd r' = inflight_cmd r /\ cmd_queue r' = cmd_queue r
     /\ trace (dw d') = trace w1)
  /\ (e <> 0 ->
      buf_mem = false /\ d' = d
      \/ (exists buf w1,
            tb_config_router_read_polled (dw d) sc 0 9 (replicate 9 0)
            = Some (e, buf, w1) /\ d' = with_dw d w1)
      \/ (e = ENOMEM /\ adapters_mem = false
          /\ exists buf w1,
               tb_config_router_read_polled (dw d) sc 0 9 (replicate 9 0)
               = Some (0, buf, w1)
               /\ trace (dw d') = trace w1
               /\ (adapters <$> routers (dw d') !! sc) = Some None)).
Proof.
  unfold _tb_router_attach. intros H. destruct buf_mem; cbn [negb] in H.
  2:{ injection H as <- <-. split; [discriminate|]. intros _. by left. }
  life_step H as [[error buf] w1] Erd.
  destruct (error =? 0) eqn:He; cbn [negb] in H.
  2:{ injection H as <- <-. split; [lia|]. intros _. right. left.
      by exists buf, w1. }
  assert (error = 0) as -> by lia.
  life_step H as r Er. destruct adapters_mem; injection H as <- <-.
  - split; [|done]. intros _. eexists buf, w1, r, _.
    cbn [dw routers set_routers]. rewrite lookup_insert_eq.
    split; [done|]. split; [done|]. split; [reflexivity|].
    cbn [adapters max_adap depth route suspended inflight_cmd cmd_queue trace].
    repeat split; try done. lia.
  - split; [discriminate|]. intros _. right. right.
    repeat split; try done. exists buf, w1.
    cbn [dw routers set_routers trace]. rewrite lookup_insert_eq.
    by repeat split.
Qed.

(** X22.  When the registration of the dispatch tables fails,
    tb_router_attach_root returns that error with the new router freed
    (once) while the root pointer still points to it: from then on every
    route lookup goes through the freed router. *)
Theorem tb_router_attach_root_leaves_dangling_root (d : driver)
    (rt : tb_route_t) (sc : ptr) (buf_mem adapters_mem : bool)
    (error : Z) (rg : ring) :
  nhi_register_pdf (ring0 (dw d)) = (error, rg) ->
  error <> 0 ->
  exists d',
    tb_router_attach_root d rt (Some sc) buf_mem adapters_mem
    = Some (error, d')
    /\ root (dw d') = Some sc
    /\ routers (dw d') !! sc = None
    /\ trace (dw d') = trace (dw d) ++ [FreeRouter sc]
    /\ (forall h rt', router_lookup_device (dw d') h rt' = None).
Proof.
  intros Hreg He. unfold tb_router_attach_root.
  cbn [ring0 set_root set_routers]. rewrite Hreg.
  assert ((error =? 0) = false) as -> by lia. cbn [negb].
  unfold tb_router_detach. cbn [routers set_ring0 set_root set_routers].
  rewrite lookup_insert_eq. cbn [mbind option_bind cmd_queue adapters zeroed_router].
  eexists. split; [reflexivity|].
  cbn [dw with_dw root routers trace free_router log set_routers set_ring0 set_root].
  rewrite lookup_delete_eq. repeat split; try done.
  intros h rt'. unfold router_lookup_device, free_router.
  cbn [routers root log set_routers set_ring0 set_root].
  match goal with |- (?m ≫= _) = None => destruct m as [x|] end;
    cbn [mbind option_bind]; [|done].
  change 9%nat with (S 8). cbn [router_lookup_loop routers log set_routers].
  by rewrite lookup_delete_eq.
Qed.

(** ** Suspend *)

Lemma suspend_ready_sets (w : world) (sc : ptr) (e : Z) (w' : world) :
  suspend_ready w sc = Some (e, w') ->
  e = 0 /\ exists r, routers w !! sc = Some r
                     /\ w' = set_routers w (<[sc := with_suspended r true]>
                                              (routers w)).
Proof.
  unfold suspend_ready. intros H. life_step H as r Er. injection H as <- <-.
  split; [done|]. by exists r.
Qed.

Lemma suspend_wait_success (n : nat) :
  forall (w : world) (sc : ptr) (reg : Z) (w' : world),
  suspend_wait n w sc reg = Some (0, w') ->
  exists r', routers w' !! sc = Some r' /\ suspended r' = true.
Proof.
  induction n as [|n IH]; intros w sc reg w' H; cbn [suspend_wait] in H;
    [discriminate|].
  life_step H as [[err buf] w2] Erd.
  destruct (err =? 0) eqn:He; cbn [negb] in H; [|injection H as -> _; lia].
  destruct (Z.land (word_at buf 0) ROUTER_SLPR =? 0); cbn [negb] in H;
    [by eapply IH|].
  apply suspend_ready_sets in H as [_ (r & Hr & ->)].
  eexists. cbn [routers set_routers]. by rewrite lookup_insert_eq.
Qed.

Lemma tb_router_suspend_success (w : world) (sc : ptr) (reg0 : Z) (w' : world) :
  tb_router_suspend w sc reg0 = Some (0, w') ->
  exists r', routers w' !! sc = Some r' /\ suspended r' = true.
Proof.
  unfold tb_router_suspend. intros H. life_step H as r Er.
  destruct (suspended r) eqn:Hs; [injection H as <-; by exists r|].
  life_step H as [[err buf] w1] E1.
  destruct (err =? 0) eqn:He; cbn [negb] in H; [|injection H as -> _; lia].
  life_step H as [[err1 buf1] w2] E2.
  destruct (err1 =? 0) eqn:He1; cbn [negb] in H; [|injection H as -> _; lia].
  life_step H as [[err2 buf2] w4] E3.
  destruct (err2 =? 0) eqn:He2; cbn [negb] in H; [|injection H as -> _; lia].
  destruct (Z.land (word_at buf2 0) ROUTER_SLPR =? 0); cbn [negb] in H;
    [by eapply suspend_wait_success|].
  apply suspend_ready_sets in H as [_ (r1 & Hr1 & ->)].
  eexists. cbn [routers set_routers]. by rewrite lookup_insert_eq.
Qed.

(** X23.  Once tb_router_suspend has returned 0 the router is suspended,
    and it stays so: tb_router_resume returns 0 without changing anything,
    and every later tb_router_suspend returns 0 at once, without a register
    access. *)
Theorem tb_router_suspend_is_final (w : world) (sc : ptr) (reg0 : Z)
    (w' : world) :
  tb_router_suspend w sc reg0 = Some (0, w') ->
  (exists r', routers w' !! sc = Some r' /\ suspended r' = true)
  /\ tb_router_resume w' sc = Some (0, w')
  /\ (forall reg, tb_router_suspend w' sc reg = Some (0, w')).
Proof.
  intros H. destruct (tb_router_suspend_success _ _ _ _ H) as (r' & Hr' & Hs).
  split; [by exists r'|]. split.
  - unfold tb_router_resume. rewrite Hr'. cbn [mbind option_bind]. by rewrite Hs.
  - intros reg. unfold tb_router_suspend. rewrite Hr'. cbn [mbind option_bind].
    by rewrite Hs.
Qed.

(** The wait loop gives up with ETIMEDOUT after its [n] reads when none of
    them shows the sleep-ready bit; [polls] is the chain of worlds the
    pauses and reads go through. *)
Fixpoint polls (n : nat) (w : world) (sc : ptr) (reg : Z) : option world :=
  match n with
  | O => Some w
  | S n' =>
      '(_, buf, w2) ← tb_config_router_read (pause_sbt w NHI_SLPR_WAIT_US) sc
                        ROUTER_CS_6 1 [reg];
      polls n' w2 sc (word_at buf 0)
  end.

Lemma suspend_wait_times_out (n : nat) :
  (forall w sc buf e buf' w',
     tb_config_router_read w sc ROUTER_CS_6 1 buf = Some (e, buf', w') ->
     e = 0 /\ Z.land (word_at buf' 0) ROUTER_SLPR = 0) ->
  forall (w : world) (sc : ptr) (reg : Z) (w' : world),
  polls n w sc reg = Some w' ->
  suspend_wait n w sc reg = Some (ETIMEDOUT, w').
Proof.
  intros Hrd. induction n as [|n IH]; intros w sc reg w' H;
    cbn [polls suspend_wait] in *; [by injection H as <-|].
  life_step H as [[err buf] w2] Erd.
  destruct (Hrd _ _ _ _ _ _ Erd) as [-> Hbit]. cbn [mbind option_bind].
  rewrite Hbit. change (negb (0 =? 0)) with false. cbv iota. by apply IH.
Qed.

(** X24.  When the router never shows the sleep-ready bit, tb_router_suspend
    gives up with ETIMEDOUT after exactly [1 + NHI_SLPR_WAIT_MAX] reads of
    ROUTER_CS_6, each after one pause; it has written ROUTER_CS_5 once, with
    the value made from the one it read; and the [suspended] flag has not
    been set by it: the world is the one the last read left. *)
Theorem tb_router_suspend_times_out (w : world) (sc : ptr) (r : router_softc)
    (reg0 v : Z) (buf : list Z) (w1 w2 w' : world) :
  (forall w sc buf e buf' w',
     tb_config_router_read w sc ROUTER_CS_6 1 buf = Some (e, buf', w') ->
     e = 0 /\ Z.land (word_at buf' 0) ROUTER_SLPR = 0) ->
  routers w !! sc = Some r ->
  suspended r = false ->
  tb_config_router_read w sc ROUTER_CS_5 1 [reg0] = Some (0, buf, w1) ->
  tb_config_router_write w1 sc ROUTER_CS_5 1 [suspend_cs5_value (word_at buf 0)]
  = Some (0, [v], w2) ->
  polls (S NHI_SLPR_WAIT_MAX) w2 sc v = Some w' ->
  tb_router_suspend w sc reg0 = Some (ETIMEDOUT, w').
Proof.
  intros Hrd Hr Hs H1 H2 Hp. unfold tb_router_suspend.
  rewrite Hr. cbn [mbind option_bind]. rewrite Hs, H1. cbn [mbind option_bind].
  change (negb (0 =? 0)) with false. cbv iota. rewrite H2.
  cbn [mbind option_bind]. cbv iota.
  cbn [polls] in Hp. life_step Hp as [[err buf2] w4] E3.
  destruct (Hrd _ _ _ _ _ _ E3) as [-> Hbit]. cbn [mbind option_bind].
  rewrite Hbit. change (negb (0 =? 0)) with false. cbv iota.
  by apply suspend_wait_times_out.
Qed.

(** X25.  The value written to ROUTER_CS_5 has every bit of ROUTER_WOU set
    and no bit of ROUTER_WOP or ROUTER_WOD outside ROUTER_WOU; the sleep
    bit is set unless it is one of the wake bits that are cleared; and every
    other bit is as it was read. *)
Theorem suspend_cs5_value_bits (reg n : Z) :
  Z.testbit (suspend_cs5_value reg) n
  = if Z.testbit ROUTER_WOU n then true
    else if Z.testbit ROUTER_WOP n || Z.testbit ROUTER_WOD n then false
    else if Z.testbit ROUTER_SLP n then true
    else Z.testbit reg n.
Proof.
  unfold suspend_cs5_value.
  rewrite Z.lor_spec, Z.ldiff_spec, !Z.lor_spec.
  destruct (Z.testbit ROUTER_WOU n), (Z.testbit ROUTER_WOP n),
    (Z.testbit ROUTER_WOD n), (Z.testbit ROUTER_SLP n), (Z.testbit reg n);
    reflexivity.
Qed.

End Lifecycle.

(** * The AMD PMC driver (amdpmc.c) *)

Definition ENXIO : Z := 6.
Definition BUS_PROBE_GENERIC : Z := -100.

Definition SMU_INDEX_ADDRESS : Z := 0xB8.
Definition SMU_INDEX_DATA : Z := 0xBC.
Definition SMU_BASE_ADDR_LO : Z := 0x13B102E8.
Definition SMU_BASE_ADDR_HI : Z := 0x13B102EC.

Definition VENDORID_AMD : Z := 0x1022.
Definition CPUID_AMD_REMBRANDT : Z := 0x14B5.
Definition CPUID_AMD_PHOENIX : Z := 0x14E8.
Definition CPUID_AMD_STRIX_POINT : Z := 0x14A4.

(** struct amdpmc_product and the table of supported host bridges. *)
Record amdpmc_product := { amdpmc_vendorid : Z; amdpmc_deviceid : Z }.

Definition amdpmc_products : list amdpmc_product :=
  [ {| amdpmc_vendorid := VENDORID_AMD; amdpmc_deviceid := CPUID_AMD_REMBRANDT |};
    {| amdpmc_vendorid := VENDORID_AMD; amdpmc_deviceid := CPUID_AMD_PHOENIX |};
    {| amdpmc_vendorid := VENDORID_AMD; amdpmc_deviceid := CPUID_AMD_STRIX_POINT |} ].

Section Amdpmc.

(** The bus framework: devices, their PCI ids and parents, the hint that
    disables the driver, and the PCI configuration space with its two
    accessors (a read may change the state of the device). *)
Variable device_t : Type.
Variable pci_get_vendor : device_t -> Z.
Variable pci_get_device : device_t -> Z.
Variable device_get_parent : device_t -> device_t.
Variable resource_disabled : bool.
Variable pci_space : Type.
Variable pci_write_config : pci_space -> device_t -> Z -> Z -> Z -> pci_space.
Variable pci_read_config : pci_space -> device_t -> Z -> Z -> Z * pci_space.

(** The [for] loop of amdpmc_match over the products that are left. *)
Fixpoint amdpmc_match_loop (prods : list amdpmc_product) (vendorid deviceid : Z)
  : option amdpmc_product :=
  match prods with
  | [] => None
  | prod :: rest =>
      if (vendorid =? amdpmc_vendorid prod) && (deviceid =? amdpmc_deviceid prod)
      then Some prod
      else amdpmc_match_loop rest vendorid deviceid
  end.

(** amdpmc_match.  [product_out] is [None] for a NULL pointer and the
    content of the pointed variable otherwise; the result is the return
    value and the variable afterwards. *)
Definition amdpmc_match (dev : device_t)
    (product_out : option (option amdpmc_product))
  : bool * option (option amdpmc_product) :=
  let vendorid := pci_get_vendor dev mod 2 ^ 16 in
  let deviceid := pci_get_device dev mod 2 ^ 16 in
  match amdpmc_match_loop amdpmc_products vendorid deviceid with
  | Some prod =>
      (true, match product_out with
             | Some _ => Some (Some prod)
             | None => None
             end)
  | None => (false, product_out)
  end.

(** amdpmc_probe: the return value, the configuration space afterwards and
    the base address it prints, if it gets that far. *)
Definition amdpmc_probe (s : pci_space) (dev : device_t)
  : Z * pci_space * option Z :=
  if resource_disabled then (ENXIO, s, None)
  else if negb (amdpmc_match (device_get_parent dev) None).1
  then (ENXIO, s, None)
  else
    let s1 := pci_write_config s dev SMU_INDEX_ADDRESS SMU_BASE_ADDR_LO 4 in
    let '(lo, s2) := pci_read_config s1 dev SMU_INDEX_DATA 4 in
    let base_addr_lo := lo mod 2 ^ 32 in
    let s3 := pci_write_config s2 dev SMU_INDEX_ADDRESS SMU_BASE_ADDR_HI 4 in
    let '(hi, s4) := pci_read_config s3 dev SMU_INDEX_DATA 4 in
    let base_addr_hi := hi mod 2 ^ 32 in
    let base_addr := Z.lor (Z.shiftl base_addr_hi 32 mod 2 ^ 64) base_addr_lo in
    (BUS_PROBE_GENERIC, s4, Some base_addr).

(** X26.  amdpmc_match answers true exactly for the AMD vendor id with one
    of the three listed device ids (Rembrandt, Phoenix, Strix Point); then
    the product it stores through a non-NULL [product_out] carries the ids
    of the device, and otherwise the variable is left alone. *)
Theorem amdpmc_match_exactly_listed (dev : device_t)
    (product_out : option (option amdpmc_product)) :
  ((amdpmc_match dev product_out).1 = true
   <-> pci_get_vendor dev mod 2 ^ 16 = VENDORID_AMD
       /\ (pci_get_device dev mod 2 ^ 16 = CPUID_AMD_REMBRANDT
           \/ pci_get_device dev mod 2 ^ 16 = CPUID_AMD_PHOENIX
           \/ pci_get_device dev mod 2 ^ 16 = CPUID_AMD_STRIX_POINT))
  /\ ((amdpmc_match dev product_out).1 = true ->
      forall old, product_out = Some old ->
      (amdpmc_match dev product_out).2
      = Some (Some {| amdpmc_vendorid := pci_get_vendor dev mod 2 ^ 16;
                      amdpmc_deviceid := pci_get_device dev mod 2 ^ 16 |}))
  /\ ((amdpmc_match dev product_out).1 = false ->
      (amdpmc_match dev product_out).2 = product_out).
Proof.
  unfold amdpmc_match.
  set (v := pci_get_vendor dev mod 2 ^ 16).
  set (dv := pci_get_device dev mod 2 ^ 16).
  unfold amdpmc_products. cbn [amdpmc_match_loop amdpmc_vendorid amdpmc_deviceid].
  destruct (v =? VENDORID_AMD) eqn:Hv; cbn [andb].
  - assert (v = VENDORID_AMD) as Hv' by lia.
    destruct (dv =? CPUID_AMD_REMBRANDT) eqn:H1;
      [|destruct (dv =? CPUID_AMD_PHOENIX) eqn:H2;
        [|destruct (dv =? CPUID_AMD_STRIX_POINT) eqn:H3]];
      cbn [fst snd].
    + assert (dv = CPUID_AMD_REMBRANDT) as Hd by lia.
      split; [split; auto|]. split; [|discriminate].
      intros _ old ->. by rewrite Hv', Hd.
    + assert (dv = CPUID_AMD_PHOENIX) as Hd by lia.
      split; [split; auto|]. split; [|discriminate].
      intros _ old ->. by rewrite Hv', Hd.
    + assert (dv = CPUID_AMD_STRIX_POINT) as Hd by lia.
      split; [split; auto|]. split; [|discriminate].
      intros _ old ->. by rewrite Hv', Hd.
    + split; [|split; [discriminate|done]].
      split; [discriminate|]. intros [_ [Hd|[Hd|Hd]]]; lia.
  - cbn [fst snd]. split; [|split; [discriminate|done]].
    split; [discriminate|]. intros [Hv' _]. lia.
Qed.

(** The two halves of the base address occupy disjoint bits. *)
Lemma base_addr_halves (hi lo : Z) :
  0 <= hi < 2 ^ 32 -> 0 <= lo < 2 ^ 32 ->
  Z.lor (Z.shiftl hi 32 mod 2 ^ 64) lo = hi * 2 ^ 32 + lo.
Proof.
  intros Hhi Hlo. rewrite Z.shiftl_mul_pow2 by lia.
  rewrite Z.mod_small by lia.
  assert (Z.land (hi * 2 ^ 32) lo = 0) as Hdis.
  { apply Z.bits_inj'. intros n Hn. rewrite Z.land_spec, Z.bits_0.
    destruct (Z.lt_ge_cases n 32).
    - rewrite Z.mul_pow2_bits_low by lia. done.
    - rewrite (Z.bits_above_log2 lo n); [by rewrite andb_false_r|lia|].
      destruct (Z.eq_dec lo 0) as [->|]; [cbn; lia|].
      assert (Z.log2 lo < 32) by (apply Z.log2_lt_pow2; lia). lia. }
  rewrite <- Z.lxor_lor by done. symmetry. by apply Z.add_nocarry_lxor.
Qed.

(** X27.  amdpmc_probe accepts the device (BUS_PROBE_GENERIC) exactly when
    the driver is not disabled and the parent is one of the listed host
    bridges; it then prints the 64-bit base address whose high and low
    halves are the two words read through the SMU index and data registers.
    Otherwise it returns ENXIO without touching the configuration space. *)
Theorem amdpmc_probe_accepts_listed_parent (s : pci_space) (dev : device_t) :
  (resource_disabled = false
   /\ (amdpmc_match (device_get_parent dev) None).1 = true ->
   exists lo s2 hi s4,
     pci_read_config
       (pci_write_config s dev SMU_INDEX_ADDRESS SMU_BASE_ADDR_LO 4)
       dev SMU_INDEX_DATA 4 = (lo, s2)
     /\ pci_read_config
          (pci_write_config s2 dev SMU_INDEX_ADDRESS SMU_BASE_ADDR_HI 4)
          dev SMU_INDEX_DATA 4 = (hi, s4)
     /\ amdpmc_probe s dev
        = (BUS_PROBE_GENERIC, s4,
           Some ((hi mod 2 ^ 32) * 2 ^ 32 + lo mod 2 ^ 32)))
  /\ (resource_disabled = true
      \/ (amdpmc_match (device_get_parent dev) None).1 = false ->
      amdpmc_probe s dev = (ENXIO, s, None)).
Proof.
  unfold amdpmc_probe. split.
  - intros [-> ->]. cbn [negb].
    destruct (pci_read_config _ dev SMU_INDEX_DATA 4) as [lo s2] eqn:E1.
    destruct (pci_read_config (pci_write_config s2 _ _ _ _) dev SMU_INDEX_DATA 4)
      as [hi s4] eqn:E2.
    exists lo, s2, hi, s4. split; [done|]. split; [done|].
    rewrite base_addr_halves; [done| |]; apply Z.mod_pos_bound; lia.
  - intros [->| ->]; [done|]. by destruct resource_disabled.
Qed.

End Amdpmc.

(** * Order of the two completion interrupts *)

Section Dispatch.
Context {T : nhi_transport} {K : tb_regs}.
Variable caller_cb : nat -> world -> ptr -> ptr -> world.

Lemma land_lor_same (a b : Z) : Z.land (Z.lor a b) b = b.
Proof.
  apply Z.bits_inj'. intros n _. rewrite Z.land_spec, Z.lor_spec.
  by destruct (Z.testbit a n), (Z.testbit b n).
Qed.

(** X29.  A read response that arrives before the transmit completion of
    its request is not lost.  router_response_intr stores the data in the
    response buffer and marks the frame, without completing the command;
    router_complete_intr, which looks at that mark only, then runs the
    engine's callback: the caller's buffer receives the first [dwlen] words
    of the response buffer, the slot is released and the sleeping caller is
    woken, once. *)
Theorem response_before_completion_is_delivered (w : world) (sc dev cmd : ptr)
    (data : list Z) (d : router_softc) (c : router_command) :
  router_lookup_device w sc (response_route data) = Some (0, Some dev) ->
  routers w !! dev = Some d ->
  inflight_cmd d = Some cmd ->
  cmd_queue d = [] ->
  commands w !! cmd = Some c ->
  cmd_sc c = dev ->
  cmd_callback c = Some CB_router_get_config_cb ->
  cmd_ev c = 0 ->
  Z.land (cmd_flags c) RCMD_POLLED = 0 ->
  Z.land (Z.lor (nhicmd_flags (cmd_nhicmd c)) CMD_RESP_COMPLETE) CMD_REQ_COMPLETE
  = 0 ->
  CMD_RESP_COMPLETE <> 0 ->
  exists w1 w2 c2 r2,
    router_response_intr caller_cb w sc PDF_READ data = Some w1
    /\ trace w1 = trace w
    /\ routers w1 = routers w
    /\ router_complete_intr caller_cb w1 cmd = Some w2
    /\ commands w2 !! cmd = Some c2
    /\ cmd_callback_arg c2
       = bcopy_words (Z.to_nat (cmd_dwlen c))
           (copy_response
              (Z.to_nat (Z.min (response_len data)
                           (nhicmd_resp_len (cmd_nhicmd c))))
              data (cmd_resp_buffer c))
           (cmd_callback_arg c)
    /\ routers w2 !! dev = Some r2
    /\ inflight_cmd r2 = None
    /\ trace w2 = trace w ++ [SlotClear dev; Wakeup cmd].
Proof.
  intros Hl Hd Hin Hq Hc Hsc Hcb Hev Hpoll Hreq Hresp.
  unfold router_response_intr. fold (response_route data). rewrite Hl.
  cbn [mbind option_bind]. change (0 =? 0) with true. cbv iota.
  rewrite Hd. cbn [mbind option_bind]. rewrite Hin, Hc.
  cbn [mbind option_bind pdf_eqb]. fold (response_len data).
  cbn [nhicmd_flags with_nhicmd_flags]. rewrite Hreq.
  change (negb (0 =? 0)) with false. cbv iota.
  set (c1 := with_nhicmd _ _).
  set (w1 := set_commands w (<[cmd := c1]> (commands w))).
  assert (commands w1 !! cmd = Some c1) as Hc1
    by (subst w1; cbn [commands set_commands]; apply lookup_insert_eq).
  exists w1.
  unfold router_complete_intr. rewrite Hc1. cbn [mbind option_bind].
  assert (nhicmd_flags (cmd_nhicmd c1)
          = Z.lor (nhicmd_flags (cmd_nhicmd c)) CMD_RESP_COMPLETE) as Hfl
    by reflexivity.
  rewrite Hfl, land_lor_same.
  assert ((CMD_RESP_COMPLETE =? 0) = false) as -> by lia. cbn [negb].
  assert (cmd_sc c1 = dev) as -> by (subst c1; exact Hsc).
  unfold call_callback. rewrite Hc1. cbn [mbind option_bind].
  assert (cmd_callback c1 = Some CB_router_get_config_cb) as ->
    by (subst c1; exact Hcb).
  cbn [mbind option_bind]. unfold router_get_config_cb. rewrite Hc1.
  cbn [mbind option_bind].
  assert (cmd_ev c1 = 0) as -> by (subst c1; exact Hev).
  change (0 =? 0) with true. cbv iota.
  erewrite set_inflight_Some
    by (subst w1; cbn [routers set_commands]; exact Hd).
  cbn [mbind option_bind].
  assert (cmd_flags (with_callback_arg c1
                       (bcopy_words (Z.to_nat (cmd_dwlen c1))
                          (cmd_resp_buffer c1) (cmd_callback_arg c1)))
          = cmd_flags c) as -> by reflexivity.
  rewrite Hpoll. change (0 =? 0) with true. cbv iota.
  unfold router_schedule_locked.
  cbn [routers log set_routers set_commands]. rewrite lookup_insert_eq.
  cbn [mbind option_bind routers log set_routers set_commands].
  rewrite lookup_insert_eq.
  cbn [mbind option_bind cmd_queue with_inflight_cmd]. rewrite Hq.
  cbn [length router_schedule_loop routers log set_routers set_commands].
  rewrite lookup_insert_eq.
  cbn [mbind option_bind cmd_queue inflight_cmd with_inflight_cmd]. rewrite Hq.
  eexists _, _, _. split; [reflexivity|]. split; [reflexivity|].
  split; [reflexivity|]. split; [reflexivity|].
  cbn [commands routers trace log set_routers set_commands].
  split; [apply lookup_insert_eq|]. split; [reflexivity|].
  split; [apply lookup_insert_eq|]. split; [reflexivity|].
  by rewrite <- app_assoc.
Qed.

End Dispatch.

(** * Capability lookup *)

Section CapabilityLookup.
Context {K : tb_regs}.

(** The blocking read as the walker uses it (see tb_config_next_cap), and
    the two macros of router_var.h that read the router space and an
    adapter space: the offset (and the adapter), the number of words and
    the buffer give the error code and the buffer afterwards.
    [GET_ROUTER_CS_NEXT_CAP] and [GET_ADP_CS_NEXT_CAP] read the first
    capability offset from the words of the space's header. *)
Variable config_read : Z -> Z -> Z -> Z -> list Z -> Z * list Z.
Variable tb_config_router_read : Z -> Z -> list Z -> Z * list Z.
Variable tb_config_adapter_read : Z -> Z -> Z -> list Z -> Z * list Z.
Variable GET_ROUTER_CS_NEXT_CAP : list Z -> Z.
Variable GET_ADP_CS_NEXT_CAP : list Z -> Z.
Variable TB_CFG_CAP_VSEC : Z.
Variable TB_CFG_CS_ADAPTER : Z.

(** tb_config_find_router_cap.  [offset] is [*offset] before the call and
    the second component of the result is [*offset] after it; [buf_mem]
    tells whether malloc(9) succeeds, [cap_mem] the same for the buffers of
    the walk; [stack] is what the local [rcap] holds before its fields are
    assigned (three of them never are). *)
Definition tb_config_find_router_cap (fuel : nat) (cap vsc offset : Z)
    (buf_mem : bool) (cap_mem : nat -> bool) (stack : router_cfg_cap)
  : option (Z * Z) :=
  if negb buf_mem then Some (ENOMEM, offset)
  else
    let '(error, buf) := tb_config_router_read 0 5 (replicate 8 0) in
    if negb (error =? 0) then Some (error, offset)
    else
      let rcap := {| space := TB_CFG_CS_ROUTER; adap := 0;
                     current_cap := current_cap stack;
                     next_cap := GET_ROUTER_CS_NEXT_CAP buf;
                     cap_id := cap; vsc_id := vsc;
                     vsc_len := vsc_len stack; vsec_len := vsec_len stack |} in
      '(error, rcap') ← tb_config_find_cap config_read fuel cap_mem rcap;
      Some (error, if error =? 0 then current_cap rcap' else offset).

(** tb_config_find_router_vsc *)
Definition tb_config_find_router_vsc (fuel : nat) (cap offset : Z)
    (buf_mem : bool) (cap_mem : nat -> bool) (stack : router_cfg_cap)
  : option (Z * Z) :=
  tb_config_find_router_cap fuel TB_CFG_CAP_VSC cap offset buf_mem cap_mem stack.

(** tb_config_find_router_vsec *)
Definition tb_config_find_router_vsec (fuel : nat) (cap offset : Z)
    (buf_mem : bool) (cap_mem : nat -> bool) (stack : router_cfg_cap)
  : option (Z * Z) :=
  tb_config_find_router_cap fuel TB_CFG_CAP_VSEC cap offset buf_mem cap_mem stack.

(** tb_config_find_adapter_cap *)
Definition tb_config_find_adapter_cap (fuel : nat) (adap0 cap offset : Z)
    (buf_mem : bool) (cap_mem : nat -> bool) (stack : router_cfg_cap)
  : option (Z * Z) :=
  if negb buf_mem then Some (ENOMEM, offset)
  else
    let '(error, buf) := tb_config_adapter_read adap0 0 8 (replicate 8 0) in
    if negb (error =? 0) then Some (error, offset)
    else
      let rcap := {| space := TB_CFG_CS_ADAPTER; adap := adap0;
                     current_cap := current_cap stack;
                     next_cap := GET_ADP_CS_NEXT_CAP buf;
                     cap_id := cap; vsc_id := 0;
                     vsc_len := vsc_len stack; vsec_len := vsec_len stack |} in
      '(error, rcap') ← tb_config_find_cap config_read fuel cap_mem rcap;
      Some (error, if error =? 0 then current_cap rcap' else offset).

(** A failed header read leaves the cursor as it was and hands the error of
    the read back, whether the buffer was granted or not. *)
Lemma tb_config_next_cap_fails (buf_mem : bool) (c : router_cfg_cap) :
  (config_read (space c) (adap c) (next_cap c) 1 (tbcap_buf buf_mem)).1 <> 0 ->
  exists e, e <> 0 /\ tb_config_next_cap config_read buf_mem c = Some (e, c).
Proof.
  intros Hf. unfold tb_config_next_cap.
  destruct (config_read (space c) (adap c) (next_cap c) 1 _) as [e b].
  cbn [fst] in Hf. exists e. split; [done|].
  assert ((e =? 0) = false) as -> by lia. done.
Qed.

(** X30.  When the read of the first capability header fails,
    tb_config_find_router_cap and tb_config_find_adapter_cap report
    success: they return 0, and the offset they hand back is the
    [current_cap] field of their local cursor, which nothing has assigned.
    The error of the read is lost.  This is so whether the walk's buffer
    was granted or not. *)
Theorem capability_lookup_reports_success_on_read_error (fuel : nat)
    (adap0 cap vsc offset : Z) (cap_mem : nat -> bool)
    (stack : router_cfg_cap) (buf abuf : list Z) :
  tb_config_router_read 0 5 (replicate 8 0) = (0, buf) ->
  tb_config_adapter_read adap0 0 8 (replicate 8 0) = (0, abuf) ->
  cap <> 0 ->
  0 < GET_ROUTER_CS_NEXT_CAP buf <= TB_CFG_CAP_OFFSET_MAX ->
  0 < GET_ADP_CS_NEXT_CAP abuf <= TB_CFG_CAP_OFFSET_MAX ->
  (config_read TB_CFG_CS_ROUTER 0 (GET_ROUTER_CS_NEXT_CAP buf) 1
     (tbcap_buf (cap_mem O))).1 <> 0 ->
  (config_read TB_CFG_CS_ADAPTER adap0 (GET_ADP_CS_NEXT_CAP abuf) 1
     (tbcap_buf (cap_mem O))).1 <> 0 ->
  tb_config_find_router_cap (S fuel) cap vsc offset true cap_mem stack
  = Some (0, current_cap stack)
  /\ tb_config_find_adapter_cap (S fuel) adap0 cap offset true cap_mem stack
     = Some (0, current_cap stack).
Proof.
  intros Hr Ha Hcap Hn Hna Hfr Hfa.
  assert ((0 =? cap) = false) as Hc0 by lia.
  split.
  - unfold tb_config_find_router_cap. cbn [negb]. rewrite Hr.
    change (negb (0 =? 0)) with false. cbv iota.
    unfold tb_config_find_cap. cbn [tb_config_find_cap_loop cap_id vsc_id next_cap].
    rewrite Hc0. cbn [negb orb].
    assert ((GET_ROUTER_CS_NEXT_CAP buf =? 0) = false) as -> by lia.
    assert ((GET_ROUTER_CS_NEXT_CAP buf >? TB_CFG_CAP_OFFSET_MAX) = false) as ->
      by lia.
    cbn [orb].
    edestruct tb_config_next_cap_fails as (e & He & ->); [exact Hfr|].
    cbn [mbind option_bind].
    assert ((e =? 0) = false) as -> by lia. cbn [negb mbind option_bind].
    by change (0 =? 0) with true.
  - unfold tb_config_find_adapter_cap. cbn [negb]. rewrite Ha.
    change (negb (0 =? 0)) with false. cbv iota.
    unfold tb_config_find_cap. cbn [tb_config_find_cap_loop cap_id vsc_id next_cap].
    rewrite Hc0. cbn [negb orb].
    assert ((GET_ADP_CS_NEXT_CAP abuf =? 0) = false) as -> by lia.
    assert ((GET_ADP_CS_NEXT_CAP abuf >? TB_CFG_CAP_OFFSET_MAX) = false) as ->
      by lia.
    cbn [orb].
    edestruct tb_config_next_cap_fails as (e & He & ->); [exact Hfa|].
    cbn [mbind option_bind].
    assert ((e =? 0) = false) as -> by lia. cbn [negb mbind option_bind].
    by change (0 =? 0) with true.
Qed.

End CapabilityLookup.

(** * Instances of the further properties *)

Ltac in_range :=
  split; [vm_compute; discriminate | vm_compute; reflexivity].

(** Command 5 holds the slot while command 6 is queued. *)
Definition queued_world : world (T := sample_transport 0) :=
  sample_world 0 (sample_root (Some 5%nat) [6%nat] false)
    {[ 5%nat := sample_command 0; 6%nat := sample_command 0 ]}.

(** Command 5 holds the slot, nothing is queued. *)
Definition inflight_world : world (T := sample_transport 0) :=
  sample_world 0 (sample_root (Some 5%nat) [] false)
    {[ 5%nat := sample_command 0 ]}.


Lemma router_schedule_locked_queues_behind_inflight_witness :
  router_schedule_locked queued_world 1%nat (Some 7%nat)
  = Some (0, set_routers queued_world
               (<[1%nat := with_cmd_queue (sample_root (Some 5%nat) [6%nat] false)
                             (cmd_queue (sample_root (Some 5%nat) [6%nat] false)
                              ++ [7%nat])]>
                  (routers queued_world))).
Proof.
  refine (router_schedule_locked_queues_behind_inflight queued_world 1%nat
            (sample_root (Some 5%nat) [6%nat] false) 5%nat (Some 7%nat)
            eq_refl eq_refl _).
  not_queued.
Defined.

(** Commands 6 and 7 are queued on an idle router whose transport accepts
    every frame; command 5 is handed to the scheduler. *)
Definition backlog_world : world (T := sample_transport 0) :=
  sample_world 0 (sample_root None [6%nat; 7%nat] false)
    {[ 5%nat := sample_command 0; 6%nat := sample_command 0;
       7%nat := sample_command 0 ]}.

Lemma router_schedule_locked_idle_submits_head_witness :
  exists w' r',
    router_schedule_locked backlog_world 1%nat (Some 5%nat) = Some (0, w')
    /\ routers w' !! 1%nat = Some r'
    /\ inflight_cmd r' = Some 6%nat
    /\ cmd_queue r' = [7%nat; 5%nat]
    /\ trace w' = trace backlog_world
                  ++ [SlotAssign 1 6; TxSchedule (cmd_nhicmd (sample_command 0)) 0].
Proof.
  refine (router_schedule_locked_idle_submits_head backlog_world 1%nat
            (sample_root None [6%nat; 7%nat] false) (Some 5%nat) 6%nat
            [7%nat; 5%nat] (sample_command 0)
            tt eq_refl eq_refl _ eq_refl eq_refl eq_refl).
  not_queued.
Defined.

Lemma router_get_config_cb_submits_oldest_queued_witness :
  exists w' r',
    router_get_config_cb (K := sample_regs) queued_world 1%nat 5%nat = Some w'
    /\ routers w' !! 1%nat = Some r'
    /\ inflight_cmd r' = Some 6%nat
    /\ cmd_queue r' = []
    /\ trace w' = trace queued_world
                  ++ [SlotClear 1; Wakeup 5; SlotAssign 1 6;
                      TxSchedule (cmd_nhicmd (sample_command 0)) 0].
Proof.
  refine (router_get_config_cb_submits_oldest_queued (K := sample_regs)
            queued_world 1%nat 5%nat 6%nat (sample_root (Some 5%nat) [6%nat] false)
            (sample_command 0) (sample_command 0) [] tt _ _ _ _ _ _ _);
    first [reflexivity | discriminate].
Defined.

Lemma router_get_config_cb_copies_dwlen_words_witness :
  exists c',
    commands run_world2 !! 5%nat = Some c'
    /\ length (cmd_callback_arg c') = length (cmd_callback_arg (sample_command 0))
    /\ take (Z.to_nat (cmd_dwlen (sample_command 0))) (cmd_callback_arg c')
       = take (Z.to_nat (cmd_dwlen (sample_command 0)))
           (cmd_resp_buffer (sample_command 0))
    /\ drop (Z.to_nat (cmd_dwlen (sample_command 0))) (cmd_callback_arg c')
       = drop (Z.to_nat (cmd_dwlen (sample_command 0)))
           (cmd_callback_arg (sample_command 0))
    /\ cmd_resp_buffer c' = cmd_resp_buffer (sample_command 0).
Proof.
  refine (router_get_config_cb_copies_dwlen_words (K := sample_regs)
            run_world1 1%nat 5%nat (sample_command 0) run_world2 _ _ _ _ _);
    first [reflexivity | vm_compute; lia].
Defined.

Lemma config_access_allocation_failure_witness :
  (ENOMEM = ENOMEM \/ ENOMEM = EBUSY)
  /\ tb_config_read (K := sample_regs) (sleep_times_out 0) 1000 idle_world 1%nat
       2 0 0 2 [0; 0] None
     = Some (ENOMEM, [0; 0], idle_world)
  /\ tb_config_write (K := sample_regs) (sleep_times_out 0) 1000 idle_world 1%nat
       2 0 0 2 [0; 0] None
     = Some (ENOMEM, [0; 0], idle_world)
  /\ tb_config_read_polled (K := sample_regs) (delay_passes 0) idle_world 1%nat
       2 0 0 2 [0; 0] None
     = Some (ENOMEM, [0; 0], idle_world)
  /\ tb_config_read_async (K := sample_regs) idle_world 1%nat 2 0 0 2 [0; 0]
       (Some (CB_caller 0)) None
     = Some (ENOMEM, idle_world).
Proof.
  exact (config_access_allocation_failure (K := sample_regs) (sleep_times_out 0)
           (delay_passes 0) 1000 idle_world 1%nat None ENOMEM idle_world
           2 0 0 2 [0; 0] (Some (CB_caller 0)) eq_refl).
Defined.

Lemma tb_config_read_hard_error_not_retried_witness :
  exists w' r' fr,
    tb_config_read (K := sample_regs) (sleep_times_out 5) 1000 refusing_world
      1%nat 2 0 0 2 [0; 0] (Some 5%nat)
    = Some (5, [0; 0], w')
    /\ routers w' !! 1%nat = Some r'
    /\ inflight_cmd r' = None /\ cmd_queue r' = []
    /\ trace w' = trace refusing_world
                  ++ [SlotAssign 1 5; TxSchedule fr 5; SlotClear 1]
    /\ commands w' = commands refusing_world.
Proof.
  refine (tb_config_read_hard_error_not_retried (K := sample_regs)
            (sleep_times_out 5) 1000 refusing_world 1%nat 5%nat
            (sample_root None [] false) sample_frame tt 5 2 0 0 2 [0; 0]
            _ _ _ _ _ _ _ _);
    first [reflexivity | discriminate | intros; reflexivity].
Defined.

Lemma tb_config_read_async_leaves_command_inflight_witness :
  exists w' r' c,
    tb_config_read_async (K := sample_regs) idle_world 1%nat 2 0 0 2 [0; 0]
      (Some (CB_caller 0)) (Some 5%nat)
    = Some (0, w')
    /\ routers w' !! 1%nat = Some r'
    /\ inflight_cmd r' = Some 5%nat /\ cmd_queue r' = []
    /\ commands w' !! 5%nat = Some c
    /\ cmd_callback c = Some (CB_caller 0) /\ cmd_callback_arg c = [0; 0]
    /\ cmd_dwlen c = 2
    /\ trace w' = trace idle_world
                  ++ [SlotAssign 1 5; TxSchedule (cmd_nhicmd c) 0].
Proof.
  refine (tb_config_read_async_leaves_command_inflight (K := sample_regs)
            idle_world 1%nat 5%nat (sample_root None [] false) sample_frame tt
            2 0 0 2 [0; 0] (Some (CB_caller 0)) _ _ _ _ _);
    first [reflexivity | intros; reflexivity].
Defined.

(** A read response for the root that nobody waits for. *)
Definition stray_response : list Z :=
  htobe32 <$> [2147483648; 0; Z.shiftl 2 7; 17; 34].

Lemma router_response_intr_drops_unmatched_witness :
  router_response_intr (K := sample_regs) (caller_cb_nop 0) idle_world 1%nat
    PDF_READ stray_response
  = Some idle_world.
Proof.
  refine (router_response_intr_drops_unmatched (K := sample_regs)
            (caller_cb_nop 0) idle_world 1%nat PDF_READ stray_response 0
            (Some 1%nat) _ _).
  - vm_compute. reflexivity.
  - right. right. exists 1%nat, (sample_root None [] false).
    split; [reflexivity|]. split; reflexivity.
Defined.

Lemma router_notify_intr_ignores_witness :
  router_notify_intr (K := sample_regs) (caller_cb_nop 0) idle_world 1%nat
    notify_frame
  = Some idle_world.
Proof.
  refine (router_notify_intr_ignores (K := sample_regs) (caller_cb_nop 0)
            idle_world 1%nat notify_frame _).
  right. exists (sample_root None [] false). split; reflexivity.
Defined.

Definition notified_world : world (T := sample_transport 0) :=
  default inflight_world
    (router_notify_intr (K := sample_regs) (caller_cb_nop 0) inflight_world
       1%nat notify_frame).

Lemma router_notify_intr_records_event_witness :
  exists c',
    commands notified_world !! 5%nat = Some c'
    /\ cmd_ev c'
       = GET_NOTIFY_EVENT (tb_regs := sample_regs)
           (be32toh (word_at notify_frame 2))
    /\ cmd_callback_arg c' = cmd_callback_arg (sample_command 0)
    /\ In (SlotClear 1) (trace notified_world).
Proof.
  refine (router_notify_intr_records_event (K := sample_regs) (caller_cb_nop 0)
            inflight_world 1%nat 5%nat notify_frame
            (sample_root (Some 5%nat) [] false) (sample_command 0)
            notified_world _ _ _ _ _ _ _);
    first [vm_compute; reflexivity | vm_compute; discriminate].
Defined.

(** A hotplug event of adapter 3 of the root (a plug). *)
Definition plug_frame : list Z := htobe32 <$> [0; 0; 3; 0].

Lemma router_hotplug_intr_acknowledges_once_witness :
  (exists w',
     router_hotplug_intr (K := sample_regs) idle_world 1%nat plug_frame
       (Some 5%nat)
     = Some w'
     /\ trace w'
        = trace idle_world
          ++ [TxSchedule
                (hotplug_ack_frame (K := sample_regs) sample_frame
                   (hotplug_event plug_frame)
                   (hotplug_unplug (K := sample_regs) (hotplug_event plug_frame)))
                0]
     /\ commands w' = commands idle_world
     /\ routers w' = routers idle_world)
  /\ router_hotplug_intr (K := sample_regs) idle_world 1%nat plug_frame None
     = Some idle_world.
Proof.
  refine (router_hotplug_intr_acknowledges_once (K := sample_regs) idle_world
            1%nat 5%nat (sample_root None [] false) plug_frame sample_frame
            tt tt 0 _ _ _ _); reflexivity.
Defined.

Lemma tb_router_detach_frees_twice_witness :
  exists w',
    tb_router_detach idle_world 1%nat = Some (0, w')
    /\ trace w' = trace idle_world
                  ++ match adapters (sample_root None [] false) with
                     | Some _ => [FreeRouter 1; FreeRouter 1]
                     | None => [FreeRouter 1]
                     end
    /\ (forall n, n <> 1%nat -> routers w' !! n = routers idle_world !! n).
Proof.
  exact (tb_router_detach_frees_twice idle_world 1%nat
           (sample_root None [] false) eq_refl eq_refl).
Defined.

Lemma be32toh_htobe32_round_trip_witness :
  be32toh (htobe32 305419896) = 305419896
  /\ htobe32 (be32toh 305419896) = 305419896
  /\ 0 <= htobe32 305419896 < 2 ^ 32.
Proof. refine (be32toh_htobe32_round_trip 305419896 _). in_range. Defined.

Lemma tb_config_read_header_round_trip_witness :
  exists w' cm,
    _tb_config_read (K := sample_regs) idle_world 1%nat 2 0 0 2 [0; 0] None
      (Some 5%nat)
    = Some (inr 5%nat, w')
    /\ commands w' !! 5%nat = Some cm
    /\ response_route (nhicmd_data (cmd_nhicmd cm))
       = route (sample_root None [] false)
    /\ be32toh (word_at (nhicmd_data (cmd_nhicmd cm)) 2)
       = TB_CONFIG_ADDR (tb_regs := sample_regs) 0 2 0 2 0
    /\ word_at (nhicmd_data (cmd_nhicmd cm)) 3
       = htobe32 (tb_calc_crc (tb_regs := sample_regs)
                    (take 3 (nhicmd_data (cmd_nhicmd cm))))
    /\ nhicmd_pdf (cmd_nhicmd cm) = PDF_READ
    /\ nhicmd_req_len (cmd_nhicmd cm) = sizeof_tb_cfg_read.
Proof.
  refine (tb_config_read_header_round_trip (K := sample_regs) idle_world 1%nat
            5%nat (sample_root None [] false) sample_frame tt 2 0 0 2 [0; 0] None
            0 0 0 0 (replicate 4 0) _ _ _ _ _ _);
    first [reflexivity | in_range].
Defined.

(** A root whose adapter 1 leads back to the root itself. *)
Definition looping_root : router_softc :=
  with_adapters (sample_root None [] false)
    (Some (<[1%nat := Some 1%nat]> (replicate 8 None))).
Definition looping_world : world (T := sample_transport 0) :=
  sample_world 0 looping_root ∅.

Lemma looping_world_wf : topology_wf looping_world.
Proof.
  split.
  - intros p Hp. injection Hp as <-. by eexists.
  - intros p r arr Hr Harr. unfold looping_world, sample_world in Hr.
    cbn [routers] in Hr.
    apply lookup_singleton_Some in Hr as [<- <-]. injection Harr as <-.
    split; [vm_compute; lia|].
    intros i c Hi.
    destruct i as [|[|i]]; [discriminate Hi|injection Hi as <-; by eexists|].
    do 6 (destruct i as [|i]; [discriminate Hi|]). discriminate Hi.
Qed.

Lemma router_lookup_device_sound_witness :
  (0 = 0 /\ exists d r, Some 1%nat = Some d /\ routers looping_world !! d = Some r
                        /\ TB_ROUTE r = route_u64 {| hi := 0; lo := 0 |})
  \/ ((0 = ENOENT \/ 0 = EINVAL) /\ Some 1%nat = None).
Proof.
  exact (router_lookup_device_sound looping_world 1%nat {| hi := 0; lo := 0 |}
           0 (Some 1%nat) eq_refl).
Defined.

Lemma router_lookup_device_returns_witness :
  exists e dev,
    router_lookup_device looping_world 1%nat
      {| hi := 16843009; lo := 16843009 |}
    = Some (e, dev).
Proof.
  refine (router_lookup_device_returns looping_world 1%nat
            {| hi := 16843009; lo := 16843009 |} looping_world_wf _ _).
  - by eexists.
  - in_range.
Defined.

Lemma router_insert_never_overwrites_witness :
  (0 = 0 \/ 0 = EINVAL \/ 0 = EEXIST)
  /\ (0 <> 0 -> topology (Some 2%nat :: replicate 7 None)
                = topology (replicate 8 None))
  /\ (0 = 0 ->
      (exists par p arr h,
         Some 1%nat = Some par
         /\ routers (topology (replicate 8 None)) !! par = Some p
         /\ adapters p = Some arr /\ arr !! h = Some None
         /\ routers (topology (Some 2%nat :: replicate 7 None))
            = <[par := with_adapters p (Some (<[h := Some 2%nat]> arr))]>
                (routers (topology (replicate 8 None))))
      /\ router_insert (topology (Some 2%nat :: replicate 7 None)) 2%nat
           (Some 1%nat)
         = Some (EEXIST, topology (Some 2%nat :: replicate 7 None))).
Proof.
  refine (router_insert_never_overwrites (topology (replicate 8 None)) 2%nat
            (Some 1%nat) 0 (topology (Some 2%nat :: replicate 7 None)) _).
  vm_compute. reflexivity.
Defined.

(** Every read of the configuration space fails with EIO. *)
Definition failing_read : Z -> Z -> Z -> Z -> list Z -> Z * list Z :=
  fun _ _ _ _ buf => (5, buf).

Lemma tb_config_find_cap_outcome_witness :
  (0 = 0
   /\ cap_mismatch (cap_query 16 0 0) (cap_id (cap_query 16 2 0))
        (vsc_id (cap_query 16 2 0)) = false)
  \/ (0 = EINVAL
      /\ cap_mismatch (cap_query 16 0 0) (cap_id (cap_query 16 2 0))
           (vsc_id (cap_query 16 2 0)) = true
      /\ cap_offset_bad (K := sample_regs) (cap_query 16 0 0) = true)
  \/ (0 = 0
      /\ cap_mismatch (cap_query 16 0 0) (cap_id (cap_query 16 2 0))
           (vsc_id (cap_query 16 2 0)) = true
      /\ cap_offset_bad (K := sample_regs) (cap_query 16 0 0) = false
      /\ exists buf_mem err,
           tb_config_next_cap (K := sample_regs) failing_read buf_mem
             (cap_query 16 0 0)
           = Some (err, cap_query 16 0 0)
           /\ err <> 0).
Proof.
  exact (tb_config_find_cap_outcome (K := sample_regs) failing_read 1
           (fun _ => true) (cap_query 16 2 0) 0 (cap_query 16 0 0) eq_refl).
Defined.

(** Sample layout of the router configuration space: the adapter count in
    bits 20 to 25 and the depth in bits 26 to 28 of the second word; the
    sleep handshake waits three more times. *)
Definition sample_cs_regs : router_cs_regs :=
  {| GET_ROUTER_CS_UPSTREAM_ADAP := fun b => Z.land (Z.shiftr (word_at b 1) 14) 63;
     GET_ROUTER_CS_MAX_ADAP := fun b => Z.land (Z.shiftr (word_at b 1) 20) 63;
     GET_ROUTER_CS_DEPTH := fun b => Z.land (Z.shiftr (word_at b 1) 26) 7;
     cfg_uuid_lo := fun b => word_at b 7;
     cfg_uuid_hi := fun b => word_at b 8;
     ROUTER_CS1_MAX_ADAPTERS := 64;
     ROUTER_CS_5 := 5; ROUTER_CS_6 := 6;
     ROUTER_SLP := 1; ROUTER_WOP := 2; ROUTER_WOU := 4; ROUTER_WOD := 16;
     ROUTER_SLPR := 1;
     NHI_SLPR_WAIT_US := 50000; NHI_SLPR_WAIT_MAX := 3 |}.

Definition sample_driver : driver (T := sample_transport 0) :=
  {| dw := idle_world; uuid := ∅; nsc_uuid := replicate 4 0 |}.

(** The polled read of the router space, through the wrapper of the
    engine, on a router that never answers. *)
Definition silent_read_polled
  : world (T := sample_transport 0) -> ptr -> Z -> Z -> list Z
    -> option (Z * list Z * world (T := sample_transport 0)) :=
  fun w sc offset dwlen buf =>
    tb_config_read_polled (K := sample_regs) (delay_passes 0) w sc
      (TB_CFG_CS_ROUTER (tb_regs := sample_regs)) 0 offset dwlen buf (Some 7%nat).

(** A read that returns at once: a router of depth 1 with five adapters,
    whose sleep-ready bit is set. *)
Definition answering_read
  : world (T := sample_transport 0) -> ptr -> Z -> Z -> list Z
    -> option (Z * list Z * world (T := sample_transport 0)) :=
  fun w _ _ _ _ =>
    Some (0, [1; Z.lor (Z.shiftl 1 26) (Z.shiftl 5 20); 0; 0; 0; 0; 0; 7; 8], w).

(** A router that accepts every access and never gets ready to sleep. *)
Definition sleepless_read
  : world (T := sample_transport 0) -> ptr -> Z -> Z -> list Z
    -> option (Z * list Z * world (T := sample_transport 0)) :=
  fun w _ _ _ _ => Some (0, [0], w).
Definition accepting_write
  : world (T := sample_transport 0) -> ptr -> Z -> Z -> list Z
    -> option (Z * list Z * world (T := sample_transport 0)) :=
  fun w _ _ _ buf => Some (0, buf, w).
Definition pause_passes
  : world (T := sample_transport 0) -> Z -> world (T := sample_transport 0) :=
  fun w _ => w.

Lemma tb_router_attach_never_links_child_witness :
  router_insert
    (set_routers (dw sample_driver)
       (<[2%nat := zeroed_router {| hi := 0; lo := 5 |}]>
          (routers (dw sample_driver))))
    2%nat (Some 1%nat)
  = Some (EINVAL,
          set_routers (dw sample_driver)
            (<[2%nat := zeroed_router {| hi := 0; lo := 5 |}]>
               (routers (dw sample_driver))))
  /\ tb_router_attach (R := sample_cs_regs) silent_read_polled sample_driver
       1%nat {| hi := 0; lo := 5 |} (Some 2%nat) true true
     = _tb_router_attach (R := sample_cs_regs) silent_read_polled
         {| dw := set_routers (dw sample_driver)
                    (<[2%nat := zeroed_router {| hi := 0; lo := 5 |}]>
                       (routers (dw sample_driver)));
            uuid := <[2%nat := replicate 4 0]> (uuid sample_driver);
            nsc_uuid := nsc_uuid sample_driver |}
         2%nat true true.
Proof.
  refine (tb_router_attach_never_links_child (R := sample_cs_regs)
            silent_read_polled sample_driver 1%nat 2%nat
            (sample_root None [] false) {| hi := 0; lo := 5 |} true true _ _ _);
    first [reflexivity | vm_compute; discriminate].
Defined.

Definition attached_driver : driver (T := sample_transport 0) :=
  match _tb_router_attach (R := sample_cs_regs) answering_read sample_driver
          1%nat true true with
  | Some (_, d) => d
  | None => sample_driver
  end.

Lemma _tb_router_attach_builds_adapter_array_witness :
  (0 = 0 ->
   exists buf w1 r r',
     answering_read (dw sample_driver) 1%nat 0 9 (replicate 9 0)
     = Some (0, buf, w1)
     /\ routers w1 !! 1%nat = Some r
     /\ routers (dw attached_driver) !! 1%nat = Some r'
     /\ adapters r' = Some (replicate (Z.to_nat (1 + max_adap r')) None)
     /\ max_adap r' <= ROUTER_CS1_MAX_ADAPTERS (router_cs_regs := sample_cs_regs)
     /\ depth r' = GET_ROUTER_CS_DEPTH (router_cs_regs := sample_cs_regs) buf
     /\ route r' = route r /\ suspended r' = suspended r
     /\ inflight_cmd r' = inflight_cmd r /\ cmd_queue r' = cmd_queue r
     /\ trace (dw attached_driver) = trace w1)
  /\ (0 <> 0 ->
      true = false /\ attached_driver = sample_driver
      \/ (exists buf w1,
            answering_read (dw sample_driver) 1%nat 0 9 (replicate 9 0)
            = Some (0, buf, w1) /\ attached_driver = with_dw sample_driver w1)
      \/ (0 = ENOMEM /\ true = false
          /\ exists buf w1,
               answering_read (dw sample_driver) 1%nat 0 9 (replicate 9 0)
               = Some (0, buf, w1)
               /\ trace (dw attached_driver) = trace w1
               /\ (adapters <$> routers (dw attached_driver) !! 1%nat)
                  = Some None)).
Proof.
  exact (_tb_router_attach_builds_adapter_array (R := sample_cs_regs)
           answering_read sample_driver 1%nat true true 0 attached_driver
           eq_refl).
Defined.

(** The transport refuses the dispatch tables with EIO. *)
Definition refusing_register : unit -> Z * unit := fun rg => (5, rg).

Lemma tb_router_attach_root_leaves_dangling_root_witness :
  exists d',
    tb_router_attach_root (R := sample_cs_regs) answering_read
      refusing_register sample_driver {| hi := 0; lo := 0 |} (Some 2%nat)
      true true
    = Some (5, d')
    /\ root (dw d') = Some 2%nat
    /\ routers (dw d') !! 2%nat = None
    /\ trace (dw d') = trace (dw sample_driver) ++ [FreeRouter 2]
    /\ (forall h rt', router_lookup_device (dw d') h rt' = None).
Proof.
  refine (tb_router_attach_root_leaves_dangling_root (R := sample_cs_regs)
            answering_read refusing_register sample_driver {| hi := 0; lo := 0 |}
            2%nat true true 5 tt _ _);
    first [reflexivity | discriminate].
Defined.

Definition suspended_world : world (T := sample_transport 0) :=
  match tb_router_suspend (R := sample_cs_regs) answering_read accepting_write
          pause_passes idle_world 1%nat 0 with
  | Some (_, w) => w
  | None => idle_world
  end.

Lemma tb_router_suspend_is_final_witness :
  (exists r', routers suspended_world !! 1%nat = Some r' /\ suspended r' = true)
  /\ tb_router_resume suspended_world 1%nat = Some (0, suspended_world)
  /\ (forall reg,
        tb_router_suspend (R := sample_cs_regs) answering_read accepting_write
          pause_passes suspended_world 1%nat reg
        = Some (0, suspended_world)).
Proof.
  exact (tb_router_suspend_is_final (R := sample_cs_regs) answering_read
           accepting_write pause_passes idle_world 1%nat 0 suspended_world
           eq_refl).
Defined.

Lemma tb_router_suspend_times_out_witness :
  tb_router_suspend (R := sample_cs_regs) sleepless_read accepting_write
    pause_passes idle_world 1%nat 0
  = Some (ETIMEDOUT, idle_world).
Proof.
  refine (tb_router_suspend_times_out (R := sample_cs_regs) sleepless_read
            accepting_write pause_passes idle_world 1%nat
            (sample_root None [] false) 0 _ [0] idle_world idle_world idle_world
            _ _ _ _ _ _).
  - intros w sc buf e buf' w' H. injection H as <- <- <-. split; reflexivity.
  - reflexivity.
  - reflexivity.
  - reflexivity.
  - reflexivity.
  - reflexivity.
Defined.



(** A read of two dwords in flight on the root: command 5, whose frame
    expects a response of (2 + 3) * 4 bytes. *)
Definition awaited_frame : nhi_cmd_frame :=
  {| nhicmd_idx := 0; nhicmd_data := replicate 8 0; nhicmd_pdf := PDF_READ;
     nhicmd_req_len := 16; nhicmd_flags := 0; nhicmd_timeout := 2;
     nhicmd_retries := 0; nhicmd_resp_len := 20 |}.
Definition awaiting_command : router_command :=
  with_resp_buffer (with_nhicmd (sample_command 0) awaited_frame)
    (replicate 8 0).
Definition awaiting_world : world (T := sample_transport 0) :=
  sample_world 0 (sample_root (Some 5%nat) [] false)
    {[ 5%nat := awaiting_command ]}.

Lemma response_before_completion_is_delivered_witness :
  exists w1 w2 c2 r2,
    router_response_intr (K := sample_regs) (caller_cb_nop 0) awaiting_world
      1%nat PDF_READ stray_response
    = Some w1
    /\ trace w1 = trace awaiting_world
    /\ routers w1 = routers awaiting_world
    /\ router_complete_intr (K := sample_regs) (caller_cb_nop 0) w1 5%nat
       = Some w2
    /\ commands w2 !! 5%nat = Some c2
    /\ cmd_callback_arg c2
       = bcopy_words (Z.to_nat (cmd_dwlen awaiting_command))
           (copy_response
              (Z.to_nat (Z.min (response_len (K := sample_regs) stray_response)
                           (nhicmd_resp_len (cmd_nhicmd awaiting_command))))
              stray_response (cmd_resp_buffer awaiting_command))
           (cmd_callback_arg awaiting_command)
    /\ routers w2 !! 1%nat = Some r2
    /\ inflight_cmd r2 = None
    /\ trace w2 = trace awaiting_world ++ [SlotClear 1; Wakeup 5].
Proof.
  refine (response_before_completion_is_delivered (K := sample_regs)
            (caller_cb_nop 0) awaiting_world 1%nat 1%nat 5%nat stray_response
            (sample_root (Some 5%nat) [] false) awaiting_command
            _ _ _ _ _ _ _ _ _ _ _);
    first [vm_compute; reflexivity | vm_compute; discriminate].
Defined.

(** The header of the space names offset 16 as the first capability. *)
Definition header_read : Z -> Z -> list Z -> Z * list Z :=
  fun _ _ buf => (0, <[0%nat := 16]> buf).
Definition adapter_header_read : Z -> Z -> Z -> list Z -> Z * list Z :=
  fun _ _ _ buf => (0, <[0%nat := 16]> buf).

(** What the stack holds where the cursor of the lookup is placed. *)
Definition stack_garbage : router_cfg_cap :=
  {| space := 0; adap := 0; current_cap := 4660; next_cap := 0;
     cap_id := 0; vsc_id := 0; vsc_len := 0; vsec_len := 0 |}.

Lemma capability_lookup_reports_success_on_read_error_witness :
  tb_config_find_router_cap (K := sample_regs) failing_read header_read
    (fun b => word_at b 0) 1 5 0 0 true (fun _ => true) stack_garbage
  = Some (0, current_cap stack_garbage)
  /\ tb_config_find_adapter_cap (K := sample_regs) failing_read
       adapter_header_read (fun b => word_at b 0) 1 1 3 5 0 true
       (fun _ => true) stack_garbage
     = Some (0, current_cap stack_garbage).
Proof.
  refine (capability_lookup_reports_success_on_read_error (K := sample_regs)
            failing_read header_read adapter_header_read
            (fun b => word_at b 0) (fun b => word_at b 0) 1 0 3 5 0 0
            (fun _ => true)
            stack_garbage (<[0%nat := 16]> (replicate 8 0))
            (<[0%nat := 16]> (replicate 8 0)) _ _ _ _ _ _ _);
    first [reflexivity | discriminate | vm_compute; discriminate
          | split; [vm_compute; reflexivity | vm_compute; discriminate]].
Defined.

(** * The links of a command queue (sys/queue.h) *)

(** The scheduler keeps its commands in a TAILQ.  The embedding above has
    the list of the queued commands in its place.  This part has the links
    as the macros of sys/queue.h write them (without the checks of
    INVARIANTS kernels) and shows where the list stands for them: as long
    as no command is inserted while it is linked. *)

Module Tailq.
#[local] Open Scope nat_scope.

(** A place that holds a pointer to an element: [tqh_first] of the head or
    [tqe_next] of an element. *)
Inductive link := Head | Next (e : ptr).

(** TAILQ_HEAD together with the TAILQ_ENTRY of the elements.  An element
    without an entry in [tqe_next] and [tqe_prev] has never been linked. *)
Record tailq := {
  tqh_first : option ptr;
  tqh_last : link;
  tqe_next : gmap ptr (option ptr);
  tqe_prev : gmap ptr link
}.

Definition TAILQ_INIT : tailq :=
  {| tqh_first := None; tqh_last := Head; tqe_next := ∅; tqe_prev := ∅ |}.

(** [*l] and [*l = v] *)
Definition load (q : tailq) (l : link) : option (option ptr) :=
  match l with
  | Head => Some (tqh_first q)
  | Next e => tqe_next q !! e
  end.
Definition store (q : tailq) (l : link) (v : option ptr) : tailq :=
  match l with
  | Head => {| tqh_first := v; tqh_last := tqh_last q;
               tqe_next := tqe_next q; tqe_prev := tqe_prev q |}
  | Next e => {| tqh_first := tqh_first q; tqh_last := tqh_last q;
                 tqe_next := <[e := v]> (tqe_next q); tqe_prev := tqe_prev q |}
  end.
Definition set_prev (q : tailq) (e : ptr) (l : link) : tailq :=
  {| tqh_first := tqh_first q; tqh_last := tqh_last q;
     tqe_next := tqe_next q; tqe_prev := <[e := l]> (tqe_prev q) |}.
Definition set_last (q : tailq) (l : link) : tailq :=
  {| tqh_first := tqh_first q; tqh_last := l;
     tqe_next := tqe_next q; tqe_prev := tqe_prev q |}.

Definition TAILQ_INSERT_TAIL (q : tailq) (elm : ptr) : tailq :=
  let q1 := store q (Next elm) None in            (* TAILQ_NEXT(elm) = NULL *)
  let q2 := set_prev q1 elm (tqh_last q1) in      (* elm->tqe_prev = head->tqh_last *)
  let q3 := store q2 (tqh_last q2) (Some elm) in  (* *head->tqh_last = elm *)
  set_last q3 (Next elm).                         (* head->tqh_last = &TAILQ_NEXT(elm) *)

Definition TAILQ_REMOVE (q : tailq) (elm : ptr) : option tailq :=
  n ← tqe_next q !! elm;
  p ← tqe_prev q !! elm;
  let q1 := match n with
            | Some nx => set_prev q nx p          (* next->tqe_prev = elm->tqe_prev *)
            | None => set_last q p                (* head->tqh_last = elm->tqe_prev *)
            end in
  Some (store q1 p n).                            (* *elm->tqe_prev = TAILQ_NEXT(elm) *)

Definition TAILQ_INSERT_HEAD (q : tailq) (elm : ptr) : tailq :=
  let q1 := store q (Next elm) (tqh_first q) in   (* TAILQ_NEXT(elm) = TAILQ_FIRST(head) *)
  let q2 := match tqh_first q1 with
            | Some f => set_prev q1 f (Next elm)  (* first->tqe_prev = &TAILQ_NEXT(elm) *)
            | None => set_last q1 (Next elm)      (* head->tqh_last = &TAILQ_NEXT(elm) *)
            end in
  let q3 := store q2 Head (Some elm) in           (* TAILQ_FIRST(head) = elm *)
  set_prev q3 elm Head.                           (* elm->tqe_prev = &TAILQ_FIRST(head) *)

(** [chain q l es]: from the place [l] on the links of [q] lead through the
    elements [es], in this order, to the end of the queue. *)
Fixpoint chain (q : tailq) (l : link) (es : list ptr) : Prop :=
  match es with
  | [] => load q l = Some None /\ tqh_last q = l
  | e :: es' =>
      load q l = Some (Some e) /\ tqe_prev q !! e = Some l
      /\ chain q (Next e) es'
  end.

(** The queue [q] holds the elements [es], each one once. *)
Definition holds (q : tailq) (es : list ptr) : Prop :=
  chain q Head es /\ NoDup es.


(** A chain reads the places it goes through, the back links of its
    elements and the last link of the head, and nothing else. *)
Lemma chain_frame (q q' : tailq) (es : list ptr) :
  forall l : link,
  chain q l es ->
  load q' l = load q l ->
  (forall e, e ∈ es -> load q' (Next e) = load q (Next e)
                       /\ tqe_prev q' !! e = tqe_prev q !! e) ->
  tqh_last q' = tqh_last q ->
  chain q' l es.
Proof.
  induction es as [|e es IH]; intros l Hc Hl Hes Hlast; cbn [chain] in *.
  - destruct Hc as [H1 H2]. split; congruence.
  - destruct Hc as (H1 & H2 & H3).
    destruct (Hes e) as [Hn Hp]; [by left|].
    split; [congruence|]. split; [congruence|].
    apply IH; [done|done| |done].
    intros x Hx. apply Hes. by right.
Qed.

(** The last link of the head is the one the chain ends in. *)
Lemma chain_last (q : tailq) (es : list ptr) :
  forall l : link,
  chain q l es ->
  tqh_last q = l \/ exists z, z ∈ es /\ tqh_last q = Next z.
Proof.
  induction es as [|e es IH]; intros l Hc; cbn [chain] in Hc.
  - left. by destruct Hc.
  - destruct Hc as (_ & _ & Hc). right.
    destruct (IH _ Hc) as [H|(z & Hz & H)].
    + exists e. split; [by left|done].
    + exists z. split; [by right|done].
Qed.

Lemma chain_insert_tail (q : tailq) (e : ptr) (es : list ptr) :
  forall l : link,
  chain q l es ->
  NoDup es ->
  e ∉ es ->
  l <> Next e ->
  (forall y, l = Next y -> y ∉ es) ->
  chain (TAILQ_INSERT_TAIL q e) l (es ++ [e]).
Proof.
  induction es as [|x es IH]; intros l Hc Hnd He Hl Hown.
  - destruct Hc as [H1 H2]. unfold TAILQ_INSERT_TAIL.
    destruct q as [f la nx pv]. cbn in H1, H2. subst la.
    destruct l as [|y]; cbn in *.
    + rewrite !lookup_insert_eq. by repeat split.
    + rewrite !lookup_insert_eq.
      rewrite lookup_insert_ne by congruence.
      rewrite lookup_insert_eq. by repeat split.
  - cbn [chain app] in *. destruct Hc as (H1 & H2 & H3).
    apply NoDup_cons in Hnd as [Hx Hnd].
    apply not_elem_of_cons in He as [Hex He].
    assert (tqh_last q <> l) as Hlast.
    { destruct (chain_last _ _ _ H3) as [H|(z & Hz & H)]; rewrite H.
      - intros <-. eapply Hown; [done|by left].
      - intros <-. eapply Hown; [done|by right]. }
    assert (chain (TAILQ_INSERT_TAIL q e) (Next x) (es ++ [e])) as Hrec.
    { apply IH; try done; [congruence|].
      intros y [= <-]. done. }
    split; [|split; [|done]].
    + unfold TAILQ_INSERT_TAIL. destruct q as [f la nx pv].
      cbn in H1, Hlast |- *.
      destruct l as [|y], la as [|z]; cbn in *; try done;
        by rewrite !lookup_insert_ne by congruence.
    + unfold TAILQ_INSERT_TAIL. destruct q as [f la nx pv].
      destruct la as [|z]; cbn in *; by rewrite lookup_insert_ne.
Qed.

(** TAILQ_INSERT_TAIL of an element that is not in the queue appends it. *)
Lemma TAILQ_INSERT_TAIL_appends (q : tailq) (e : ptr) (es : list ptr) :
  holds q es ->
  e ∉ es ->
  holds (TAILQ_INSERT_TAIL q e) (es ++ [e]).
Proof.
  intros [Hc Hnd] He. split.
  - by apply chain_insert_tail.
  - apply NoDup_app. split; [done|]. split; [|apply NoDup_singleton].
    intros x Hx Hx'. apply list_elem_of_singleton in Hx'. by subst.
Qed.

(** TAILQ_REMOVE of the first element leaves the rest. *)
Lemma TAILQ_REMOVE_first (q : tailq) (c : ptr) (rest : list ptr) :
  holds q (c :: rest) ->
  exists q', TAILQ_REMOVE q c = Some q' /\ holds q' rest.
Proof.
  intros [(H1 & H2 & H3) Hnd]. apply NoDup_cons in Hnd as [Hc Hnd].
  unfold TAILQ_REMOVE. cbn [load] in H1, H3.
  destruct rest as [|x rest]; cbn [chain] in H3.
  - destruct H3 as [H3 H4]. cbn [load] in H3. rewrite H3. cbn.
    rewrite H2. cbn. eexists. split; [done|]. split; [|done].
    cbn. done.
  - destruct H3 as (H3 & H4 & H5). cbn [load] in H3. rewrite H3. cbn.
    rewrite H2. cbn. eexists. split; [done|]. split; [|done].
    apply not_elem_of_cons in Hc as [Hcx Hc].
    apply NoDup_cons in Hnd as [Hx Hnd].
    cbn [chain]. split; [done|]. split; [cbn; by rewrite lookup_insert_eq|].
    eapply chain_frame; [exact H5|done| |done].
    intros e He. split; [done|]. cbn.
    rewrite lookup_insert_ne; [done|]. intros ->. done.
Qed.

(** TAILQ_INSERT_HEAD of an element that is not in the queue puts it in
    front. *)
Lemma TAILQ_INSERT_HEAD_conses (q : tailq) (c : ptr) (rest : list ptr) :
  holds q rest ->
  c ∉ rest ->
  holds (TAILQ_INSERT_HEAD q c) (c :: rest).
Proof.
  intros [Hch Hnd] Hc. split; [|by apply NoDup_cons].
  unfold TAILQ_INSERT_HEAD. destruct rest as [|f rest]; cbn [chain] in Hch.
  - destruct Hch as [H1 H2]. cbn [load] in H1. injection H1 as H1.
    cbn. rewrite H1. cbn. rewrite !lookup_insert_eq. by repeat split.
  - destruct Hch as (H1 & H2 & H3). cbn [load] in H1. injection H1 as H1.
    apply not_elem_of_cons in Hc as [Hcf Hc].
    apply NoDup_cons in Hnd as [Hf Hnd].
    cbn. rewrite H1. cbn. rewrite !lookup_insert_eq.
    split; [done|]. split; [done|]. split; [done|].
    split; [rewrite lookup_insert_ne by done; by rewrite lookup_insert_eq|].
    eapply chain_frame; [exact H3| | |done].
    + cbn. rewrite lookup_insert_ne by done. done.
    + intros e He. cbn. split.
      * rewrite lookup_insert_ne; [done|]. intros ->. done.
      * rewrite lookup_insert_ne by (intros ->; done).
        rewrite lookup_insert_ne by (intros ->; done). done.
Qed.

(** TAILQ_FOREACH: the elements met from the first one on, [None] when the
    links have not come to an end after [fuel] elements. *)
Fixpoint elements (fuel : nat) (q : tailq) (cur : option ptr)
  : option (list ptr) :=
  match cur with
  | None => Some []
  | Some e =>
      match fuel with
      | O => None
      | S fuel' =>
          n ← tqe_next q !! e;
          es ← elements fuel' q n;
          Some (e :: es)
      end
  end.

(** The queue of the commands [es], built by the macros. *)
Definition queue_of (es : list ptr) : tailq :=
  fold_left TAILQ_INSERT_TAIL es TAILQ_INIT.

Lemma queue_of_holds (es : list ptr) : NoDup es -> holds (queue_of es) es.
Proof.
  unfold queue_of. induction es as [|e es IH] using rev_ind; intros Hnd.
  - split; [by split|apply NoDup_nil_2].
  - rewrite fold_left_app. cbn [fold_left].
    apply NoDup_app in Hnd as (Hes & Hne & _).
    apply TAILQ_INSERT_TAIL_appends; [by apply IH|].
    intros He. eapply Hne; [exact He|]. by left.
Qed.

(** Used as the manual asks, the macros do to the links what the scheduler
    of the embedding does to its list: enqueue 5 behind 6 and 7, take the
    first command off, put it back in front. *)
Example tailq_as_list :
  elements 4 (TAILQ_INSERT_TAIL (queue_of [6; 7]) 5)
    (tqh_first (TAILQ_INSERT_TAIL (queue_of [6; 7]) 5))
  = Some [6; 7; 5]%nat
  /\ exists q1,
       TAILQ_REMOVE (TAILQ_INSERT_TAIL (queue_of [6; 7]) 5) 6 = Some q1
       /\ elements 4 q1 (tqh_first q1) = Some [7; 5]%nat
       /\ elements 4 (TAILQ_INSERT_HEAD q1 6) (tqh_first (TAILQ_INSERT_HEAD q1 6))
          = Some [6; 7; 5]%nat.
Proof.
  split; [vm_compute; reflexivity|]. eexists.
  split; [vm_compute; reflexivity|]. split; vm_compute; reflexivity.
Qed.

(** Command 5, alone in the queue, is inserted again while it is linked
    (what the retry of a wrapper does when its command was queued behind a
    busy slot).  The command is then its own successor: the traversal does
    not end, TAILQ_REMOVE leaves the command at the head of the queue, and
    no list is held by these links. *)
Example TAILQ_INSERT_TAIL_of_linked_sole :
  tqh_first (TAILQ_INSERT_TAIL (queue_of [5]) 5) = Some 5%nat
  /\ tqe_next (TAILQ_INSERT_TAIL (queue_of [5]) 5) !! 5%nat = Some (Some 5%nat)
  /\ (forall fuel,
        elements fuel (TAILQ_INSERT_TAIL (queue_of [5]) 5) (Some 5%nat) = None)
  /\ (exists q1,
        TAILQ_REMOVE (TAILQ_INSERT_TAIL (queue_of [5]) 5) 5 = Some q1
        /\ tqh_first q1 = Some 5%nat)
  /\ (forall es, ~ holds (TAILQ_INSERT_TAIL (queue_of [5]) 5) es).
Proof.
  split; [reflexivity|]. split; [reflexivity|]. split; [|split].
  - induction fuel as [|fuel IH]; [reflexivity|].
    cbn [elements].
    change (tqe_next (TAILQ_INSERT_TAIL (queue_of [5]) 5) !! 5%nat)
      with (Some (Some 5%nat)).
    cbn [mbind option_bind]. by rewrite IH.
  - eexists. split; [vm_compute; reflexivity|reflexivity].
  - intros [|e es] [Hc _]; cbn [chain] in Hc.
    + by destruct Hc as [Hc _].
    + destruct Hc as (H1 & H2 & _). cbn [load] in H1.
      assert (e = 5%nat) as -> by (vm_compute in H1; congruence).
      vm_compute in H2. discriminate.
Qed.

(** Command 7, queued between 6 and 8, is inserted again: the traversal
    ends behind it, and command 8 is lost to it. *)
Example TAILQ_INSERT_TAIL_of_linked_inner :
  elements 4 (TAILQ_INSERT_TAIL (queue_of [6; 7; 8]) 7)
    (tqh_first (TAILQ_INSERT_TAIL (queue_of [6; 7; 8]) 7))
  = Some [6; 7]%nat.
Proof. vm_compute. reflexivity. Qed.

End Tailq.
